(** * proyecto_restful: the request pipeline of the project/task REST API

  A shallow embedding of the Express application under [src/]:
  the response formatter ([utils/response.js]), the token helper
  ([utils/jwt.js]), the gates ([middlewares/auth.js]) and the resource
  handlers ([controllers/*.js]) running over a relational store that
  follows the Sequelize models of [models/*.js].

  JavaScript values are an inductive type with the language's notion of
  truthiness; [async] handlers are functions of the store that either
  return a value or throw, with [try]/[catch] written out. *)

From Stdlib Require Import String Ascii List ZArith Bool DecimalString Sorted.
Import ListNotations.
Open Scope string_scope.
Open Scope Z_scope.

Set Implicit Arguments.
Set Warnings "-register-all".

(** ** JavaScript values *)

Module Js.

(** The values the handlers meet; of the numbers, the doubles that are
    integers, and [NaN]. *)
Inductive JsVal : Type :=
| JUndefined
| JNull
| JBool (b : bool)
| JNum (n : Z)
| JNaN
| JStr (s : string)
| JArr (items : list JsVal)
| JObj (fields : list (string * JsVal)).

(** [!!v]: the values that are not falsy. *)
Definition truthy (v : JsVal) : bool :=
  match v with
  | JUndefined | JNull | JNaN => false
  | JBool b => b
  | JNum n => negb (n =? 0)
  | JStr s => negb (s =? "")%string
  | JArr _ | JObj _ => true
  end.

(** [a || b] *)
Definition or_else (a b : JsVal) : JsVal := if truthy a then a else b.

(** [v === undefined || v === null] *)
Definition nullish (v : JsVal) : bool :=
  match v with JUndefined | JNull => true | _ => false end.

Definition Z_to_string (n : Z) : string := NilZero.string_of_int (Z.to_int n).

(** The double nearest to an integer, a tie going to the even
    significand of 53 bits: the value that a numeric literal denotes. *)
Definition nearest_double (n : Z) : Z :=
  let a := Z.abs n in
  let e := Z.log2 a - 52 in
  if e <=? 0 then n
  else
    let q := Z.shiftr a e in
    let r := a - Z.shiftl q e in
    let half := Z.shiftl 1 (e - 1) in
    let q' := if (half <? r) || ((r =? half) && Z.odd q) then q + 1 else q in
    Z.sgn n * Z.shiftl q' e.

(** The decimal with the fewest significant digits that reads back as
    the double [a]; [scale] is the power of ten of the last digit
    kept. Of two such decimals the nearer one is taken, of two equally
    near ones the even one. *)
Fixpoint shortest (fuel : nat) (a scale : Z) : Z :=
  match fuel with
  | O => a
  | S fuel' =>
      let lo := a / scale * scale in
      let hi := lo + scale in
      let lo_ok := nearest_double lo =? a in
      let hi_ok := nearest_double hi =? a in
      if lo_ok && hi_ok
      then if a - lo <? hi - a then lo
           else if hi - a <? a - lo then hi
           else if Z.even (lo / scale) then lo else hi
      else if lo_ok then lo
      else if hi_ok then hi
      else shortest fuel' a (scale / 10)
  end.

Fixpoint strip_zeros (fuel : nat) (m : Z) : Z :=
  match fuel with
  | O => m
  | S fuel' =>
      if (m mod 10 =? 0) && negb (m =? 0) then strip_zeros fuel' (m / 10) else m
  end.

(** [d.ddde+x] *)
Definition exponent_form (m : Z) : string :=
  let digits := Z_to_string m in
  let x := Z_to_string (Z.of_nat (String.length digits) - 1) in
  match Z_to_string (strip_zeros (String.length digits) m) with
  | String d EmptyString => String d ("e+" ++ x)
  | String d more => String d ("." ++ more ++ "e+" ++ x)
  | EmptyString => digits
  end.

(** [Number::toString] for an integer: its digits below 2^53; above,
    the shortest digits that read back as the same double, in exponent
    form from 1e21 on. *)
Definition Number_toString (n : Z) : string :=
  if Z.abs n <? 2 ^ 53 then Z_to_string n
  else
    let a := Z.abs (nearest_double n) in
    let sign := if n <? 0 then "-" else "" in
    if 2 ^ 1024 <=? a then sign ++ "Infinity"
    else
      let d := String.length (Z_to_string a) in
      let m := shortest d a (10 ^ (Z.of_nat d - 1)) in
      if m <? 10 ^ 21 then sign ++ Z_to_string m else sign ++ exponent_form m.

(** [String(v)]; an array is its elements joined by commas, [null] and
    [undefined] elements printing as nothing. *)
Fixpoint toString (v : JsVal) : string :=
  match v with
  | JUndefined => "undefined"
  | JNull => "null"
  | JBool true => "true"
  | JBool false => "false"
  | JNum n => Number_toString n
  | JNaN => "NaN"
  | JStr s => s
  | JArr items =>
      String.concat ","
        (map (fun item => match item with
                          | JUndefined | JNull => ""
                          | _ => toString item
                          end) items)
  | JObj _ => "[object Object]"
  end.

(** [v === 'lit'] *)
Definition is_str (lit : string) (v : JsVal) : bool :=
  match v with JStr s => (s =? lit)%string | _ => false end.

(** [[l1, l2, ...].includes(v)] for a list of string literals. *)
Definition includes (lits : list string) (v : JsVal) : bool :=
  existsb (fun lit => is_str lit v) lits.

(** A plain object such as [req.query], [req.params], [req.body]:
    reading a key that is not there gives [undefined]. *)
Definition Obj := list (string * JsVal).

Fixpoint field (o : Obj) (k : string) : JsVal :=
  match o with
  | [] => JUndefined
  | (k', v) :: o' => if (k' =? k)%string then v else field o' k
  end.

(** [s.split(' ')] for a one-character separator. *)
Fixpoint split (sep : ascii) (s : string) : list string :=
  match s with
  | EmptyString => [EmptyString]
  | String c s' =>
      if Ascii.eqb c sep then EmptyString :: split sep s'
      else match split sep s' with
           | [] => [String c EmptyString]
           | w :: ws => String c w :: ws
           end
  end.

(** Array destructuring [const [a, b] = xs]: a missing slot is
    [undefined]. *)
Definition slot (xs : list string) (i : nat) : JsVal :=
  match nth_error xs i with Some s => JStr s | None => JUndefined end.

End Js.
Export Js.

(** ** Thrown errors and asynchronous computations over the store *)

Record JsError : Type := mkError {
  err_name : string;
  err_messages : list string        (* [error.errors.map(e => e.message)] *)
}.

Inductive Outcome (A : Type) : Type :=
| Ok (a : A)
| Throw (e : JsError).
Arguments Ok {A} a.
Arguments Throw {A} e.

(** ** utils/response.js *)

Module Response.

Record Envelope : Type := mkEnvelope {
  success : bool;
  code : Z;
  message : JsVal;
  data : JsVal;
  timestamp : string
}.

(** What is handed to the [xml] package: text, or a sequence of
    one-key objects. *)
Inductive XmlIn : Type :=
| XText (s : string)
| XElems (children : list (string * XmlIn)).

Inductive Body : Type :=
| JsonBody (e : Envelope)          (* res.json(response) *)
| XmlBody (x : XmlIn).             (* res.send(generateXML(response)) *)

Record HttpResponse : Type := mkResponse {
  status : Z;
  content_type : string;
  sent : Body
}.

Definition getDefaultMessage (statusCode : Z) : string :=
  match statusCode with
  | 200 => "OK"
  | 201 => "Recurso creado correctamente"
  | 400 => "Solicitud incorrecta"
  | 401 => "No autorizado"
  | 403 => "Acceso prohibido"
  | 404 => "Recurso no encontrado"
  | 500 => "Error interno del servidor"
  | _ => "Operación completada"
  end.

Fixpoint processObject (obj : JsVal) : XmlIn :=
  match obj with
  | JNull | JUndefined => XText ""
  | JArr items =>
      XElems (map (fun item =>
                     match item with
                     | JArr _ | JObj _ => ("item", processObject item)
                     | _ => ("item", XText (toString item))
                     end) items)
  | JObj fields =>
      XElems (map (fun kv =>
                     match snd kv with
                     | JArr _ | JObj _ => (fst kv, processObject (snd kv))
                     | _ => (fst kv, XText (toString (snd kv)))
                     end) fields)
  | _ => XText (toString obj)
  end.

Definition envelope_object (e : Envelope) : JsVal :=
  JObj [ ("success", JBool (success e));
         ("code", JNum (code e));
         ("message", message e);
         ("data", data e);
         ("timestamp", JStr (timestamp e)) ].

(** [xml({response: processObject(data)}, {declaration: true, ...})] *)
Definition generateXML (e : Envelope) : XmlIn :=
  XElems [("response", processObject (envelope_object e))].

(** [generateXML(response)] when [response.data] is a model instance:
    [processObject] walks the own properties of the instance, which are
    the ORM's; [own] is what it makes of them. *)
Definition generateXML_instance (e : Envelope) (own : XmlIn) : XmlIn :=
  XElems [("response",
           XElems [ ("success", XText (toString (JBool (success e))));
                    ("code", XText (toString (JNum (code e))));
                    ("message", match message e with
                                | JArr _ | JObj _ => processObject (message e)
                                | m => XText (toString m)
                                end);
                    ("data", own);
                    ("timestamp", XText (timestamp e)) ])].

(** The [response] object that [formatResponse] builds; [now] is the
    reading of [new Date().toISOString()], and an omitted [message] is
    the default [null]. *)
Definition response_envelope (now : string) (statusCode : Z) (data message : JsVal)
  : Envelope :=
  let message := match message with JUndefined => JNull | m => m end in
  {| success := (200 <=? statusCode) && (statusCode <? 300);
     code := statusCode;
     message := or_else message (JStr (getDefaultMessage statusCode));
     data := or_else data JNull;
     timestamp := now |}.

(** [formatResponse(res, statusCode, data, message = null, format = 'json')]:
    the status line, the content type and the body sent. *)
Definition formatResponse (now : string) (statusCode : Z) (data : JsVal)
           (message : JsVal) (format : JsVal) : HttpResponse :=
  let format := match format with JUndefined => JStr "json" | f => f end in
  let response := response_envelope now statusCode data message in
  if is_str "xml" format
  then {| status := statusCode; content_type := "application/xml";
          sent := XmlBody (generateXML response) |}
  else {| status := statusCode; content_type := "application/json";
          sent := JsonBody response |}.

End Response.
Export Response.

(** ** models/*.js: the rows of the three tables *)

Module Models.

(** The labels of the ENUM attributes. The sqlite dialect keeps such a
    column as TEXT, so a row carries the label itself. *)
Definition User_role_values : list string := ["admin"; "user"].
Definition Project_status_values : list string := ["active"; "completed"; "canceled"].
Definition Task_status_values : list string :=
  ["pending"; "in_progress"; "completed"; "canceled"].
Definition Task_priority_values : list string := ["low"; "medium"; "high"].

Record User : Type := mkUser {
  u_id : Z;
  u_name : string;
  u_email : string;
  u_password : string;
  u_role : string;
  u_active : bool;
  u_createdAt : string;
  u_updatedAt : string
}.

Record Project : Type := mkProject {
  p_id : Z;
  p_name : string;
  p_description : option string;
  p_status : string;
  p_startDate : string;
  p_endDate : option string;
  p_createdBy : Z;
  p_createdAt : string;
  p_updatedAt : string
}.

Record Task : Type := mkTask {
  t_id : Z;
  t_title : string;
  t_description : option string;
  t_status : string;
  t_priority : string;
  t_dueDate : option string;
  t_projectId : Z;
  t_assignedTo : option Z;
  t_createdAt : string;
  t_updatedAt : string
}.

Definition opt_str (o : option string) : JsVal :=
  match o with Some s => JStr s | None => JNull end.

Definition opt_num (o : option Z) : JsVal :=
  match o with Some n => JNum n | None => JNull end.

(** The [dataValues] of an instance: one entry per column. *)
Definition User_values (u : User) : Obj :=
  [ ("id", JNum (u_id u)); ("name", JStr (u_name u)); ("email", JStr (u_email u));
    ("password", JStr (u_password u)); ("role", JStr (u_role u));
    ("active", JBool (u_active u));
    ("createdAt", JStr (u_createdAt u)); ("updatedAt", JStr (u_updatedAt u)) ].

Definition Project_values (p : Project) : Obj :=
  [ ("id", JNum (p_id p)); ("name", JStr (p_name p));
    ("description", opt_str (p_description p));
    ("status", JStr (p_status p));
    ("startDate", JStr (p_startDate p)); ("endDate", opt_str (p_endDate p));
    ("createdBy", JNum (p_createdBy p));
    ("createdAt", JStr (p_createdAt p)); ("updatedAt", JStr (p_updatedAt p)) ].

Definition Task_values (t : Task) : Obj :=
  [ ("id", JNum (t_id t)); ("title", JStr (t_title t));
    ("description", opt_str (t_description t));
    ("status", JStr (t_status t));
    ("priority", JStr (t_priority t));
    ("dueDate", opt_str (t_dueDate t));
    ("projectId", JNum (t_projectId t)); ("assignedTo", opt_num (t_assignedTo t));
    ("createdAt", JStr (t_createdAt t)); ("updatedAt", JStr (t_updatedAt t)) ].

(** The INTEGER attributes and the DATE attributes of the three models. *)
Definition integer_columns : list string := ["id"; "createdBy"; "projectId"; "assignedTo"].
Definition date_columns : list string :=
  ["startDate"; "endDate"; "dueDate"; "createdAt"; "updatedAt"].

Definition is_column (columns : list string) (k : string) : bool :=
  existsb (String.eqb k) columns.

(** models/index.js: the [onDelete] option of an association. *)
Inductive ReferentialAction : Type := CASCADE | SET_NULL | NO_ACTION.

(** [Project.hasMany(Task, { foreignKey: 'projectId', as: 'tasks',
    onDelete: 'CASCADE' })] *)
Definition Project_hasMany_Task_onDelete : ReferentialAction := CASCADE.

End Models.
Export Models.

(** ** The store behind the Sequelize models (config/database.js: sqlite) *)

Module Store.

Record Db : Type := mkDb {
  online : bool;                  (* false: every query rejects *)
  users : list User;
  projects : list Project;
  tasks : list Task;
  users_seq : Z;                  (* last AUTOINCREMENT value handed out *)
  projects_seq : Z;
  tasks_seq : Z
}.

(** An [async] computation: it reads and writes the store and either
    resolves or rejects. *)
Definition Async (A : Type) : Type := Db -> Outcome A * Db.

Definition ret {A : Type} (a : A) : Async A := fun db => (Ok a, db).

Definition throw {A : Type} (e : JsError) : Async A := fun db => (Throw e, db).

Definition bind {A B : Type} (m : Async A) (k : A -> Async B) : Async B :=
  fun db =>
    match m db with
    | (Ok a, db') => k a db'
    | (Throw e, db') => (Throw e, db')
    end.

Declare Scope async_scope.
Delimit Scope async_scope with async.
Notation "x <- m ;; k" := (bind m (fun x => k))
  (at level 61, m at next level, right associativity) : async_scope.
Notation "'await' m ;; k" := (bind m (fun _ => k))
  (at level 61, m at next level, right associativity) : async_scope.

(** The collaborators the repository only calls: the [jsonwebtoken]
    package with the process secret and clock, the engine's coercion of
    a value compared with an INTEGER column and of a number or boolean
    compared with a text column, its LIKE operator, [bcrypt], the
    [isEmail] validator, whether the ORM lets a value into an ENUM
    attribute, the text the dialect writes into a DATE column for a
    value, the ISO text of the Date read back from such a text (none
    for an invalid Date), what [processObject] makes of the own
    properties of a model instance that was built without [include]
    (the instance given by its values), and the clock reading of the
    request. *)
Class Collaborators : Type := {
  jwt_verify : string -> Outcome JsVal;
  jwt_sign : JsVal -> string;
  to_integer : JsVal -> option Z;
  to_text : JsVal -> option string;
  sql_like : string -> string -> bool;       (* pattern, text *)
  bcrypt_hash : string -> string;
  isEmail : string -> bool;
  accepts_enum : list string -> JsVal -> bool; (* type validation of an ENUM *)
  to_date : JsVal -> string;
  date_json : string -> option string;
  instance_xml : JsVal -> XmlIn;
  now : string
}.

Definition TypeError : JsError := mkError "TypeError" [].
Definition RangeError : JsError :=
  mkError "RangeError" ["Maximum call stack size exceeded"].
Definition InvalidValue : JsError := mkError "Error" ["Invalid value"].
Definition DatabaseError : JsError := mkError "SequelizeDatabaseError" [].
Definition ConnectionError : JsError := mkError "SequelizeConnectionError" [].
Definition ForeignKeyConstraintError : JsError :=
  mkError "SequelizeForeignKeyConstraintError" [].
Definition ValidationError (messages : list string) : JsError :=
  mkError "SequelizeValidationError" messages.
Definition UniqueConstraintError (messages : list string) : JsError :=
  mkError "SequelizeUniqueConstraintError" messages.

(** *** Finder options *)

Inductive Cond : Type :=
| CEq (v : JsVal)                 (* { column: v } *)
| CLike (pattern : string).       (* { column: { [Op.like]: pattern } } *)

Definition Where : Type := list (string * Cond).

Inductive Direction : Type := ASC | DESC.

(** A list of expressions in parentheses stands for one value only
    when it holds one expression. *)
Definition parenthesised (exprs : Outcome (list JsVal)) : Outcome (list JsVal) :=
  match exprs with
  | Ok [x] => Ok [x]
  | Ok _ => Throw DatabaseError
  | Throw e => Throw e
  end.

(** The expressions that escaping a value for a text column writes: a
    scalar is one literal; an array is the list of its items, an array
    among them in parentheses; an object is refused. *)
Fixpoint escape (v : JsVal) : Outcome (list JsVal) :=
  match v with
  | JArr items =>
      (fix arrayToList (l : list JsVal) : Outcome (list JsVal) :=
         match l with
         | [] => Ok []
         | x :: l' =>
             match (match x with
                    | JArr _ => parenthesised (escape x)
                    | _ => escape x
                    end) with
             | Throw e => Throw e
             | Ok a => match arrayToList l' with
                       | Ok b => Ok (a ++ b)%list
                       | Throw e => Throw e
                       end
             end
         end) items
  | JObj _ => Throw InvalidValue
  | JUndefined => Ok [JNull]
  | _ => Ok [v]
  end.

(** The expressions between the parentheses of [column IN (...)] for
    an array given as the value of a text column: its items, each
    escaped. *)
Fixpoint in_list (items : list JsVal) : Outcome (list JsVal) :=
  match items with
  | [] => Ok []
  | x :: items' =>
      match escape x with
      | Throw e => Throw e
      | Ok a => match in_list items' with
                | Ok b => Ok (a ++ b)%list
                | Throw e => Throw e
                end
      end
  end.

(** A value given for an INTEGER column is written as its text when it
    is neither a number nor a boolean. *)
Definition number_stringify (v : JsVal) : JsVal :=
  match v with
  | JArr _ | JObj _ => JStr (toString v)
  | _ => v
  end.

(** The query generator refuses a [where] entry whose value is
    [undefined]: it throws a plain [Error] before any statement is
    sent; so it does for an object given for a text column, and the
    engine refuses a list of several values where one is expected. *)
Definition whereItemQuery (item : string * Cond) : Outcome unit :=
  match snd item with
  | CEq JUndefined =>
      Throw (mkError "Error" ["WHERE parameter has invalid undefined value"])
  | CEq (JObj _) =>
      if is_column integer_columns (fst item) then Ok tt else Throw InvalidValue
  | CEq (JArr items) =>
      if is_column integer_columns (fst item) then Ok tt
      else match in_list items with
           | Ok _ => Ok tt
           | Throw e => Throw e
           end
  | _ => Ok tt
  end.

Fixpoint whereItemsQuery (w : Where) : Outcome unit :=
  match w with
  | [] => Ok tt
  | item :: w' =>
      match whereItemQuery item with
      | Ok _ => whereItemsQuery w'
      | Throw e => Throw e
      end
  end.

(** Ordering of stored values: NULL first, then numbers, then text
    compared bytewise (the BINARY collation). An ENUM column is TEXT in
    this dialect, so its values order as their labels do. *)
Definition sql_compare (a b : JsVal) : comparison :=
  match a, b with
  | JNum x, JNum y => x ?= y
  | JStr x, JStr y => String.compare x y
  | JNull, JNull => Eq
  | JNull, _ => Lt
  | _, JNull => Gt
  | JNum _, JStr _ => Lt
  | JStr _, JNum _ => Gt
  | _, _ => Eq
  end.

Definition directed (d : Direction) (c : comparison) : comparison :=
  match d with ASC => c | DESC => CompOpp c end.

(** [order: [[column, direction], ...]] *)
Fixpoint order_compare (order : list (string * Direction)) (a b : Obj) : comparison :=
  match order with
  | [] => Eq
  | (column, d) :: order' =>
      match directed d (sql_compare (field a column) (field b column)) with
      | Eq => order_compare order' a b
      | c => c
      end
  end.

Fixpoint insert_by {R : Type} (cmp : R -> R -> comparison) (x : R) (l : list R) : list R :=
  match l with
  | [] => [x]
  | y :: l' =>
      match cmp x y with
      | Gt => y :: insert_by cmp x l'
      | _ => x :: l
      end
  end.

Definition sort_by {R : Type} (cmp : R -> R -> comparison) (l : list R) : list R :=
  fold_right (insert_by cmp) [] l.

Section Queries.
Context `{Collaborators}.

(** [column = literal] for a stored value and a scalar. *)
Definition sql_equals (c v : JsVal) : bool :=
  match c with
  | JNum n =>
      if nullish v then false
      else match to_integer v with Some k => n =? k | None => false end
  | JStr s =>
      match v with
      | JStr t => (t =? s)%string
      | JUndefined | JNull => false
      | _ => match to_text v with Some t => (t =? s)%string | None => false end
      end
  | JBool b => match v with JBool b' => Bool.eqb b b' | _ => false end
  | _ => false
  end.

(** An array given for a column is read as [column IN (...)]. *)
Definition col_holds (c : JsVal) (cond : Cond) : bool :=
  match cond with
  | CEq JNull => nullish c                                   (* column IS NULL *)
  | CEq (JArr items) =>
      match c with
      | JNum _ => existsb (fun item => sql_equals c (number_stringify item)) items
      | _ => match in_list items with
             | Ok exprs => existsb (sql_equals c) exprs
             | Throw _ => false
             end
      end
  | CEq v =>
      match c with
      | JNum _ => sql_equals c (number_stringify v)
      | _ => sql_equals c v
      end
  | CLike pattern =>
      match c with JStr s => sql_like pattern s | _ => false end
  end.

Definition row_matches (w : Where) (row : Obj) : bool :=
  forallb (fun item => col_holds (field row (fst item)) (snd item)) w.

(** [SELECT ... WHERE ... ORDER BY ...] on one table. *)
Definition select {R : Type} (table : Db -> list R) (values : R -> Obj)
           (w : Where) (order : list (string * Direction)) : Async (list R) :=
  fun db =>
    match whereItemsQuery w with
    | Throw e => (Throw e, db)
    | Ok _ =>
        if online db
        then (Ok (sort_by (fun a b => order_compare order (values a) (values b))
                          (filter (fun r => row_matches w (values r)) (table db))), db)
        else (Throw ConnectionError, db)
    end.

Definition findOne {R : Type} (table : Db -> list R) (values : R -> Obj)
           (w : Where) : Async (option R) :=
  (rows <- select table values w [] ;; ret (hd_error rows))%async.

(** [Model.findByPk(param)]: [null] without a query for a missing
    argument, a lookup for a number or a string, an [Error] otherwise. *)
Definition findByPk {R : Type} (table : Db -> list R) (values : R -> Obj)
           (param : JsVal) : Async (option R) :=
  match param with
  | JUndefined | JNull => ret None
  | JNum _ | JNaN | JStr _ => findOne table values [("id", CEq param)]
  | _ => throw (mkError "Error" ["Argument passed to findByPk is invalid"])
  end.

End Queries.

End Store.
Export Store.

(** ** The model operations the handlers call *)

Module Orm.

Definition set_users (us : list User) (seq : Z) (db : Db) : Db :=
  {| online := online db; users := us; projects := projects db; tasks := tasks db;
     users_seq := seq; projects_seq := projects_seq db; tasks_seq := tasks_seq db |}.

Definition set_tasks (ts : list Task) (seq : Z) (db : Db) : Db :=
  {| online := online db; users := users db; projects := projects db; tasks := ts;
     users_seq := users_seq db; projects_seq := projects_seq db; tasks_seq := seq |}.

Definition set_projects_tasks (ps : list Project) (ts : list Task) (db : Db) : Db :=
  {| online := online db; users := users db; projects := ps; tasks := ts;
     users_seq := users_seq db; projects_seq := projects_seq db;
     tasks_seq := tasks_seq db |}.

(** The store as the running computation sees it. *)
Definition snapshot : Async Db := fun db => (Ok db, db).

Definition in_range (lo hi : nat) (c : ascii) : bool :=
  ((lo <=? nat_of_ascii c) && (nat_of_ascii c <=? hi))%nat.

(** The text starts with a variation selector, U+FE0E or U+FE0F. *)
Definition starts_with_selector (s : string) : bool :=
  match s with
  | String a (String b (String c _)) =>
      (nat_of_ascii a =? 239)%nat && (nat_of_ascii b =? 184)%nat
      && in_range 142 143 c
  | _ => false
  end.

(** What the [isLength] of validator.js counts: the UTF-16 units of
    the text less its surrogate pairs and its variation selectors.
    The text being held as its UTF-8 bytes, these are the bytes that
    start a character, the selectors apart. *)
Fixpoint characters (s : string) : nat :=
  match s with
  | EmptyString => O
  | String c s' =>
      if in_range 128 191 c || starts_with_selector s
      then characters s'
      else S (characters s')
  end.

(** The validator [len: [lo, hi]]. *)
Definition len_between (lo hi : nat) (s : string) : bool :=
  ((lo <=? characters s) && (characters s <=? hi))%nat.

Definition is_lower : ascii -> bool := in_range 97 122.      (* [a-z] *)
Definition is_upper : ascii -> bool := in_range 65 90.       (* [A-Z] *)
Definition is_digit : ascii -> bool := in_range 48 57.       (* \d *)

Fixpoint string_exists (p : ascii -> bool) (s : string) : bool :=
  match s with
  | EmptyString => false
  | String c s' => p c || string_exists p s'
  end.

Fixpoint string_forall (p : ascii -> bool) (s : string) : bool :=
  match s with
  | EmptyString => true
  | String c s' => p c && string_forall p s'
  end.

(** [/^(?=.*[a-z])(?=.*[A-Z])(?=.*\d)[a-zA-Z\d]{8,}$/.test(s)] *)
Definition passwordRegex (s : string) : bool :=
  string_exists is_lower s && string_exists is_upper s && string_exists is_digit s
  && string_forall (fun c => is_lower c || is_upper c || is_digit c) s
  && (8 <=? String.length s)%nat.

(** The schema and validator pass over one text attribute before an
    INSERT: [allowNull], then the refusal of arrays and objects, then the
    declared validators on [String(value)]. The messages are the ORM's. *)
Definition validate_attr (model attr : string) (allowNull : bool)
           (checks : list (string * (string -> bool))) (v : JsVal) : list string :=
  match v with
  | JUndefined | JNull =>
      if allowNull then [] else [model ++ "." ++ attr ++ " cannot be null"]
  | JArr _ | JObj _ => [attr ++ " cannot be an array or an object"]
  | _ =>
      flat_map (fun c : string * (string -> bool) =>
                  if snd c (toString v) then []
                  else ["Validation " ++ fst c ++ " on " ++ attr ++ " failed"])
               checks
  end.

Definition text_column (v : JsVal) : option string :=
  if nullish v then None else Some (toString v).

(** [JSON.stringify] leaves out the keys whose value is [undefined]. *)
Definition defined (o : Obj) : Obj :=
  filter (fun kv => match snd kv with JUndefined => false | _ => true end) o.

Section Operations.
Context `{Collaborators}.

(** What is written into a DATE column. *)
Definition date_column (v : JsVal) : option string :=
  if nullish v then None else Some (to_date v).

(** What [JSON.stringify] prints for the Date read from a DATE column:
    its ISO text, [null] for an invalid Date. *)
Definition Date_toJSON (stored : JsVal) : JsVal :=
  match stored with
  | JStr s => match date_json s with Some iso => JStr iso | None => JNull end
  | v => v
  end.

(** A DATE attribute set to [v], as [JSON.stringify] prints it: a
    truthy value has become a Date. *)
Definition Date_set (v : JsVal) : JsVal :=
  if truthy v then Date_toJSON (JStr (to_date v)) else v.

(** [instance.toJSON()] for an instance read from the store. *)
Definition toJSON (values : Obj) : Obj :=
  map (fun kv => if is_column date_columns (fst kv)
                 then (fst kv, Date_toJSON (snd kv)) else kv) values.

Definition validate_enum (attr : string) (labels : list string) (v : JsVal) : list string :=
  if accepts_enum labels v then [] else [attr ++ " is not a valid choice"].

Definition User_findByPk : JsVal -> Async (option User) := findByPk users User_values.
Definition Project_findByPk : JsVal -> Async (option Project) :=
  findByPk projects Project_values.
Definition User_findOne : Where -> Async (option User) := findOne users User_values.

(** [User.create({ name, email, password, role })]: validation, the
    [beforeCreate] hook hashing the password, then the INSERT under the
    unique index on [email]; [active] takes its default. *)
Definition User_create (name email password : JsVal) (role : string) : Async User :=
  let errors :=
    (validate_attr "User" "name" false [("len", len_between 2 100)] name
     ++ validate_attr "User" "email" false [("isEmail", isEmail)] email
     ++ validate_attr "User" "password" false [("is", passwordRegex)] password)%list in
  match errors with
  | _ :: _ => throw (ValidationError errors)
  | [] =>
      fun db =>
        if negb (online db) then (Throw ConnectionError, db)
        else if existsb (fun u => (u_email u =? toString email)%string) (users db)
        then (Throw (UniqueConstraintError ["email must be unique"]), db)
        else
          let u := {| u_id := users_seq db + 1;
                      u_name := toString name;
                      u_email := toString email;
                      u_password := bcrypt_hash (toString password);
                      u_role := role;
                      u_active := true;
                      u_createdAt := to_date (JStr now);
                      u_updatedAt := to_date (JStr now) |} in
          (Ok u, set_users (users db ++ [u])%list (users_seq db + 1) db)
  end.

(** The parent key of a child row: NULL, or a key of the parent table. *)
Definition foreign_key (present : Z -> bool) (v : JsVal) : Outcome (option Z) :=
  if nullish v then Ok None
  else match to_integer v with
       | Some k => if present k then Ok (Some k) else Throw ForeignKeyConstraintError
       | None => Throw ForeignKeyConstraintError
       end.

(** [Task.create({ title, description, status, priority, dueDate,
    projectId, assignedTo })] *)
Definition Task_create (title description status priority dueDate projectId
                        assignedTo : JsVal) : Async Task :=
  let errors :=
    (validate_attr "Task" "title" false [("len", len_between 2 100)] title
     ++ validate_attr "Task" "description" true [] description
     ++ validate_enum "status" Task_status_values status
     ++ validate_enum "priority" Task_priority_values priority
     ++ (if nullish projectId then ["Task.projectId cannot be null"] else []))%list in
  match errors with
  | _ :: _ => throw (ValidationError errors)
  | [] =>
      fun db =>
        if negb (online db) then (Throw ConnectionError, db)
        else
          match foreign_key (fun k => existsb (fun p => p_id p =? k) (projects db))
                            projectId with
          | Throw e => (Throw e, db)
          | Ok None => (Throw ForeignKeyConstraintError, db)
          | Ok (Some pid) =>
              match foreign_key (fun k => existsb (fun u => u_id u =? k) (users db))
                                assignedTo with
              | Throw e => (Throw e, db)
              | Ok assignee =>
                  let t := {| t_id := tasks_seq db + 1;
                              t_title := toString title;
                              t_description := text_column description;
                              t_status := toString status;
                              t_priority := toString priority;
                              t_dueDate := date_column dueDate;
                              t_projectId := pid;
                              t_assignedTo := assignee;
                              t_createdAt := to_date (JStr now);
                              t_updatedAt := to_date (JStr now) |} in
                  (Ok t, set_tasks (tasks db ++ [t])%list (tasks_seq db + 1) db)
              end
          end
  end.

(** What deleting a project row does to the rows of [tasks] that
    reference it, by the [onDelete] option of the association
    ([projectId] is NOT NULL, so SET NULL cannot be carried out). *)
Definition on_project_delete (action : ReferentialAction) (pid : Z)
           (ts : list Task) : Outcome (list Task) :=
  match action with
  | CASCADE => Ok (filter (fun t => negb (t_projectId t =? pid)) ts)
  | SET_NULL | NO_ACTION =>
      if existsb (fun t => t_projectId t =? pid) ts
      then Throw ForeignKeyConstraintError
      else Ok ts
  end.

(** [project.destroy()]: DELETE of the row with the instance's key. *)
Definition Project_destroy (p : Project) : Async unit :=
  fun db =>
    if negb (online db) then (Throw ConnectionError, db)
    else match on_project_delete Project_hasMany_Task_onDelete (p_id p) (tasks db) with
         | Ok ts =>
             (Ok tt, set_projects_tasks
                       (filter (fun q => negb (p_id q =? p_id p)) (projects db)) ts db)
         | Throw e => (Throw e, db)
         end.

(** *** Eager loading *)

Definition user_by_id (db : Db) (k : Z) : option User :=
  find (fun u => u_id u =? k) (users db).

Definition assignee_of (db : Db) (t : Task) : option User :=
  match t_assignedTo t with
  | Some k => user_by_id db k
  | None => None
  end.

Definition tasks_of (db : Db) (p : Project) : list Task :=
  filter (fun t => t_projectId t =? p_id p) (tasks db).

(** [attributes: [...]] of an include, and [toJSON]. *)
Definition pick (attrs : list string) (o : Obj) : Obj :=
  map (fun a => (a, field o a)) attrs.

Definition include_user (u : option User) : JsVal :=
  match u with
  | Some u => JObj (pick ["id"; "name"; "email"] (User_values u))
  | None => JNull
  end.

Definition Task_with_assignee (db : Db) (t : Task) : JsVal :=
  JObj (toJSON (Task_values t) ++ [("assignee", include_user (assignee_of db t))])%list.

(** What [toJSON] makes of the instance that [Task.create] returns: the
    values given, the key and the two timestamps. *)
Definition Task_created (t : Task) (title description status priority dueDate projectId
                         assignedTo : JsVal) : JsVal :=
  JObj (defined [ ("id", JNum (t_id t)); ("title", title);
                  ("description", description); ("status", status);
                  ("priority", priority); ("dueDate", Date_set dueDate);
                  ("projectId", projectId); ("assignedTo", assignedTo);
                  ("updatedAt", Date_set (JStr now));
                  ("createdAt", Date_set (JStr now)) ]).

(** A project of [getProjects]: its creator and at most five of its
    tasks. *)
Definition Project_with_includes (db : Db) (p : Project) : JsVal :=
  JObj (toJSON (Project_values p)
        ++ [ ("creator", include_user (user_by_id db (p_createdBy p)));
             ("tasks", JArr (map (fun t => JObj (pick ["id"; "title"; "status"]
                                                     (Task_values t)))
                                 (firstn 5 (tasks_of db p)))) ])%list.

End Operations.

End Orm.
Export Orm.

(** ** Requests and what a handler does with them *)

Module Http.

(** [req.user = { id, email, role }] *)
Record ReqUser : Type := mkReqUser {
  ru_id : Z;
  ru_email : string;
  ru_role : string
}.

Record Request : Type := mkRequest {
  query : Obj;
  headers : Obj;
  params : Obj;
  body : Obj;
  user : option ReqUser;          (* set by [authenticate] *)
  project : option Project        (* set by [isProjectOwnerOrAdmin] *)
}.

Definition set_user (u : ReqUser) (req : Request) : Request :=
  {| query := query req; headers := headers req; params := params req;
     body := body req; user := Some u; project := project req |}.

Definition set_project (p : Project) (req : Request) : Request :=
  {| query := query req; headers := headers req; params := params req;
     body := body req; user := user req; project := Some p |}.

Definition set_headers (h : Obj) (req : Request) : Request :=
  {| query := query req; headers := h; params := params req;
     body := body req; user := user req; project := project req |}.

(** A middleware either answers or calls [next()] with the request as
    it has left it. *)
Inductive Reply : Type :=
| Respond (r : HttpResponse)
| Next (req : Request).

(** An [async] handler whose body is one [try]/[catch]: it always
    settles with a value. *)
Definition Handler (A : Type) : Type := Db -> A * Db.

Definition catching {A : Type} (m : Async A) (h : JsError -> A) : Handler A :=
  fun db =>
    match m db with
    | (Ok a, db') => (a, db')
    | (Throw e, db') => (h e, db')
    end.

(** [v.k] for a value that may not be an object. *)
Definition prop (v : JsVal) (k : string) : JsVal :=
  match v with JObj fields => field fields k | _ => JUndefined end.

End Http.
Export Http.

(** ** utils/jwt.js and middlewares/auth.js *)

Module Middlewares.
Section Middlewares.
Context `{Collaborators}.

Definition generateToken (u : User) : string :=
  jwt_sign (JObj [("id", JNum (u_id u)); ("email", JStr (u_email u));
                  ("role", JStr (u_role u))]).

Definition verifyToken (token : string) : JsVal :=
  match jwt_verify token with
  | Ok decoded => decoded
  | Throw _ => JNull
  end.

(** [req.query.format || 'json'] *)
Definition format_of (req : Request) : JsVal :=
  or_else (field (query req) "format") (JStr "json").

(** [res.formatResponse], as [formatMiddleware] installs it. *)
Definition res_formatResponse (req : Request) (statusCode : Z) (data message : JsVal)
  : HttpResponse :=
  formatResponse now statusCode data message (format_of req).

(** [res.formatResponse(statusCode, instance, message)] for a model
    instance, given by what [toJSON] makes of it: that is what
    [res.json] prints. [generateXML] walks the instance itself: its own
    properties, and without an end when it was loaded with [include],
    whose options refer to themselves. *)
Definition res_formatInstance (req : Request) (statusCode : Z) (included : bool)
           (json message : JsVal) : Async HttpResponse :=
  if is_str "xml" (format_of req)
  then if included then throw RangeError
       else ret {| status := statusCode;
                   content_type := "application/xml";
                   sent := XmlBody (generateXML_instance
                                      (response_envelope now statusCode json message)
                                      (instance_xml json)) |}
  else ret (res_formatResponse req statusCode json message).

(** The same for the array of instances that [findAll] returns with
    [include]. *)
Definition res_formatInstances (req : Request) (statusCode : Z) (rows : list JsVal)
           (message : JsVal) : Async HttpResponse :=
  match rows with
  | _ :: _ =>
      if is_str "xml" (format_of req) then throw RangeError
      else ret (res_formatResponse req statusCode (JArr rows) message)
  | [] => ret (res_formatResponse req statusCode (JArr []) message)
  end.

(** A Date inside the data of an answer: [res.json] prints it as text;
    [processObject] finds an object without keys of its own. *)
Definition Date_in (req : Request) (printed : JsVal) : JsVal :=
  if is_str "xml" (format_of req) then JObj [] else printed.

Definition authenticate_try (req : Request) : Async Reply :=
  let format := format_of req in
  let authHeader := field (headers req) "authorization" in
  if negb (truthy authHeader)
  then ret (Respond (formatResponse now 401 JNull
                       (JStr "No se proporcionó token de autenticación") format))
  else
    match authHeader with
    | JStr h =>
        let parts := split " " h in
        let scheme := slot parts 0 in
        let token := slot parts 1 in
        if negb (is_str "Bearer" scheme) || negb (truthy token)
        then ret (Respond (formatResponse now 401 JNull
                             (JStr "Formato de token inválido") format))
        else
          let decoded := verifyToken (toString token) in
          if negb (truthy decoded)
          then ret (Respond (formatResponse now 401 JNull
                               (JStr "Token inválido o expirado") format))
          else
            (found <- User_findByPk (prop decoded "id") ;;
             match found with
             | Some u =>
                 if u_active u
                 then ret (Next (set_user {| ru_id := u_id u;
                                              ru_email := u_email u;
                                              ru_role := u_role u |} req))
                 else ret (Respond (formatResponse now 401 JNull
                                      (JStr "Usuario no encontrado o inactivo") format))
             | None =>
                 ret (Respond (formatResponse now 401 JNull
                                 (JStr "Usuario no encontrado o inactivo") format))
             end)%async
    | _ => throw TypeError               (* authHeader.split is not a function *)
    end.

Definition authenticate (req : Request) : Handler Reply :=
  catching (authenticate_try req)
           (fun _ => Respond (formatResponse now 500 JNull
                                (JStr "Error en autenticación") (format_of req))).

(** [project.createdBy === req.user.id || req.user.role === 'admin'] *)
Definition owner_or_admin (p : Project) (u : ReqUser) : bool :=
  (p_createdBy p =? ru_id u) || (ru_role u =? "admin")%string.

Definition isProjectOwnerOrAdmin_try (req : Request) : Async Reply :=
  let format := format_of req in
  let projectId :=
    or_else (or_else (field (params req) "projectId") (field (params req) "id"))
            (field (body req) "projectId") in
  if negb (truthy projectId)
  then ret (Respond (formatResponse now 400 JNull
                       (JStr "ID de proyecto no proporcionado") format))
  else
    (found <- Project_findByPk projectId ;;
     match found with
     | None =>
         ret (Respond (formatResponse now 404 JNull
                         (JStr "Proyecto no encontrado") format))
     | Some p =>
         match user req with
         | None => throw TypeError       (* req.user is undefined *)
         | Some u =>
             if owner_or_admin p u
             then ret (Next (set_project p req))
             else ret (Respond (formatResponse now 403 JNull
                                  (JStr "No tiene permiso para modificar este proyecto")
                                  format))
         end
     end)%async.

Definition isProjectOwnerOrAdmin (req : Request) : Handler Reply :=
  catching (isProjectOwnerOrAdmin_try req)
           (fun _ => Respond (formatResponse now 500 JNull
                                (JStr "Error al verificar permisos") (format_of req))).

End Middlewares.
End Middlewares.
Export Middlewares.

(** ** controllers/*.js *)

Module Controllers.
Section Controllers.
Context `{Collaborators}.

(** [project.createdBy !== req.user.id && req.user.role !== 'admin'] *)
Definition neither_owner_nor_admin (p : Project) (u : ReqUser) : bool :=
  negb (p_createdBy p =? ru_id u) && negb (ru_role u =? "admin")%string.

(** The [catch] of the handlers that report validation errors:
    [messages.join(', ')] under 400, the given text under 500 otherwise. *)
Definition validation_or_500 (req : Request) (names : list string) (fallback : string)
           (error : JsError) : HttpResponse :=
  if existsb (fun n => (err_name error =? n)%string) names
  then res_formatResponse req 400 JNull (JStr (String.concat ", " (err_messages error)))
  else res_formatResponse req 500 JNull (JStr fallback).

(** *** projectController.js *)

Definition getProjects_try (req : Request) : Async HttpResponse :=
  let status := field (query req) "status" in
  let search := field (query req) "search" in
  match user req with
  | None => throw TypeError
  | Some u =>
      let whereConditions : Where :=
        [("createdBy",
          CEq (if (ru_role u =? "admin")%string then JUndefined else JNum (ru_id u)))] in
      let whereConditions :=
        if truthy status && includes ["active"; "completed"; "canceled"] status
        then (whereConditions ++ [("status", CEq status)])%list
        else whereConditions in
      let whereConditions :=
        if truthy search
        then (whereConditions ++ [("name", CLike ("%" ++ toString search ++ "%"))])%list
        else whereConditions in
      (rows <- select projects Project_values whereConditions [("createdAt", DESC)] ;;
       db <- snapshot ;;
       res_formatInstances req 200 (map (Project_with_includes db) rows)
                           (JStr "Proyectos obtenidos correctamente"))%async
  end.

Definition getProjects (req : Request) : Handler HttpResponse :=
  catching (getProjects_try req)
           (fun _ => res_formatResponse req 500 JNull (JStr "Error al obtener proyectos")).

Definition deleteProject_try (req : Request) : Async HttpResponse :=
  let id := field (params req) "id" in
  (found <- Project_findByPk id ;;
   match found with
   | None => ret (res_formatResponse req 404 JNull (JStr "Proyecto no encontrado"))
   | Some p =>
       match user req with
       | None => throw TypeError
       | Some u =>
           if neither_owner_nor_admin p u
           then ret (res_formatResponse req 403 JNull
                       (JStr "No tiene permisos para eliminar este proyecto"))
           else
             await Project_destroy p ;;
             ret (res_formatResponse req 200 (JObj [("id", id)])
                                     (JStr "Proyecto eliminado correctamente"))
       end
   end)%async.

Definition deleteProject (req : Request) : Handler HttpResponse :=
  catching (deleteProject_try req)
           (fun _ => res_formatResponse req 500 JNull (JStr "Error al eliminar proyecto")).

(** *** taskController.js *)

Definition getProjectTasks_try (req : Request) : Async HttpResponse :=
  let projectId := field (params req) "projectId" in
  let status := field (query req) "status" in
  let priority := field (query req) "priority" in
  let assignedTo := field (query req) "assignedTo" in
  (found <- Project_findByPk projectId ;;
   match found with
   | None => ret (res_formatResponse req 404 JNull (JStr "Proyecto no encontrado"))
   | Some p =>
       match user req with
       | None => throw TypeError
       | Some u =>
           if neither_owner_nor_admin p u
           then ret (res_formatResponse req 403 JNull
                       (JStr "No tiene permisos para ver las tareas de este proyecto"))
           else
             let whereConditions : Where := [("projectId", CEq projectId)] in
             let whereConditions :=
               if truthy status
                  && includes ["pending"; "in_progress"; "completed"; "canceled"] status
               then (whereConditions ++ [("status", CEq status)])%list
               else whereConditions in
             let whereConditions :=
               if truthy priority && includes ["low"; "medium"; "high"] priority
               then (whereConditions ++ [("priority", CEq priority)])%list
               else whereConditions in
             let whereConditions :=
               if truthy assignedTo
               then (whereConditions ++ [("assignedTo", CEq assignedTo)])%list
               else whereConditions in
             rows <- select tasks Task_values whereConditions
                            [("priority", DESC); ("createdAt", DESC)] ;;
             db <- snapshot ;;
             res_formatInstances req 200 (map (Task_with_assignee db) rows)
                                 (JStr "Tareas obtenidas correctamente")
       end
   end)%async.

Definition getProjectTasks (req : Request) : Handler HttpResponse :=
  catching (getProjectTasks_try req)
           (fun _ => res_formatResponse req 500 JNull (JStr "Error al obtener tareas")).

(** [task.reload({ include: [assignee] })] *)
Definition Task_reload (t : Task) : Async Task :=
  (found <- findByPk tasks Task_values (JNum (t_id t)) ;;
   match found with
   | Some t' => ret t'
   | None => throw (mkError "Error" ["Instance could not be reloaded"])
   end)%async.

Definition createTask_try (req : Request) : Async HttpResponse :=
  let projectId := field (params req) "projectId" in
  let title := field (body req) "title" in
  let description := field (body req) "description" in
  let status := field (body req) "status" in
  let priority := field (body req) "priority" in
  let dueDate := field (body req) "dueDate" in
  let assignedTo := field (body req) "assignedTo" in
  if negb (truthy title)
  then ret (res_formatResponse req 400 JNull (JStr "El título de la tarea es requerido"))
  else
    (found <- Project_findByPk projectId ;;
     match found with
     | None => ret (res_formatResponse req 404 JNull (JStr "Proyecto no encontrado"))
     | Some p =>
         match user req with
         | None => throw TypeError
         | Some u =>
             if neither_owner_nor_admin p u
             then ret (res_formatResponse req 403 JNull
                         (JStr "No tiene permisos para añadir tareas a este proyecto"))
             else
               assignee <- (if truthy assignedTo
                            then User_findByPk assignedTo
                            else ret None) ;;
               match truthy assignedTo, assignee with
               | true, None =>
                   ret (res_formatResponse req 404 JNull
                          (JStr "Usuario asignado no encontrado"))
               | _, _ =>
                   task <- Task_create title description
                                       (or_else status (JStr "pending"))
                                       (or_else priority (JStr "medium"))
                                       dueDate projectId assignedTo ;;
                   if truthy assignedTo
                   then
                     task' <- Task_reload task ;;
                     db <- snapshot ;;
                     res_formatInstance req 201 true (Task_with_assignee db task')
                                        (JStr "Tarea creada correctamente")
                   else
                     res_formatInstance req 201 false
                       (Task_created task title description
                                     (or_else status (JStr "pending"))
                                     (or_else priority (JStr "medium"))
                                     dueDate projectId assignedTo)
                       (JStr "Tarea creada correctamente")
               end
         end
     end)%async.

Definition createTask (req : Request) : Handler HttpResponse :=
  catching (createTask_try req)
           (validation_or_500 req ["SequelizeValidationError"] "Error al crear tarea").

(** *** authController.js *)

Definition register_try (req : Request) : Async HttpResponse :=
  let name := field (body req) "name" in
  let email := field (body req) "email" in
  let password := field (body req) "password" in
  let role := field (body req) "role" in
  (existingUser <- User_findOne [("email", CEq email)] ;;
   match existingUser with
   | Some _ =>
       ret (res_formatResponse req 400 JNull
              (JStr "El correo electrónico ya está registrado"))
   | None =>
       if negb (passwordRegex (toString password))
       then ret (res_formatResponse req 400 JNull
                   (JStr "La contraseña debe tener al menos 8 caracteres, una mayúscula, una minúscula y un número"))
       else
         created <- User_create name email password
                                (if is_str "admin" role then "admin" else "user") ;;
         let userData :=
           JObj [ ("id", JNum (u_id created)); ("name", name);
                  ("email", email); ("role", JStr (u_role created));
                  ("createdAt", Date_in req (Date_set (JStr now))) ] in
         ret (res_formatResponse req 201 userData (JStr "Usuario registrado correctamente"))
   end)%async.

Definition register (req : Request) : Handler HttpResponse :=
  catching (register_try req)
           (validation_or_500 req
              ["SequelizeValidationError"; "SequelizeUniqueConstraintError"]
              "Error al registrar usuario").

End Controllers.
End Controllers.
Export Controllers.

(** ** routes/*.js: which gates stand before which handler *)

Module Routes.
Section Routes.
Context `{Collaborators}.

(** [router.METHOD(path, middleware, handler)]: the handler runs on the
    request the middleware passed to [next()]. *)
Definition guarded (mw : Request -> Handler Reply)
           (h : Request -> Handler HttpResponse) (req : Request) : Handler HttpResponse :=
  fun db =>
    match mw req db with
    | (Respond r, db') => (r, db')
    | (Next req', db') => h req' db'
    end.

(** authRoutes.js: [router.post('/registro', authController.register)] *)
Definition POST_registro : Request -> Handler HttpResponse := register.

(** projectRoutes.js, behind [router.use(authenticate)] *)
Definition GET_proyectos : Request -> Handler HttpResponse :=
  guarded authenticate getProjects.

Definition DELETE_proyectos_id : Request -> Handler HttpResponse :=
  guarded authenticate (guarded isProjectOwnerOrAdmin deleteProject).

Definition GET_proyectos_projectId_tareas : Request -> Handler HttpResponse :=
  guarded authenticate getProjectTasks.

Definition POST_proyectos_projectId_tareas : Request -> Handler HttpResponse :=
  guarded authenticate createTask.

End Routes.
End Routes.
Export Routes.

(** ** A small installation to run the handlers on *)

Module Fixture.

Definition decimal (s : string) : option Z :=
  option_map Z.of_int (NilZero.int_of_string s).

Fixpoint contains (needle s : string) : bool :=
  String.prefix needle s
  || match s with
     | EmptyString => false
     | String _ s' => contains needle s'
     end.

(** [2025-03-04 00:00:00.000 +00:00], as the dialect writes a Date. *)
Definition written (iso : string) : string :=
  if ((String.length iso =? 24)%nat
      && (substring 10 1 iso =? "T")%string && (substring 23 1 iso =? "Z")%string)%bool
  then substring 0 10 iso ++ " " ++ substring 11 12 iso ++ " +00:00"
  else "Invalid date".

(** [2025-03-04T00:00:00.000Z], the ISO text of the Date read back. *)
Definition read_back (text : string) : option string :=
  if ((String.length text =? 30)%nat
      && (substring 10 1 text =? " ")%string
      && (substring 23 7 text =? " +00:00")%string)%bool
  then Some (substring 0 10 text ++ "T" ++ substring 11 12 text ++ "Z")
  else None.

(** Tokens are the subject's claims written out; keys compare as
    decimal numerals; LIKE is only ever asked for [%text%]; dates are
    given as ISO texts; of an instance the XML shows its values. *)
Definition collaborators : Collaborators := {|
  jwt_verify := fun token =>
    if (token =? "ana.admin")%string
    then Ok (JObj [("id", JNum 1); ("email", JStr "ana@test.com"); ("role", JStr "admin")])
    else if (token =? "ana.stale")%string
    then Ok (JObj [("id", JNum 1); ("email", JStr "old@test.com"); ("role", JStr "user")])
    else if (token =? "luis.user")%string
    then Ok (JObj [("id", JNum 2); ("email", JStr "luis@test.com"); ("role", JStr "user")])
    else if (token =? "eva.user")%string
    then Ok (JObj [("id", JNum 3); ("email", JStr "eva@test.com"); ("role", JStr "user")])
    else if (token =? "ghost.user")%string
    then Ok (JObj [("id", JNum 77); ("email", JStr "ghost@test.com"); ("role", JStr "user")])
    else Throw (mkError "JsonWebTokenError" []);
  jwt_sign := fun _ => "signed";
  to_integer := fun v =>
    match v with
    | JNum n => Some n
    | JStr s => decimal s
    | _ => None
    end;
  to_text := fun v =>
    match v with
    | JNum n => Some (Z_to_string n)
    | JBool b => Some (if b then "1" else "0")
    | _ => None
    end;
  sql_like := fun pattern text =>
    contains (substring 1 (String.length pattern - 2) pattern) text;
  bcrypt_hash := fun s => ("$2b$10$" ++ s)%string;
  isEmail := fun s => contains "@" s;
  accepts_enum := fun labels v => includes labels v;
  to_date := fun v => match v with JStr s => written s | _ => "Invalid date" end;
  date_json := read_back;
  instance_xml := fun values => XElems [("dataValues", processObject values)];
  now := "2025-05-01T10:00:00.000Z"
|}.

Definition ana : User :=
  {| u_id := 1; u_name := "Ana"; u_email := "ana@test.com"; u_password := "$2b$10$x";
     u_role := "admin"; u_active := true;
     u_createdAt := "2025-01-01 09:00:00.000 +00:00";
     u_updatedAt := "2025-01-01 09:00:00.000 +00:00" |}.

Definition luis : User :=
  {| u_id := 2; u_name := "Luis"; u_email := "luis@test.com"; u_password := "$2b$10$y";
     u_role := "user"; u_active := true;
     u_createdAt := "2025-01-02 09:00:00.000 +00:00";
     u_updatedAt := "2025-01-02 09:00:00.000 +00:00" |}.

Definition eva : User :=
  {| u_id := 3; u_name := "Eva"; u_email := "eva@test.com"; u_password := "$2b$10$z";
     u_role := "user"; u_active := false;
     u_createdAt := "2025-01-03 09:00:00.000 +00:00";
     u_updatedAt := "2025-01-03 09:00:00.000 +00:00" |}.

Definition web : Project :=
  {| p_id := 10; p_name := "Web"; p_description := None; p_status := "active";
     p_startDate := "2025-02-01 00:00:00.000 +00:00"; p_endDate := None;
     p_createdBy := 2;
     p_createdAt := "2025-02-01 00:00:00.000 +00:00";
     p_updatedAt := "2025-02-01 00:00:00.000 +00:00" |}.

Definition api : Project :=
  {| p_id := 11; p_name := "Api"; p_description := None; p_status := "completed";
     p_startDate := "2025-02-02 00:00:00.000 +00:00"; p_endDate := None;
     p_createdBy := 1;
     p_createdAt := "2025-02-02 00:00:00.000 +00:00";
     p_updatedAt := "2025-02-02 00:00:00.000 +00:00" |}.

Definition task (k : Z) (title priority : string) (pid : Z) (created : string) : Task :=
  {| t_id := k; t_title := title; t_description := None; t_status := "pending";
     t_priority := priority; t_dueDate := None; t_projectId := pid;
     t_assignedTo := None; t_createdAt := created; t_updatedAt := created |}.

Definition db0 : Db :=
  {| online := true;
     users := [ana; luis; eva];
     projects := [web; api];
     tasks := [ task 100 "Urgent fix" "high" 10 "2025-03-01 00:00:00.000 +00:00";
                task 101 "Write docs" "medium" 10 "2025-03-02 00:00:00.000 +00:00";
                task 102 "Cleanup" "low" 10 "2025-03-03 00:00:00.000 +00:00";
                task 103 "Deploy" "high" 11 "2025-03-04 00:00:00.000 +00:00" ];
     users_seq := 3; projects_seq := 11; tasks_seq := 103 |}.

Definition offline (db : Db) : Db :=
  {| online := false; users := users db; projects := projects db; tasks := tasks db;
     users_seq := users_seq db; projects_seq := projects_seq db;
     tasks_seq := tasks_seq db |}.

Definition request (authorization : JsVal) (params body : Obj) : Request :=
  {| query := [];
     headers := match authorization with
                | JUndefined => []
                | v => [("authorization", v)]
                end;
     params := params; body := body; user := None; project := None |}.

Definition as_user (u : User) (req : Request) : Request :=
  set_user {| ru_id := u_id u; ru_email := u_email u; ru_role := u_role u |} req.

(** The same request with [?format=xml]. *)
Definition as_xml (req : Request) : Request :=
  {| query := ("format", JStr "xml") :: query req; headers := headers req;
     params := params req; body := body req; user := user req;
     project := project req |}.

End Fixture.

(** ** The vocabulary of the properties *)

Module Terms.

(** The token of a header of the form [Bearer <token>]: the header cut
    at its spaces starts with the word [Bearer] and a non-empty second
    piece. *)
Definition bearer_token (h : string) : option string :=
  match split " " h with
  | scheme :: token :: _ =>
      if (scheme =? "Bearer")%string && negb (token =? "")%string
      then Some token else None
  | _ => None
  end.

(** The headers of a request that carries only a bearer token. *)
Definition bearer (token : string) : Obj :=
  [("authorization", JStr ("Bearer " ++ token))].

(** [typeof v === 'number' || typeof v === 'string'] *)
Definition is_key (v : JsVal) : bool :=
  match v with JNum _ | JNaN | JStr _ => true | _ => false end.

(** [req.params.projectId || req.params.id || req.body.projectId] *)
Definition resolved_project_id (req : Request) : JsVal :=
  or_else (or_else (field (params req) "projectId") (field (params req) "id"))
          (field (body req) "projectId").

Definition map_reply (f : Request -> Request) (r : Reply) : Reply :=
  match r with
  | Respond x => Respond x
  | Next q => Next (f q)
  end.

(** A handler that never reads the request's headers. *)
Definition ignores_headers {A : Type} (h : Request -> Handler A) : Prop :=
  forall hs req db, h (set_headers hs req) db = h req db.

(** Every task row references a project row. *)
Definition no_orphans (db : Db) : Prop :=
  forall t, In t (tasks db) -> exists p, In p (projects db) /\ p_id p = t_projectId t.

(** The order of the task listing,
    [[['priority', 'DESC'], ['createdAt', 'DESC']]]: [a] may stand
    directly before [b]. *)
Definition listed_before (a b : Task) : Prop :=
  order_compare [("priority", DESC); ("createdAt", DESC)] (Task_values a) (Task_values b)
  <> Gt.

(** The values of one column over the rows a response lists. *)
Definition listed (column : string) (r : HttpResponse) : list JsVal :=
  match sent r with
  | JsonBody e =>
      match data e with
      | JArr rows => map (fun row => prop row column) rows
      | _ => []
      end
  | XmlBody _ => []
  end.

Section Terms.
Context `{Collaborators}.

(** A short-circuit answer of a gate: no data, the given message, the
    format the request asks for. *)
Definition answer (req : Request) (statusCode : Z) (text : string) : Reply :=
  Respond (formatResponse now statusCode JNull (JStr text) (format_of req)).

(** What [authenticate] attaches for a stored record. *)
Definition identity_of (u : User) : ReqUser :=
  {| ru_id := u_id u; ru_email := u_email u; ru_role := u_role u |}.

(** The key [v] names the row with primary key [k]. *)
Definition key_is (v : JsVal) (k : Z) : bool :=
  match to_integer v with Some n => k =? n | None => false end.

(** The row [User.create] inserts for a registration. *)
Definition registered (db : Db) (n e pw role : string) : User :=
  {| u_id := users_seq db + 1; u_name := n; u_email := e;
     u_password := bcrypt_hash pw; u_role := role; u_active := true;
     u_createdAt := to_date (JStr now); u_updatedAt := to_date (JStr now) |}.

End Terms.
End Terms.
Export Terms.

From Stdlib Require Import Lia.

(** ** The other model operations: checkPassword, create, save, destroy *)

Module Persistence.

Definition set_projects (ps : list Project) (seq : Z) (db : Db) : Db :=
  {| online := online db; users := users db; projects := ps; tasks := tasks db;
     users_seq := users_seq db; projects_seq := seq; tasks_seq := tasks_seq db |}.

(** [a === b] for an assigned value and a stored one (a stored value is
    a scalar or [null], so a container never equals it). *)
Definition same_value (a b : JsVal) : bool :=
  match a, b with
  | JStr x, JStr y => (x =? y)%string
  | JNum x, JNum y => x =? y
  | JBool x, JBool y => Bool.eqb x y
  | JNull, JNull => true
  | JUndefined, JUndefined => true
  | _, _ => false
  end.

(** [bcrypt.compare(plain, hash)] *)
Class PasswordCheck : Type := {
  bcrypt_compare : string -> string -> bool
}.

Section Operations.
Context `{Collaborators} `{PasswordCheck}.

(** A value assigned to a DATE attribute leaves it as it is when it
    becomes a Date of the same time as the one held, or is the [null]
    that is held. *)
Definition same_date (v held : JsVal) : bool :=
  match held with
  | JStr s =>
      truthy v && (to_date v =? s)%string
      && match date_json s with Some _ => true | None => false end
  | _ => same_value v held
  end.

(** The attributes of an instance that were assigned a value other than
    the one it holds: what [instance.changed()] lists. *)
Definition changed (values assigned : Obj) : Obj :=
  filter (fun kv => negb (if is_column date_columns (fst kv)
                          then same_date (snd kv) (field values (fst kv))
                          else same_value (snd kv) (field values (fst kv))))
         assigned.

(** The values an instance holds after the assignments, as
    [JSON.stringify] prints them: an assigned attribute is the value
    given, a date the Date it has become. *)
Definition assign_values (assigned values : Obj) : Obj :=
  map (fun kv => match field assigned (fst kv) with
                 | JUndefined => kv
                 | v => (fst kv, if is_column date_columns (fst kv) then Date_set v else v)
                 end) values.

(** models/User.js: [User.prototype.checkPassword]; the package
    rejects data that is not text. *)
Definition User_checkPassword (u : User) (password : JsVal) : Async bool :=
  match password with
  | JStr plain => ret (bcrypt_compare plain (u_password u))
  | _ => throw (mkError "Error" ["data and hash must be strings"])
  end.

Definition Task_findByPk : JsVal -> Async (option Task) := findByPk tasks Task_values.

(** [Project.create({ name, description, status, startDate, endDate,
    createdBy })] *)
Definition Project_create (name description status startDate endDate createdBy : JsVal)
  : Async Project :=
  let errors :=
    (validate_attr "Project" "name" false [("len", len_between 2 100)] name
     ++ validate_attr "Project" "description" true [] description
     ++ validate_enum "status" Project_status_values status
     ++ (if nullish startDate then ["Project.startDate cannot be null"] else [])
     ++ (if nullish createdBy then ["Project.createdBy cannot be null"] else []))%list in
  match errors with
  | _ :: _ => throw (ValidationError errors)
  | [] =>
      fun db =>
        if negb (online db) then (Throw ConnectionError, db)
        else
          match foreign_key (fun k => existsb (fun u => u_id u =? k) (users db))
                            createdBy with
          | Throw e => (Throw e, db)
          | Ok None => (Throw ForeignKeyConstraintError, db)
          | Ok (Some owner) =>
              let p := {| p_id := projects_seq db + 1;
                          p_name := toString name;
                          p_description := text_column description;
                          p_status := toString status;
                          p_startDate := to_date startDate;
                          p_endDate := date_column endDate;
                          p_createdBy := owner;
                          p_createdAt := to_date (JStr now);
                          p_updatedAt := to_date (JStr now) |} in
              (Ok p, set_projects (projects db ++ [p])%list (projects_seq db + 1) db)
          end
  end.

(** What [toJSON] makes of the instance that [Project.create] returns. *)
Definition Project_created (p : Project) (name description status startDate endDate
                            createdBy : JsVal) : JsVal :=
  JObj (defined [ ("id", JNum (p_id p)); ("name", name);
                  ("description", description); ("status", status);
                  ("startDate", Date_set startDate); ("endDate", Date_set endDate);
                  ("createdBy", createdBy);
                  ("updatedAt", Date_set (JStr now));
                  ("createdAt", Date_set (JStr now)) ]).

(** One assigned attribute written into a row of [projects]. *)
Definition Project_assign (p : Project) (kv : string * JsVal) : Project :=
  let (k, v) := kv in
  if (k =? "name")%string then
    mkProject (p_id p) (toString v) (p_description p) (p_status p) (p_startDate p)
              (p_endDate p) (p_createdBy p) (p_createdAt p) (p_updatedAt p)
  else if (k =? "description")%string then
    mkProject (p_id p) (p_name p) (text_column v) (p_status p) (p_startDate p)
              (p_endDate p) (p_createdBy p) (p_createdAt p) (p_updatedAt p)
  else if (k =? "status")%string then
    mkProject (p_id p) (p_name p) (p_description p) (toString v) (p_startDate p)
              (p_endDate p) (p_createdBy p) (p_createdAt p) (p_updatedAt p)
  else if (k =? "startDate")%string then
    mkProject (p_id p) (p_name p) (p_description p) (p_status p) (to_date v)
              (p_endDate p) (p_createdBy p) (p_createdAt p) (p_updatedAt p)
  else if (k =? "endDate")%string then
    mkProject (p_id p) (p_name p) (p_description p) (p_status p) (p_startDate p)
              (date_column v) (p_createdBy p) (p_createdAt p) (p_updatedAt p)
  else p.

Definition Project_touch (p : Project) : Project :=
  mkProject (p_id p) (p_name p) (p_description p) (p_status p) (p_startDate p)
            (p_endDate p) (p_createdBy p) (p_createdAt p) (to_date (JStr now)).

Definition Project_validate (kv : string * JsVal) : list string :=
  let (k, v) := kv in
  if (k =? "name")%string
  then validate_attr "Project" "name" false [("len", len_between 2 100)] v
  else if (k =? "description")%string
  then validate_attr "Project" "description" true [] v
  else if (k =? "status")%string
  then validate_enum "status" Project_status_values v
  else if (k =? "startDate")%string
  then (if nullish v then ["Project.startDate cannot be null"] else [])
  else [].

(** [project.save()] after the assignments [assigned]: nothing is done
    when no attribute changed; else the changed attributes are
    validated and an UPDATE of them, with [updatedAt], goes to the row
    with the instance's key. *)
Definition Project_save (p : Project) (assigned : Obj) : Async Project :=
  match changed (Project_values p) assigned with
  | [] => ret p
  | changes =>
      match flat_map Project_validate changes with
      | _ :: _ as errors => throw (ValidationError errors)
      | [] =>
          fun db =>
            if negb (online db) then (Throw ConnectionError, db)
            else
              let write q := Project_touch (fold_left Project_assign changes q) in
              (Ok (write p),
               set_projects (map (fun q => if p_id q =? p_id p then write q else q)
                                 (projects db))
                            (projects_seq db) db)
      end
  end.

(** One assigned attribute written into a row of [tasks]; [assignee]
    is the key that the value of [assignedTo] stands for. *)
Definition Task_assign (assignee : option Z) (t : Task) (kv : string * JsVal) : Task :=
  let (k, v) := kv in
  if (k =? "title")%string then
    mkTask (t_id t) (toString v) (t_description t) (t_status t) (t_priority t)
           (t_dueDate t) (t_projectId t) (t_assignedTo t) (t_createdAt t) (t_updatedAt t)
  else if (k =? "description")%string then
    mkTask (t_id t) (t_title t) (text_column v) (t_status t) (t_priority t)
           (t_dueDate t) (t_projectId t) (t_assignedTo t) (t_createdAt t) (t_updatedAt t)
  else if (k =? "status")%string then
    mkTask (t_id t) (t_title t) (t_description t) (toString v) (t_priority t)
           (t_dueDate t) (t_projectId t) (t_assignedTo t) (t_createdAt t) (t_updatedAt t)
  else if (k =? "priority")%string then
    mkTask (t_id t) (t_title t) (t_description t) (t_status t) (toString v)
           (t_dueDate t) (t_projectId t) (t_assignedTo t) (t_createdAt t) (t_updatedAt t)
  else if (k =? "dueDate")%string then
    mkTask (t_id t) (t_title t) (t_description t) (t_status t) (t_priority t)
           (date_column v) (t_projectId t) (t_assignedTo t) (t_createdAt t) (t_updatedAt t)
  else if (k =? "assignedTo")%string then
    mkTask (t_id t) (t_title t) (t_description t) (t_status t) (t_priority t)
           (t_dueDate t) (t_projectId t) assignee (t_createdAt t) (t_updatedAt t)
  else t.

Definition Task_touch (t : Task) : Task :=
  mkTask (t_id t) (t_title t) (t_description t) (t_status t) (t_priority t)
         (t_dueDate t) (t_projectId t) (t_assignedTo t) (t_createdAt t)
         (to_date (JStr now)).

Definition Task_validate (kv : string * JsVal) : list string :=
  let (k, v) := kv in
  if (k =? "title")%string
  then validate_attr "Task" "title" false [("len", len_between 2 100)] v
  else if (k =? "description")%string
  then validate_attr "Task" "description" true [] v
  else if (k =? "status")%string
  then validate_enum "status" Task_status_values v
  else if (k =? "priority")%string
  then validate_enum "priority" Task_priority_values v
  else [].

(** [task.save()] after the assignments [assigned]; a changed
    [assignedTo] has to be NULL or the key of a row of [users]. *)
Definition Task_save (t : Task) (assigned : Obj) : Async Task :=
  match changed (Task_values t) assigned with
  | [] => ret t
  | changes =>
      match flat_map Task_validate changes with
      | _ :: _ as errors => throw (ValidationError errors)
      | [] =>
          fun db =>
            if negb (online db) then (Throw ConnectionError, db)
            else
              match foreign_key (fun k => existsb (fun u => u_id u =? k) (users db))
                                (field changes "assignedTo") with
              | Throw e => (Throw e, db)
              | Ok assignee =>
                  let write q := Task_touch (fold_left (Task_assign assignee) changes q) in
                  (Ok (write t),
                   set_tasks (map (fun q => if t_id q =? t_id t then write q else q)
                                  (tasks db))
                             (tasks_seq db) db)
              end
      end
  end.

(** [task.destroy()] *)
Definition Task_destroy (t : Task) : Async unit :=
  fun db =>
    if negb (online db) then (Throw ConnectionError, db)
    else (Ok tt, set_tasks (filter (fun q => negb (t_id q =? t_id t)) (tasks db))
                           (tasks_seq db) db).

End Operations.
End Persistence.
Export Persistence.

(** ** The other middleware and handlers *)

Module Handlers.

(** [attributes: { exclude: [...] }] *)
Definition exclude (attrs : list string) (o : Obj) : Obj :=
  filter (fun kv => negb (existsb (String.eqb (fst kv)) attrs)) o.

Section Handlers.
Context `{Collaborators} `{PasswordCheck}.

(** *** middlewares/auth.js: [authorize(roles)], a synchronous middleware *)

Definition authorize (roles : JsVal) (req : Request) : Reply :=
  let format := format_of req in
  match user req with
  | None =>
      Respond (formatResponse now 500 JNull
                 (JStr "Error de configuración: middleware de autenticación no ejecutado")
                 format)
  | Some u =>
      let allowedRoles := match roles with JArr items => items | r => [r] end in
      if negb (existsb (is_str (ru_role u)) allowedRoles)
      then Respond (formatResponse now 403 JNull
                      (JStr "No tiene permisos para acceder a este recurso") format)
      else Next req
  end.

(** *** authController.js *)

Definition login_try (req : Request) : Async HttpResponse :=
  let email := field (body req) "email" in
  let password := field (body req) "password" in
  if negb (truthy email) || negb (truthy password)
  then ret (res_formatResponse req 400 JNull (JStr "Correo y contraseña son requeridos"))
  else
    (found <- User_findOne [("email", CEq email)] ;;
     match found with
     | None => ret (res_formatResponse req 401 JNull (JStr "Credenciales inválidas"))
     | Some u =>
         if negb (u_active u)
         then ret (res_formatResponse req 401 JNull
                     (JStr "Usuario inactivo. Contacte al administrador"))
         else
           isValidPassword <- User_checkPassword u password ;;
           if negb isValidPassword
           then ret (res_formatResponse req 401 JNull (JStr "Credenciales inválidas"))
           else
             let token := generateToken u in
             let userData :=
               JObj [ ("id", JNum (u_id u)); ("name", JStr (u_name u));
                      ("email", JStr (u_email u)); ("role", JStr (u_role u)) ] in
             ret (res_formatResponse req 200
                    (JObj [("user", userData); ("token", JStr token)])
                    (JStr "Inicio de sesión exitoso"))
     end)%async.

Definition login (req : Request) : Handler HttpResponse :=
  catching (login_try req)
           (fun _ => res_formatResponse req 500 JNull (JStr "Error al iniciar sesión")).

Definition getProfile_try (req : Request) : Async HttpResponse :=
  match user req with
  | None => throw TypeError
  | Some caller =>
      (found <- User_findByPk (JNum (ru_id caller)) ;;
       match found with
       | None => ret (res_formatResponse req 404 JNull (JStr "Usuario no encontrado"))
       | Some u =>
           res_formatInstance req 200 false
             (JObj (exclude ["password"] (toJSON (User_values u))))
             (JStr "Perfil de usuario obtenido correctamente")
       end)%async
  end.

Definition getProfile (req : Request) : Handler HttpResponse :=
  catching (getProfile_try req)
           (fun _ => res_formatResponse req 500 JNull
                       (JStr "Error al obtener perfil de usuario")).

(** *** projectController.js *)

(** A project of [getProjectById]: its creator and all its tasks, each
    with its assignee. *)
Definition Project_with_tasks (db : Db) (p : Project) : JsVal :=
  JObj (toJSON (Project_values p)
        ++ [ ("creator", include_user (user_by_id db (p_createdBy p)));
             ("tasks", JArr (map (Task_with_assignee db) (tasks_of db p))) ])%list.

Definition getProjectById_try (req : Request) : Async HttpResponse :=
  let id := field (params req) "id" in
  (found <- Project_findByPk id ;;
   match found with
   | None => ret (res_formatResponse req 404 JNull (JStr "Proyecto no encontrado"))
   | Some p =>
       match user req with
       | None => throw TypeError
       | Some u =>
           if neither_owner_nor_admin p u
           then ret (res_formatResponse req 403 JNull
                       (JStr "No tiene permisos para ver este proyecto"))
           else
             db <- snapshot ;;
             res_formatInstance req 200 true (Project_with_tasks db p)
                                (JStr "Proyecto obtenido correctamente")
       end
   end)%async.

Definition getProjectById (req : Request) : Handler HttpResponse :=
  catching (getProjectById_try req)
           (fun _ => res_formatResponse req 500 JNull (JStr "Error al obtener proyecto")).

Definition createProject_try (req : Request) : Async HttpResponse :=
  let name := field (body req) "name" in
  let description := field (body req) "description" in
  let status := field (body req) "status" in
  let startDate := field (body req) "startDate" in
  let endDate := field (body req) "endDate" in
  if negb (truthy name)
  then ret (res_formatResponse req 400 JNull (JStr "El nombre del proyecto es requerido"))
  else
    match user req with
    | None => throw TypeError
    | Some u =>
        (created <- Project_create name description
                                   (or_else status (JStr "active"))
                                   (or_else startDate (JStr now))
                                   endDate (JNum (ru_id u)) ;;
         res_formatInstance req 201 false
           (Project_created created name description
                            (or_else status (JStr "active"))
                            (or_else startDate (JStr now))
                            endDate (JNum (ru_id u)))
           (JStr "Proyecto creado correctamente"))%async
    end.

Definition createProject (req : Request) : Handler HttpResponse :=
  catching (createProject_try req)
           (validation_or_500 req ["SequelizeValidationError"] "Error al crear proyecto").

(** The assignments of [updateProject] to the loaded instance, in
    their order. *)
Definition updateProject_assignments (req : Request) : Obj :=
  let name := field (body req) "name" in
  let description := field (body req) "description" in
  let status := field (body req) "status" in
  let startDate := field (body req) "startDate" in
  let endDate := field (body req) "endDate" in
  ((if truthy name then [("name", name)] else [])
   ++ (match description with JUndefined => [] | _ => [("description", description)] end)
   ++ (if truthy status && includes ["active"; "completed"; "canceled"] status
       then [("status", status)] else [])
   ++ (if truthy startDate then [("startDate", startDate)] else [])
   ++ (match endDate with JUndefined => [] | _ => [("endDate", endDate)] end))%list.

Definition updateProject_try (req : Request) : Async HttpResponse :=
  let id := field (params req) "id" in
  (found <- Project_findByPk id ;;
   match found with
   | None => ret (res_formatResponse req 404 JNull (JStr "Proyecto no encontrado"))
   | Some p =>
       match user req with
       | None => throw TypeError
       | Some u =>
           if neither_owner_nor_admin p u
           then ret (res_formatResponse req 403 JNull
                       (JStr "No tiene permisos para modificar este proyecto"))
           else
             saved <- Project_save p (updateProject_assignments req) ;;
             res_formatInstance req 200 false
               (JObj (assign_values (updateProject_assignments req)
                                    (toJSON (Project_values saved))))
               (JStr "Proyecto actualizado correctamente")
       end
   end)%async.

Definition updateProject (req : Request) : Handler HttpResponse :=
  catching (updateProject_try req)
           (validation_or_500 req ["SequelizeValidationError"]
                              "Error al actualizar proyecto").

(** *** taskController.js *)

(** A task of [getTaskById]: its project and its assignee. *)
Definition Task_with_project (db : Db) (t : Task) : JsVal :=
  JObj (toJSON (Task_values t)
        ++ [ ("project",
              match find (fun p => p_id p =? t_projectId t) (projects db) with
              | Some p => JObj (toJSON (Project_values p))
              | None => JNull
              end);
             ("assignee", include_user (assignee_of db t)) ])%list.

Definition getTaskById_try (req : Request) : Async HttpResponse :=
  let id := field (params req) "id" in
  (found <- Task_findByPk id ;;
   match found with
   | None => ret (res_formatResponse req 404 JNull (JStr "Tarea no encontrada"))
   | Some t =>
       db <- snapshot ;;
       parent <- Project_findByPk (JNum (t_projectId t)) ;;
       match parent with
       | None => throw TypeError          (* project.createdBy of null *)
       | Some p =>
           match user req with
           | None => throw TypeError
           | Some u =>
               if neither_owner_nor_admin p u
               then ret (res_formatResponse req 403 JNull
                           (JStr "No tiene permisos para ver esta tarea"))
               else res_formatInstance req 200 true (Task_with_project db t)
                                       (JStr "Tarea obtenida correctamente")
           end
       end
   end)%async.

Definition getTaskById (req : Request) : Handler HttpResponse :=
  catching (getTaskById_try req)
           (fun _ => res_formatResponse req 500 JNull (JStr "Error al obtener tarea")).

(** The assignments of [updateTask] to the loaded instance. *)
Definition updateTask_assignments (req : Request) : Obj :=
  let title := field (body req) "title" in
  let description := field (body req) "description" in
  let status := field (body req) "status" in
  let priority := field (body req) "priority" in
  let dueDate := field (body req) "dueDate" in
  let assignedTo := field (body req) "assignedTo" in
  ((if truthy title then [("title", title)] else [])
   ++ (match description with JUndefined => [] | _ => [("description", description)] end)
   ++ (if truthy status
          && includes ["pending"; "in_progress"; "completed"; "canceled"] status
       then [("status", status)] else [])
   ++ (if truthy priority && includes ["low"; "medium"; "high"] priority
       then [("priority", priority)] else [])
   ++ (match dueDate with JUndefined => [] | _ => [("dueDate", dueDate)] end)
   ++ (match assignedTo with JUndefined => [] | _ => [("assignedTo", assignedTo)] end))%list.

Definition updateTask_try (req : Request) : Async HttpResponse :=
  let id := field (params req) "id" in
  let assignedTo := field (body req) "assignedTo" in
  (found <- Task_findByPk id ;;
   match found with
   | None => ret (res_formatResponse req 404 JNull (JStr "Tarea no encontrada"))
   | Some t =>
       parent <- Project_findByPk (JNum (t_projectId t)) ;;
       match parent with
       | None => throw TypeError
       | Some p =>
           match user req with
           | None => throw TypeError
           | Some u =>
               if neither_owner_nor_admin p u
               then ret (res_formatResponse req 403 JNull
                           (JStr "No tiene permisos para modificar esta tarea"))
               else
                 let lookup :=
                   truthy assignedTo
                   && negb (same_value assignedTo (opt_num (t_assignedTo t))) in
                 assignee <- (if lookup then User_findByPk assignedTo else ret None) ;;
                 match lookup, assignee with
                 | true, None =>
                     ret (res_formatResponse req 404 JNull
                            (JStr "Usuario asignado no encontrado"))
                 | _, _ =>
                     saved <- Task_save t (updateTask_assignments req) ;;
                     let held := match assignedTo with
                                 | JUndefined => opt_num (t_assignedTo t)
                                 | v => v
                                 end in
                     if truthy held
                     then
                       t' <- Task_reload saved ;;
                       db <- snapshot ;;
                       res_formatInstance req 200 true (Task_with_assignee db t')
                                          (JStr "Tarea actualizada correctamente")
                     else
                       res_formatInstance req 200 false
                         (JObj (assign_values (updateTask_assignments req)
                                              (toJSON (Task_values saved))))
                         (JStr "Tarea actualizada correctamente")
                 end
           end
       end
   end)%async.

Definition updateTask (req : Request) : Handler HttpResponse :=
  catching (updateTask_try req)
           (validation_or_500 req ["SequelizeValidationError"]
                              "Error al actualizar tarea").

Definition deleteTask_try (req : Request) : Async HttpResponse :=
  let id := field (params req) "id" in
  (found <- Task_findByPk id ;;
   match found with
   | None => ret (res_formatResponse req 404 JNull (JStr "Tarea no encontrada"))
   | Some t =>
       parent <- Project_findByPk (JNum (t_projectId t)) ;;
       match parent with
       | None => throw TypeError
       | Some p =>
           match user req with
           | None => throw TypeError
           | Some u =>
               if neither_owner_nor_admin p u
               then ret (res_formatResponse req 403 JNull
                           (JStr "No tiene permisos para eliminar esta tarea"))
               else
                 await Task_destroy t ;;
                 ret (res_formatResponse req 200 (JObj [("id", id)])
                                         (JStr "Tarea eliminada correctamente"))
           end
       end
   end)%async.

Definition deleteTask (req : Request) : Handler HttpResponse :=
  catching (deleteTask_try req)
           (fun _ => res_formatResponse req 500 JNull (JStr "Error al eliminar tarea")).

(** *** routes/index.js and app.js *)

(** [router.get('/')] and [router.use('*')] *)
Definition GET_root (req : Request) : HttpResponse :=
  res_formatResponse req 200
    (JObj [("message", JStr "API de Gestión de Proyectos v1.0")])
    (JStr "API funcionando correctamente").

Definition not_found (req : Request) : HttpResponse :=
  res_formatResponse req 404 JNull (JStr "Ruta no encontrada").

(** app.js: the error middleware; [installed] tells whether
    [formatMiddleware] had run and put [res.formatResponse] in place. *)
Definition error_handler (installed : bool) (req : Request) : HttpResponse :=
  if installed
  then res_formatResponse req 500 JNull (JStr "Error interno del servidor")
  else {| status := 500;
          content_type := "application/json";
          sent := JsonBody {| success := false; code := 500;
                              message := JStr "Error interno del servidor";
                              data := JNull; timestamp := now |} |}.

(** *** The routes of the handlers above *)

Definition POST_login : Request -> Handler HttpResponse := login.

Definition GET_perfil : Request -> Handler HttpResponse :=
  guarded authenticate getProfile.

Definition POST_proyectos : Request -> Handler HttpResponse :=
  guarded authenticate createProject.

Definition GET_proyectos_id : Request -> Handler HttpResponse :=
  guarded authenticate getProjectById.

Definition PUT_proyectos_id : Request -> Handler HttpResponse :=
  guarded authenticate (guarded isProjectOwnerOrAdmin updateProject).

Definition GET_tareas_id : Request -> Handler HttpResponse :=
  guarded authenticate getTaskById.

Definition PUT_tareas_id : Request -> Handler HttpResponse :=
  guarded authenticate updateTask.

Definition DELETE_tareas_id : Request -> Handler HttpResponse :=
  guarded authenticate deleteTask.

End Handlers.
End Handlers.
Export Handlers.


(** ** A second installation: tokens that are issued and verified *)

Module Installation.
Import Fixture.

(** As [Fixture.collaborators], with the codec issuing the tokens it
    verifies. *)
Definition signing_collaborators : Collaborators := {|
  jwt_verify := @jwt_verify Fixture.collaborators;
  jwt_sign := fun payload =>
    match prop payload "id" with
    | JNum 1 => "ana.admin"
    | JNum 2 => "luis.user"
    | JNum 3 => "eva.user"
    | _ => "ghost.user"
    end;
  to_integer := @to_integer Fixture.collaborators;
  to_text := @to_text Fixture.collaborators;
  sql_like := @sql_like Fixture.collaborators;
  bcrypt_hash := @bcrypt_hash Fixture.collaborators;
  isEmail := @isEmail Fixture.collaborators;
  accepts_enum := @accepts_enum Fixture.collaborators;
  to_date := @to_date Fixture.collaborators;
  date_json := @date_json Fixture.collaborators;
  instance_xml := @instance_xml Fixture.collaborators;
  now := @now Fixture.collaborators
|}.

(** As above, with the ORM's default of letting any value into an ENUM
    attribute ([typeValidation] is off). *)
Definition untyped_collaborators : Collaborators := {|
  jwt_verify := @jwt_verify signing_collaborators;
  jwt_sign := @jwt_sign signing_collaborators;
  to_integer := @to_integer signing_collaborators;
  to_text := @to_text signing_collaborators;
  sql_like := @sql_like signing_collaborators;
  bcrypt_hash := @bcrypt_hash signing_collaborators;
  isEmail := @isEmail signing_collaborators;
  accepts_enum := fun _ _ => true;
  to_date := @to_date signing_collaborators;
  date_json := @date_json signing_collaborators;
  instance_xml := @instance_xml signing_collaborators;
  now := @now signing_collaborators
|}.

Definition password_check : PasswordCheck := {|
  bcrypt_compare := fun plain hash => (hash =? "$2b$10$" ++ plain)%string
|}.

(** Luis is assigned a task of Ana's project 11. *)
Definition db1 : Db :=
  {| online := true;
     users := [ana; luis; eva];
     projects := [web; api];
     tasks := [ task 100 "Urgent fix" "high" 10 "2025-03-01 00:00:00.000 +00:00";
                {| t_id := 103; t_title := "Deploy"; t_description := None;
                   t_status := "pending"; t_priority := "high"; t_dueDate := None;
                   t_projectId := 11; t_assignedTo := Some 2;
                   t_createdAt := "2025-03-04 00:00:00.000 +00:00";
                   t_updatedAt := "2025-03-04 00:00:00.000 +00:00" |} ];
     users_seq := 3; projects_seq := 11; tasks_seq := 103 |}.

End Installation.

(** ** More vocabulary *)

Module Notions.

(** Some object inside [v] has the key [k]. *)
Fixpoint has_key (k : string) (v : JsVal) : bool :=
  match v with
  | JArr items => existsb (has_key k) items
  | JObj fields => existsb (fun kv => (fst kv =? k)%string || has_key k (snd kv)) fields
  | _ => false
  end.

(** [v] with every scalar inside an array or an object replaced by its
    text, [String(...)]. *)
Fixpoint textual (v : JsVal) : JsVal :=
  match v with
  | JArr items =>
      JArr (map (fun item => match item with
                             | JArr _ | JObj _ => textual item
                             | _ => JStr (toString item)
                             end) items)
  | JObj fields =>
      JObj (map (fun kv => (fst kv, match snd kv with
                                    | JArr _ | JObj _ => textual (snd kv)
                                    | _ => JStr (toString (snd kv))
                                    end)) fields)
  | _ => v
  end.

(** The [data] of a JSON answer. *)
Definition json_data (r : HttpResponse) : JsVal :=
  match sent r with
  | JsonBody e => data e
  | XmlBody _ => JNull
  end.

(** The response is a failure: its status is outside 200..299. *)
Definition failed (r : HttpResponse) : Prop := ~ (200 <= status r < 300).

(** Keys are unique in each table and were handed out by its sequence;
    no two users share an e-mail; every reference names a stored row. *)
Record well_formed (db : Db) : Prop := {
  wf_users : NoDup (map u_id (users db));
  wf_projects : NoDup (map p_id (projects db));
  wf_tasks : NoDup (map t_id (tasks db));
  wf_emails : NoDup (map u_email (users db));
  wf_users_seq : forall u, In u (users db) -> u_id u <= users_seq db;
  wf_projects_seq : forall p, In p (projects db) -> p_id p <= projects_seq db;
  wf_tasks_seq : forall t, In t (tasks db) -> t_id t <= tasks_seq db;
  wf_creator : forall p, In p (projects db) -> In (p_createdBy p) (map u_id (users db));
  wf_parent : forall t, In t (tasks db) -> In (t_projectId t) (map p_id (projects db));
  wf_assignee : forall t k, In t (tasks db) -> t_assignedTo t = Some k ->
                            In k (map u_id (users db))
}.

Section Notions.
Context `{Collaborators} `{PasswordCheck}.

(** The engine reads a number given for an INTEGER column as itself. *)
Definition integer_keys : Prop := forall k, to_integer (JNum k) = Some k.

(** [roles] allows [role]: [allowedRoles.includes(role)]. *)
Definition allows (roles : JsVal) (role : string) : bool :=
  existsb (is_str role) (match roles with JArr items => items | r => [r] end).

(** What [login] answers for a user it accepts. *)
Definition logged_in (req : Request) (u : User) : HttpResponse :=
  res_formatResponse req 200
    (JObj [ ("user", JObj [ ("id", JNum (u_id u)); ("name", JStr (u_name u));
                            ("email", JStr (u_email u)); ("role", JStr (u_role u)) ]);
            ("token", JStr (generateToken u)) ])
    (JStr "Inicio de sesión exitoso").

(** Every value that [m] returns satisfies [P]. *)
Definition answers_with {A : Type} (P : A -> Prop) (m : Async A) : Prop :=
  forall db, match fst (m db) with Ok r => P r | Throw _ => True end.

(** [m] leaves the store as it finds it. *)
Definition reads_only {A : Type} (m : Async A) : Prop :=
  forall db, snd (m db) = db.

(** The routes behind [authenticate]: [/perfil], and all of
    projectRoutes.js and taskRoutes.js. *)
Definition protected_routes : list (Request -> Handler HttpResponse) :=
  [ GET_perfil;
    GET_proyectos; POST_proyectos; GET_proyectos_id; PUT_proyectos_id;
    DELETE_proyectos_id; GET_proyectos_projectId_tareas;
    POST_proyectos_projectId_tareas;
    GET_tareas_id; PUT_tareas_id; DELETE_tareas_id ].

End Notions.
End Notions.
Export Notions.

(** * Properties *)

(** ** The response formatter *)

Module ResponseFacts.

Lemma default_when_not_explicit (t : string) (statusCode : Z) (d m : JsVal) :
  truthy m = false ->
  message (response_envelope t statusCode d m) = JStr (getDefaultMessage statusCode).
Proof.
  intros Hm. unfold response_envelope; cbn [message].
  destruct m; cbn in Hm |- *; try discriminate; try reflexivity;
    unfold or_else; cbn; rewrite Hm; reflexivity.
Qed.

Lemma getDefaultMessage_unmapped (statusCode : Z) :
  ~ In statusCode [200; 201; 400; 401; 403; 404; 500] ->
  getDefaultMessage statusCode = "Operación completada".
Proof.
  intros Hout.
  assert (H200 : statusCode <> 200) by (intros ->; apply Hout; cbn; tauto).
  assert (H201 : statusCode <> 201) by (intros ->; apply Hout; cbn; tauto).
  assert (H400 : statusCode <> 400) by (intros ->; apply Hout; cbn; tauto).
  assert (H401 : statusCode <> 401) by (intros ->; apply Hout; cbn; tauto).
  assert (H403 : statusCode <> 403) by (intros ->; apply Hout; cbn; tauto).
  assert (H404 : statusCode <> 404) by (intros ->; apply Hout; cbn; tauto).
  assert (H500 : statusCode <> 500) by (intros ->; apply Hout; cbn; tauto).
  unfold getDefaultMessage.
  repeat match goal with
         | |- context [match ?x with _ => _ end] => destruct x; try reflexivity
         end; congruence.
Qed.

(** C6, as the claim words it: the entries would be "Created", "Bad
    Request", "Unauthorized", "Forbidden", "Not Found", "Internal
    Server Error" and, for an unmapped code, "Operation completed". The
    table of the source answers in Spanish, so none of these is the
    message the envelope carries; only the entry "OK" for 200 is as
    claimed. *)
Lemma default_messages_are_not_the_claimed :
  let default_of statusCode :=
    message (response_envelope "2025-05-01T10:00:00.000Z" statusCode JNull JUndefined) in
  default_of 200 = JStr "OK"
  /\ default_of 201 <> JStr "Created"
  /\ default_of 400 <> JStr "Bad Request"
  /\ default_of 401 <> JStr "Unauthorized"
  /\ default_of 403 <> JStr "Forbidden"
  /\ default_of 404 <> JStr "Not Found"
  /\ default_of 500 <> JStr "Internal Server Error"
  /\ default_of 204 <> JStr "Operation completed".
Proof. cbn. repeat split; discriminate. Qed.

(** C6 (amended): with no explicit message (omitted, [null], or any
    other falsy value) the envelope's message comes from a fixed table
    keyed by the status code: 200 "OK", 201 "Recurso creado
    correctamente", 400 "Solicitud incorrecta", 401 "No autorizado",
    403 "Acceso prohibido", 404 "Recurso no encontrado", 500 "Error
    interno del servidor", and "Operación completada" for every other
    code. *)
Theorem default_message_table (t : string) (statusCode : Z) (d m : JsVal) :
  truthy m = false ->
  message (response_envelope t statusCode d m) = JStr (getDefaultMessage statusCode)
  /\ getDefaultMessage 200 = "OK"
  /\ getDefaultMessage 201 = "Recurso creado correctamente"
  /\ getDefaultMessage 400 = "Solicitud incorrecta"
  /\ getDefaultMessage 401 = "No autorizado"
  /\ getDefaultMessage 403 = "Acceso prohibido"
  /\ getDefaultMessage 404 = "Recurso no encontrado"
  /\ getDefaultMessage 500 = "Error interno del servidor"
  /\ (~ In statusCode [200; 201; 400; 401; 403; 404; 500] ->
      message (response_envelope t statusCode d m) = JStr "Operación completada").
Proof.
  intros Hm. split; [now apply default_when_not_explicit|].
  repeat (split; [reflexivity|]).
  intros Hout. rewrite default_when_not_explicit by assumption.
  now rewrite getDefaultMessage_unmapped.
Qed.

Lemma default_message_table_witness :
  truthy JUndefined = false
  /\ message (response_envelope "2025-05-01T10:00:00.000Z" 204 JNull JUndefined)
     = JStr "Operación completada"
  /\ message (response_envelope "2025-05-01T10:00:00.000Z" 404 JNull JNull)
     = JStr "Recurso no encontrado".
Proof.
  split; [reflexivity|]. split.
  - apply (default_message_table "2025-05-01T10:00:00.000Z" 204 JNull JUndefined
             eq_refl).
    cbn. intros H. repeat (destruct H as [H|H]; [discriminate H|]). exact H.
  - exact (proj1 (default_message_table "2025-05-01T10:00:00.000Z" 404 JNull JNull
                    eq_refl)).
Defined.

(** The body sent depends on the data only through the envelope. *)
Lemma formatResponse_envelope (t : string) (statusCode : Z) (d d' m f : JsVal) :
  response_envelope t statusCode d m = response_envelope t statusCode d' m ->
  formatResponse t statusCode d m f = formatResponse t statusCode d' m f.
Proof. unfold formatResponse. intros ->. reflexivity. Qed.

(** C10: a falsy [data] argument, in particular [null], [undefined],
    [0], the empty string and [false], leaves [null] in the envelope's
    data field, and the response sent is the one sent for no payload at
    all. *)
Theorem falsy_data_is_null (t : string) (statusCode : Z) (d m f : JsVal) :
  truthy d = false ->
  data (response_envelope t statusCode d m) = JNull
  /\ formatResponse t statusCode d m f = formatResponse t statusCode JNull m f
  /\ Forall (fun v => truthy v = false)
            [JNull; JUndefined; JNum 0; JStr ""; JBool false].
Proof.
  intros Hd.
  assert (Henv : response_envelope t statusCode d m
                 = response_envelope t statusCode JNull m).
  { unfold response_envelope, or_else. rewrite Hd. reflexivity. }
  split; [rewrite Henv; reflexivity|].
  split; [now apply formatResponse_envelope|].
  repeat constructor.
Qed.

Lemma falsy_data_is_null_witness :
  data (response_envelope "2025-05-01T10:00:00.000Z" 200 (JNum 0) (JStr "ok")) = JNull
  /\ formatResponse "2025-05-01T10:00:00.000Z" 200 (JStr "") (JStr "ok") (JStr "xml")
     = formatResponse "2025-05-01T10:00:00.000Z" 200 JNull (JStr "ok") (JStr "xml").
Proof.
  split.
  - exact (proj1 (falsy_data_is_null "2025-05-01T10:00:00.000Z" 200 (JNum 0)
                    (JStr "ok") JUndefined eq_refl)).
  - exact (proj1 (proj2 (falsy_data_is_null "2025-05-01T10:00:00.000Z" 200 (JStr "")
                           (JStr "ok") (JStr "xml") eq_refl))).
Defined.

End ResponseFacts.

(** ** The gates *)

Module GateFacts.

Section Gates.
Context `{Collaborators}.

Lemma select_keeps_store {R : Type} (table : Db -> list R) (values : R -> Obj)
      (w : Where) (order : list (string * Direction)) (db : Db) :
  snd (select table values w order db) = db.
Proof.
  unfold select. destruct (whereItemsQuery w); [destruct (online db)|]; reflexivity.
Qed.

Lemma findOne_keeps_store {R : Type} (table : Db -> list R) (values : R -> Obj)
      (w : Where) (db : Db) :
  snd (findOne table values w db) = db.
Proof.
  unfold findOne, bind. pose proof (select_keeps_store table values w [] db) as Hs.
  destruct (select table values w [] db) as [[rows|e] db']; cbn in *; assumption.
Qed.

Lemma findByPk_keeps_store {R : Type} (table : Db -> list R) (values : R -> Obj)
      (param : JsVal) (db : Db) :
  snd (findByPk table values param db) = db.
Proof.
  destruct param; cbn; try reflexivity; apply findOne_keeps_store.
Qed.

(** A lookup is settled by its outcome: the store is as it was. *)
Lemma findByPk_outcome {R : Type} (table : Db -> list R) (values : R -> Obj)
      (param : JsVal) (db : Db) (o : Outcome (option R)) :
  fst (findByPk table values param db) = o ->
  findByPk table values param db = (o, db).
Proof.
  intros <-. rewrite <- (findByPk_keeps_store table values param db) at 3.
  now destruct (findByPk table values param db).
Qed.

Lemma User_findByPk_outcome (param : JsVal) (db : Db) (o : Outcome (option User)) :
  fst (User_findByPk param db) = o -> User_findByPk param db = (o, db).
Proof. apply findByPk_outcome. Qed.

Lemma Project_findByPk_outcome (param : JsVal) (db : Db) (o : Outcome (option Project)) :
  fst (Project_findByPk param db) = o -> Project_findByPk param db = (o, db).
Proof. apply findByPk_outcome. Qed.

Lemma bearer_token_slots (h token : string) :
  bearer_token h = Some token ->
  slot (split " " h) 0 = JStr "Bearer" /\ slot (split " " h) 1 = JStr token
  /\ token <> "".
Proof.
  unfold bearer_token, slot.
  destruct (split " " h) as [|scheme [|tok rest]]; try discriminate.
  destruct (scheme =? "Bearer")%string eqn:Hs; [|discriminate].
  destruct (tok =? "")%string eqn:Ht; [discriminate|].
  cbn. intros [= <-]. apply String.eqb_eq in Hs. apply String.eqb_neq in Ht.
  subst. auto.
Qed.

Lemma bearer_token_none (h : string) :
  bearer_token h = None ->
  negb (is_str "Bearer" (slot (split " " h) 0))
  || negb (truthy (slot (split " " h) 1)) = true.
Proof.
  unfold bearer_token, slot.
  destruct (split " " h) as [|scheme [|tok rest]]; cbn.
  - reflexivity.
  - intros _. apply orb_true_r.
  - destruct (scheme =? "Bearer")%string; [|reflexivity].
    destruct (tok =? "")%string; [reflexivity|discriminate].
Qed.

Lemma truthy_JStr (s : string) : truthy (JStr s) = true <-> s <> "".
Proof.
  cbn. destruct (s =? "")%string eqn:E.
  - apply String.eqb_eq in E. split; [discriminate|congruence].
  - apply String.eqb_neq in E. split; auto.
Qed.

(** A codec failure is reported as [null], which is falsy. *)
Lemma verifyToken_invalid (token : string) (e : JsError) :
  jwt_verify token = Throw e -> verifyToken token = JNull.
Proof. unfold verifyToken. now intros ->. Qed.

(** The gate up to the point where the stored record is asked for. *)
Lemma authenticate_reaches_lookup (req : Request) (db : Db) (h token : string) :
  field (headers req) "authorization" = JStr h ->
  bearer_token h = Some token ->
  truthy (verifyToken token) = true ->
  authenticate req db =
  match User_findByPk (prop (verifyToken token) "id") db with
  | (Ok (Some u), db') =>
      if u_active u then (Next (set_user (identity_of u) req), db')
      else (answer req 401 "Usuario no encontrado o inactivo", db')
  | (Ok None, db') => (answer req 401 "Usuario no encontrado o inactivo", db')
  | (Throw _, db') => (answer req 500 "Error en autenticación", db')
  end.
Proof.
  intros Hh Htok Hdec.
  destruct (bearer_token_slots _ Htok) as (Hs0 & Hs1 & Hne).
  unfold authenticate, catching, authenticate_try.
  rewrite Hh. assert (Ht : truthy (JStr h) = true).
  { apply truthy_JStr. intros ->. discriminate Htok. }
  rewrite Ht, Hs0, Hs1. cbn [negb is_str orb toString].
  rewrite String.eqb_refl. rewrite (proj2 (truthy_JStr token) Hne).
  cbn [negb orb]. rewrite Hdec. cbn [negb]. unfold bind.
  destruct (User_findByPk (prop (verifyToken token) "id") db) as [[[u|]|e] db'];
    try reflexivity.
  destruct (u_active u); reflexivity.
Qed.

(** C1 (amended): the checks of [authenticate] in their order, the
    first failing one deciding the response. No Authorization header
    (the test is [!authHeader], which an empty value also meets): 401
    "No se proporcionó token de autenticación". A header not of the
    form [Bearer <token>]: 401 "Formato de token inválido". A token the
    codec does not verify: 401 "Token inválido o expirado". No stored
    identity for the subject id, or an inactive one: 401 "Usuario no
    encontrado o inactivo". Otherwise the next handler runs on the
    request with [user] set to the id, e-mail and role of the stored
    record, and nothing else of it changed. A failure on the way (the
    lookup rejects, the header is not text) is answered 500 "Error en
    autenticación"; the gate never rejects. The store is left as it
    was in every case. *)
Theorem authenticate_checks_in_order (req : Request) (db : Db) :
  let header := field (headers req) "authorization" in
  (truthy header = false ->
   authenticate req db
   = (answer req 401 "No se proporcionó token de autenticación", db))
  /\ (forall h, header = JStr h -> truthy header = true -> bearer_token h = None ->
      authenticate req db = (answer req 401 "Formato de token inválido", db))
  /\ (forall h token, header = JStr h -> bearer_token h = Some token ->
      truthy (verifyToken token) = false ->
      authenticate req db = (answer req 401 "Token inválido o expirado", db))
  /\ (forall h token found, header = JStr h -> bearer_token h = Some token ->
      truthy (verifyToken token) = true ->
      fst (User_findByPk (prop (verifyToken token) "id") db) = Ok found ->
      (forall u, found = Some u -> u_active u = false) ->
      authenticate req db = (answer req 401 "Usuario no encontrado o inactivo", db))
  /\ (forall h token u, header = JStr h -> bearer_token h = Some token ->
      truthy (verifyToken token) = true ->
      fst (User_findByPk (prop (verifyToken token) "id") db) = Ok (Some u) ->
      u_active u = true ->
      exists req',
        authenticate req db = (Next req', db)
        /\ user req' = Some {| ru_id := u_id u; ru_email := u_email u;
                               ru_role := u_role u |}
        /\ query req' = query req /\ headers req' = headers req
        /\ params req' = params req /\ body req' = body req
        /\ project req' = project req)
  /\ (forall h token e, header = JStr h -> bearer_token h = Some token ->
      truthy (verifyToken token) = true ->
      fst (User_findByPk (prop (verifyToken token) "id") db) = Throw e ->
      authenticate req db = (answer req 500 "Error en autenticación", db))
  /\ (truthy header = true -> (forall h, header <> JStr h) ->
      authenticate req db = (answer req 500 "Error en autenticación", db)).
Proof.
  intros header. subst header.
  split; [|split; [|split; [|split; [|split; [|split]]]]].
  - intros Hf. unfold authenticate, catching, authenticate_try. rewrite Hf. reflexivity.
  - intros h Hh Ht Hnone. unfold authenticate, catching, authenticate_try.
    rewrite Ht. rewrite Hh. cbn [negb]. rewrite (bearer_token_none _ Hnone). reflexivity.
  - intros h token Hh Htok Hdec.
    destruct (bearer_token_slots _ Htok) as (Hs0 & Hs1 & Hne).
    unfold authenticate, catching, authenticate_try. rewrite Hh.
    assert (Ht : truthy (JStr h) = true).
    { apply truthy_JStr. intros ->. discriminate Htok. }
    rewrite Ht, Hs0, Hs1. cbn [negb is_str orb toString].
    rewrite String.eqb_refl. rewrite (proj2 (truthy_JStr token) Hne).
    cbn [negb orb]. rewrite Hdec. reflexivity.
  - intros h token found Hh Htok Hdec Hfound Hinactive.
    rewrite (authenticate_reaches_lookup req db Hh Htok Hdec).
    rewrite (User_findByPk_outcome _ _ Hfound). destruct found as [u|]; [|reflexivity].
    now rewrite (Hinactive u eq_refl).
  - intros h token u Hh Htok Hdec Hfound Hactive.
    rewrite (authenticate_reaches_lookup req db Hh Htok Hdec).
    rewrite (User_findByPk_outcome _ _ Hfound). rewrite Hactive.
    eexists. split; [reflexivity|].
    cbn [user query headers params body project set_user identity_of]. tauto.
  - intros h token e Hh Htok Hdec Hfound.
    rewrite (authenticate_reaches_lookup req db Hh Htok Hdec).
    now rewrite (User_findByPk_outcome _ _ Hfound).
  - intros Ht Hns. unfold authenticate, catching, authenticate_try. rewrite Ht.
    cbn [negb]. destruct (field (headers req) "authorization"); try reflexivity.
    exfalso. now apply (Hns s).
Qed.

(** *** The stored record behind a lookup *)

Lemma sort_by_unordered {R : Type} (l : list R) :
  sort_by (fun _ _ : R => Eq) l = l.
Proof.
  induction l as [|x l IH]; [reflexivity|].
  unfold sort_by in *. cbn. rewrite IH. destruct l; reflexivity.
Qed.

Lemma hd_error_filter {R : Type} (f : R -> bool) (l : list R) :
  hd_error (filter f l) = find f l.
Proof.
  induction l as [|x l IH]; [reflexivity|]. cbn. destruct (f x); [reflexivity|exact IH].
Qed.

Lemma col_holds_key (v : JsVal) (k : Z) :
  is_key v = true -> col_holds (JNum k) (CEq v) = key_is v k.
Proof. destruct v; try discriminate; reflexivity. Qed.

Lemma select_by_key {R : Type} (table : Db -> list R) (values : R -> Obj)
      (key : R -> Z) (v : JsVal) (db : Db) :
  (forall r, field (values r) "id" = JNum (key r)) ->
  online db = true -> is_key v = true ->
  select table values [("id", CEq v)] [] db
  = (Ok (filter (fun r => key_is v (key r)) (table db)), db).
Proof.
  intros Hid Hon Hkey. unfold select.
  replace (whereItemsQuery [("id", CEq v)]) with (Ok tt)
    by (destruct v; try discriminate Hkey; reflexivity).
  rewrite Hon. cbn [order_compare]. rewrite sort_by_unordered.
  f_equal. f_equal. apply filter_ext. intros r. unfold row_matches. cbn.
  rewrite Hid, andb_true_r. now apply col_holds_key.
Qed.

Lemma findByPk_by_key {R : Type} (table : Db -> list R) (values : R -> Obj)
      (key : R -> Z) (v : JsVal) (db : Db) :
  (forall r, field (values r) "id" = JNum (key r)) ->
  online db = true -> is_key v = true ->
  findByPk table values v db = (Ok (find (fun r => key_is v (key r)) (table db)), db).
Proof.
  intros Hid Hon Hkey.
  pose proof (select_by_key table values key v db Hid Hon Hkey) as Hsel.
  destruct v; try discriminate Hkey; cbn; unfold findOne, bind; rewrite Hsel;
    unfold ret; now rewrite hd_error_filter.
Qed.

Lemma User_findByPk_by_key (v : JsVal) (db : Db) :
  online db = true -> is_key v = true ->
  User_findByPk v db = (Ok (find (fun u => key_is v (u_id u)) (users db)), db).
Proof. apply findByPk_by_key. reflexivity. Qed.

Lemma Project_findByPk_by_key (v : JsVal) (db : Db) :
  online db = true -> is_key v = true ->
  Project_findByPk v db = (Ok (find (fun p => key_is v (p_id p)) (projects db)), db).
Proof. apply findByPk_by_key. reflexivity. Qed.

Lemma find_unique {R : Type} (key : R -> Z) (f : R -> bool) (l : list R) (r : R) :
  NoDup (map key l) -> In r l -> f r = true ->
  (forall r', In r' l -> f r' = true -> key r' = key r) ->
  find f l = Some r.
Proof.
  induction l as [|x l IH]; intros Hnd Hin Hf Huniq; [contradiction|].
  cbn. destruct (f x) eqn:Hfx.
  - destruct Hin as [->|Hin]; [reflexivity|]. exfalso.
    inversion Hnd as [|? ? Hnotin _]; subst. apply Hnotin.
    rewrite (Huniq x (or_introl eq_refl) Hfx). now apply in_map.
  - destruct Hin as [->|Hin]; [congruence|].
    inversion Hnd; subst. apply IH; auto. intros r' Hr'. apply Huniq. now right.
Qed.

(** With keys unique in [users], the lookup for a subject id finds the
    identity that carries it, and finds nothing when none does. *)
Lemma stored_identity_found (v : JsVal) (db : Db) (u : User) :
  online db = true -> is_key v = true -> NoDup (map u_id (users db)) ->
  In u (users db) -> to_integer v = Some (u_id u) ->
  fst (User_findByPk v db) = Ok (Some u).
Proof.
  intros Hon Hkey Hnd Hin Hint. rewrite User_findByPk_by_key by assumption. cbn.
  f_equal. apply (find_unique u_id); auto.
  - unfold key_is. rewrite Hint. apply Z.eqb_refl.
  - intros u' _. unfold key_is. rewrite Hint. intros E. now apply Z.eqb_eq in E.
Qed.

Lemma stored_identity_absent (v : JsVal) (db : Db) :
  online db = true -> is_key v = true ->
  (forall u, In u (users db) -> to_integer v <> Some (u_id u)) ->
  fst (User_findByPk v db) = Ok None.
Proof.
  intros Hon Hkey Hnone. rewrite User_findByPk_by_key by assumption. cbn. f_equal.
  destruct (find _ (users db)) as [u|] eqn:Hf; [|reflexivity]. exfalso.
  apply find_some in Hf. destruct Hf as [Hin Hk]. apply (Hnone u Hin).
  unfold key_is in Hk. destruct (to_integer v); [|discriminate].
  apply Z.eqb_eq in Hk. now subst.
Qed.

(** The gate read against the rows of [users]: an identity is attached
    when a stored, active row carries the subject id, and the answer is
    401 when every row that carries it is inactive or none does. *)
Lemma authenticate_attaches_stored_row (req : Request) (db : Db) (h token : string)
      (u : User) :
  field (headers req) "authorization" = JStr h -> bearer_token h = Some token ->
  truthy (verifyToken token) = true ->
  online db = true -> is_key (prop (verifyToken token) "id") = true ->
  NoDup (map u_id (users db)) -> In u (users db) ->
  to_integer (prop (verifyToken token) "id") = Some (u_id u) ->
  u_active u = true ->
  authenticate req db = (Next (set_user (identity_of u) req), db).
Proof.
  intros Hh Htok Hdec Hon Hkey Hnd Hin Hint Hactive.
  rewrite (authenticate_reaches_lookup req db Hh Htok Hdec).
  rewrite (User_findByPk_outcome _ _ (stored_identity_found _ _ _ Hon Hkey Hnd Hin Hint)).
  now rewrite Hactive.
Qed.

Lemma authenticate_rejects_unknown_subject (req : Request) (db : Db) (h token : string) :
  field (headers req) "authorization" = JStr h -> bearer_token h = Some token ->
  truthy (verifyToken token) = true ->
  online db = true -> is_key (prop (verifyToken token) "id") = true ->
  (forall u, In u (users db) ->
             to_integer (prop (verifyToken token) "id") = Some (u_id u) ->
             u_active u = false) ->
  authenticate req db = (answer req 401 "Usuario no encontrado o inactivo", db).
Proof.
  intros Hh Htok Hdec Hon Hkey Hnone.
  rewrite (authenticate_reaches_lookup req db Hh Htok Hdec).
  rewrite User_findByPk_by_key by assumption.
  destruct (find _ (users db)) as [u|] eqn:Hf; [|reflexivity].
  apply find_some in Hf. destruct Hf as [Hin Hk].
  rewrite (Hnone u Hin); [reflexivity|].
  unfold key_is in Hk. destruct (to_integer _); [|discriminate].
  apply Z.eqb_eq in Hk. now subst.
Qed.

(** A header [Bearer <token>] with a token free of spaces is of the
    form. *)
Lemma split_no_separator (s : string) :
  string_forall (fun c => negb (Ascii.eqb c " ")) s = true -> split " " s = [s].
Proof.
  induction s as [|c s IH]; [reflexivity|]. cbn.
  destruct (Ascii.eqb c " "); [discriminate|]. cbn. intros Hs. now rewrite IH.
Qed.

Lemma bearer_token_of_header (token : string) :
  token <> "" -> string_forall (fun c => negb (Ascii.eqb c " ")) token = true ->
  bearer_token ("Bearer " ++ token) = Some token.
Proof.
  intros Hne Hsp. unfold bearer_token.
  change (split " " ("Bearer " ++ token)) with ("Bearer" :: split " " token).
  rewrite split_no_separator by assumption. cbn.
  apply String.eqb_neq in Hne. now rewrite Hne.
Qed.

(** *** The owner-or-admin gate *)

(** C3 (amended): for an authenticated request,
    [isProjectOwnerOrAdmin] answers 400 "ID de proyecto no
    proporcionado" when neither the route parameters nor the body give
    a project id; else 404 "Proyecto no encontrado" when no project has
    that id; else, when the caller created the project or has the
    admin role, the next handler runs on the request with [project]
    set to the loaded row and nothing else of it changed; else it
    answers 403 "No tiene permiso para modificar este proyecto"; and a
    lookup that rejects is answered 500 "Error al verificar permisos".
    The store is left as it was in every case. *)
Theorem isProjectOwnerOrAdmin_decides (req : Request) (db : Db) (caller : ReqUser) :
  user req = Some caller ->
  let projectId := resolved_project_id req in
  (truthy projectId = false ->
   isProjectOwnerOrAdmin req db = (answer req 400 "ID de proyecto no proporcionado", db))
  /\ (truthy projectId = true ->
      fst (Project_findByPk projectId db) = Ok None ->
      isProjectOwnerOrAdmin req db = (answer req 404 "Proyecto no encontrado", db))
  /\ (forall p, truthy projectId = true ->
      fst (Project_findByPk projectId db) = Ok (Some p) ->
      p_createdBy p = ru_id caller \/ ru_role caller = "admin" ->
      exists req',
        isProjectOwnerOrAdmin req db = (Next req', db)
        /\ project req' = Some p
        /\ user req' = Some caller
        /\ query req' = query req /\ headers req' = headers req
        /\ params req' = params req /\ body req' = body req)
  /\ (forall p, truthy projectId = true ->
      fst (Project_findByPk projectId db) = Ok (Some p) ->
      p_createdBy p <> ru_id caller -> ru_role caller <> "admin" ->
      isProjectOwnerOrAdmin req db
      = (answer req 403 "No tiene permiso para modificar este proyecto", db))
  /\ (forall e, truthy projectId = true ->
      fst (Project_findByPk projectId db) = Throw e ->
      isProjectOwnerOrAdmin req db = (answer req 500 "Error al verificar permisos", db)).
Proof.
  intros Hu projectId. subst projectId.
  unfold isProjectOwnerOrAdmin, catching, isProjectOwnerOrAdmin_try.
  fold (resolved_project_id req).
  split; [|split; [|split; [|split]]].
  - intros ->. reflexivity.
  - intros -> Hf. cbn [negb]. unfold bind.
    now rewrite (Project_findByPk_outcome _ _ Hf).
  - intros p -> Hf Hown. cbn [negb]. unfold bind.
    rewrite (Project_findByPk_outcome _ _ Hf), Hu.
    assert (Hoa : owner_or_admin p caller = true).
    { unfold owner_or_admin. destruct Hown as [E|E]; rewrite E.
      - now rewrite Z.eqb_refl.
      - now rewrite String.eqb_refl, orb_true_r. }
    rewrite Hoa. eexists. split; [reflexivity|].
    cbn [user query headers params body project set_project]. tauto.
  - intros p -> Hf Hne Hrole. cbn [negb]. unfold bind.
    rewrite (Project_findByPk_outcome _ _ Hf), Hu.
    assert (Hoa : owner_or_admin p caller = false).
    { unfold owner_or_admin. apply Z.eqb_neq in Hne. apply String.eqb_neq in Hrole.
      now rewrite Hne, Hrole. }
    now rewrite Hoa.
  - intros e -> Hf. cbn [negb]. unfold bind.
    now rewrite (Project_findByPk_outcome _ _ Hf).
Qed.

(** *** The attached identity is the stored one *)

Lemma getProjects_ignores_headers : ignores_headers getProjects.
Proof. intros hs req db. reflexivity. Qed.

Lemma deleteProject_ignores_headers : ignores_headers deleteProject.
Proof. intros hs req db. reflexivity. Qed.

Lemma getProjectTasks_ignores_headers : ignores_headers getProjectTasks.
Proof. intros hs req db. reflexivity. Qed.

Lemma createTask_ignores_headers : ignores_headers createTask.
Proof. intros hs req db. reflexivity. Qed.

Lemma getProfile_ignores_headers : ignores_headers getProfile.
Proof. intros hs req db. reflexivity. Qed.

Lemma createProject_ignores_headers : ignores_headers createProject.
Proof. intros hs req db. reflexivity. Qed.

Lemma getProjectById_ignores_headers : ignores_headers getProjectById.
Proof. intros hs req db. reflexivity. Qed.

Lemma updateProject_ignores_headers : ignores_headers updateProject.
Proof. intros hs req db. reflexivity. Qed.

Lemma getTaskById_ignores_headers : ignores_headers getTaskById.
Proof. intros hs req db. reflexivity. Qed.

Lemma updateTask_ignores_headers : ignores_headers updateTask.
Proof. intros hs req db. reflexivity. Qed.

Lemma deleteTask_ignores_headers : ignores_headers deleteTask.
Proof. intros hs req db. reflexivity. Qed.

Lemma isProjectOwnerOrAdmin_headers (hs : Obj) (req : Request) (db : Db) :
  isProjectOwnerOrAdmin (set_headers hs req) db
  = (map_reply (set_headers hs) (fst (isProjectOwnerOrAdmin req db)),
     snd (isProjectOwnerOrAdmin req db)).
Proof.
  unfold isProjectOwnerOrAdmin, catching, isProjectOwnerOrAdmin_try.
  change (format_of (set_headers hs req)) with (format_of req).
  change (params (set_headers hs req)) with (params req).
  change (body (set_headers hs req)) with (body req).
  change (user (set_headers hs req)) with (user req).
  fold (resolved_project_id req).
  destruct (truthy (resolved_project_id req)); cbn [negb]; [|reflexivity].
  unfold bind.
  destruct (Project_findByPk (resolved_project_id req) db) as [[[p|]|e] db'];
    try reflexivity.
  destruct (user req) as [u|]; [|reflexivity].
  destruct (owner_or_admin p u); reflexivity.
Qed.

Lemma guarded_gate_ignores_headers (h : Request -> Handler HttpResponse) :
  ignores_headers h -> ignores_headers (guarded isProjectOwnerOrAdmin h).
Proof.
  intros Hh hs req db. unfold guarded. rewrite isProjectOwnerOrAdmin_headers.
  destruct (isProjectOwnerOrAdmin req db) as [[r|q] db']; cbn; [reflexivity|apply Hh].
Qed.

(** Two requests that differ in their headers only, each with a token
    that verifies, the two tokens naming the same subject id: the gate
    treats them alike. *)
Lemma authenticate_same_subject (req : Request) (db : Db) (hs1 hs2 : Obj)
      (h1 h2 token1 token2 : string) :
  field hs1 "authorization" = JStr h1 -> bearer_token h1 = Some token1 ->
  truthy (verifyToken token1) = true ->
  field hs2 "authorization" = JStr h2 -> bearer_token h2 = Some token2 ->
  truthy (verifyToken token2) = true ->
  prop (verifyToken token1) "id" = prop (verifyToken token2) "id" ->
  authenticate (set_headers hs2 req) db
  = (map_reply (set_headers hs2) (fst (authenticate (set_headers hs1 req) db)),
     snd (authenticate (set_headers hs1 req) db)).
Proof.
  intros Hh1 Ht1 Hv1 Hh2 Ht2 Hv2 Hid.
  rewrite (authenticate_reaches_lookup (set_headers hs1 req) db Hh1 Ht1 Hv1).
  rewrite (authenticate_reaches_lookup (set_headers hs2 req) db Hh2 Ht2 Hv2).
  rewrite <- Hid.
  destruct (User_findByPk (prop (verifyToken token1) "id") db) as [[[u|]|e] db'];
    try reflexivity.
  destruct (u_active u); reflexivity.
Qed.

Lemma guarded_authenticate_same_subject (h : Request -> Handler HttpResponse)
      (req : Request) (db : Db) (hs1 hs2 : Obj) (h1 h2 token1 token2 : string) :
  ignores_headers h ->
  field hs1 "authorization" = JStr h1 -> bearer_token h1 = Some token1 ->
  truthy (verifyToken token1) = true ->
  field hs2 "authorization" = JStr h2 -> bearer_token h2 = Some token2 ->
  truthy (verifyToken token2) = true ->
  prop (verifyToken token1) "id" = prop (verifyToken token2) "id" ->
  guarded authenticate h (set_headers hs1 req) db
  = guarded authenticate h (set_headers hs2 req) db.
Proof.
  intros Hh Hh1 Ht1 Hv1 Hh2 Ht2 Hv2 Hid. unfold guarded.
  rewrite (@authenticate_same_subject req db hs1 hs2 h1 h2 token1 token2) by assumption.
  destruct (authenticate (set_headers hs1 req) db) as [[r|q] db']; cbn; [reflexivity|].
  symmetry. apply Hh.
Qed.

(** C2: when the token verifies and its subject id resolves to an
    active stored identity, the gate passes on a request whose [user]
    is the id, e-mail and role of the stored record; the token's own
    email and role claims play no part. So two tokens with the same
    subject id lead to the same attached identity, the two requests
    passed on differ in their headers only, the owner-or-admin gate
    decides alike on them, and each of the eleven routes behind
    [authenticate] answers alike and leaves the same store. *)
Theorem attached_identity_is_stored_record (req : Request) (db : Db) (hs1 hs2 : Obj)
        (h1 h2 token1 token2 : string) (u : User) :
  field hs1 "authorization" = JStr h1 -> bearer_token h1 = Some token1 ->
  truthy (verifyToken token1) = true ->
  field hs2 "authorization" = JStr h2 -> bearer_token h2 = Some token2 ->
  truthy (verifyToken token2) = true ->
  prop (verifyToken token1) "id" = prop (verifyToken token2) "id" ->
  fst (User_findByPk (prop (verifyToken token1) "id") db) = Ok (Some u) ->
  u_active u = true ->
  exists req1 req2,
    authenticate (set_headers hs1 req) db = (Next req1, db)
    /\ authenticate (set_headers hs2 req) db = (Next req2, db)
    /\ user req1 = Some {| ru_id := u_id u; ru_email := u_email u;
                           ru_role := u_role u |}
    /\ user req2 = Some {| ru_id := u_id u; ru_email := u_email u;
                           ru_role := u_role u |}
    /\ headers req1 = hs1 /\ headers req2 = hs2
    /\ query req1 = query req /\ query req2 = query req
    /\ params req1 = params req /\ params req2 = params req
    /\ body req1 = body req /\ body req2 = body req
    /\ project req1 = project req /\ project req2 = project req
    /\ isProjectOwnerOrAdmin req2 db
       = (map_reply (set_headers hs2) (fst (isProjectOwnerOrAdmin req1 db)),
          snd (isProjectOwnerOrAdmin req1 db))
    /\ Forall (fun route : Request -> Handler HttpResponse =>
                 route (set_headers hs1 req) db = route (set_headers hs2 req) db)
              protected_routes.
Proof.
  intros Hh1 Ht1 Hv1 Hh2 Ht2 Hv2 Hid Hfound Hactive.
  apply User_findByPk_outcome in Hfound.
  exists (set_user (identity_of u) (set_headers hs1 req)),
         (set_user (identity_of u) (set_headers hs2 req)).
  split.
  { rewrite (authenticate_reaches_lookup (set_headers hs1 req) db Hh1 Ht1 Hv1).
    now rewrite Hfound, Hactive. }
  split.
  { rewrite (authenticate_reaches_lookup (set_headers hs2 req) db Hh2 Ht2 Hv2).
    now rewrite <- Hid, Hfound, Hactive. }
  do 12 (split; [reflexivity|]).
  split; [apply (isProjectOwnerOrAdmin_headers hs2
                   (set_user (identity_of u) (set_headers hs1 req)) db)|].
  unfold protected_routes.
  repeat (apply Forall_cons;
          [apply (@guarded_authenticate_same_subject _ req db hs1 hs2 h1 h2
                    token1 token2);
           try assumption;
           auto using getProjects_ignores_headers, getProjectTasks_ignores_headers,
                      createTask_ignores_headers, guarded_gate_ignores_headers,
                      deleteProject_ignores_headers, getProfile_ignores_headers,
                      createProject_ignores_headers, getProjectById_ignores_headers,
                      updateProject_ignores_headers, getTaskById_ignores_headers,
                      updateTask_ignores_headers, deleteTask_ignores_headers|]).
  apply Forall_nil.
Qed.

End Gates.
End GateFacts.

(** ** The resource handlers *)

Module HandlerFacts.
Import GateFacts.

Section Handlers.
Context `{Collaborators}.

Lemma status_formatResponse (t : string) (statusCode : Z) (d m f : JsVal) :
  status (formatResponse t statusCode d m f) = statusCode.
Proof. unfold formatResponse. destruct (is_str "xml" _); reflexivity. Qed.

Lemma status_res_formatResponse (req : Request) (statusCode : Z) (d m : JsVal) :
  status (res_formatResponse req statusCode d m) = statusCode.
Proof. apply status_formatResponse. Qed.

(** *** Answers that carry model instances *)

Lemma res_formatInstance_json (req : Request) (statusCode : Z) (included : bool)
      (json message : JsVal) :
  is_str "xml" (format_of req) = false ->
  res_formatInstance req statusCode included json message
  = ret (res_formatResponse req statusCode json message).
Proof. unfold res_formatInstance. now intros ->. Qed.

Lemma res_formatInstances_json (req : Request) (statusCode : Z) (rows : list JsVal)
      (message : JsVal) :
  is_str "xml" (format_of req) = false ->
  res_formatInstances req statusCode rows message
  = ret (res_formatResponse req statusCode (JArr rows) message).
Proof. unfold res_formatInstances. intros ->. now destruct rows. Qed.

Lemma res_formatInstance_keeps_store (req : Request) (statusCode : Z) (included : bool)
      (json message : JsVal) (db : Db) :
  snd (res_formatInstance req statusCode included json message db) = db.
Proof.
  unfold res_formatInstance.
  destruct (is_str "xml" (format_of req)); [destruct included|]; reflexivity.
Qed.

Lemma res_formatInstances_keeps_store (req : Request) (statusCode : Z)
      (rows : list JsVal) (message : JsVal) (db : Db) :
  snd (res_formatInstances req statusCode rows message db) = db.
Proof.
  unfold res_formatInstances.
  destruct rows; [|destruct (is_str "xml" (format_of req))]; reflexivity.
Qed.

(** Such an answer is sent with the status asked for, or [generateXML]
    overflows the stack. *)
Lemma res_formatInstance_outcome (req : Request) (statusCode : Z) (included : bool)
      (json message : JsVal) (db : Db) :
  (exists r, res_formatInstance req statusCode included json message db = (Ok r, db)
             /\ status r = statusCode
             /\ (is_str "xml" (format_of req) = false ->
                 r = res_formatResponse req statusCode json message))
  \/ (res_formatInstance req statusCode included json message db = (Throw RangeError, db)
      /\ is_str "xml" (format_of req) = true /\ included = true).
Proof.
  unfold res_formatInstance.
  destruct (is_str "xml" (format_of req)) eqn:Hx; [destruct included|].
  - right. auto.
  - left. eexists. split; [reflexivity|]. split; [reflexivity|discriminate].
  - left. eexists. split; [reflexivity|].
    split; [apply status_res_formatResponse|reflexivity].
Qed.

(** The data that a JSON answer carries. *)
Lemma json_data_res_formatResponse (req : Request) (statusCode : Z) (d m : JsVal) :
  is_str "xml" (format_of req) = false ->
  json_data (res_formatResponse req statusCode d m) = or_else d JNull.
Proof.
  intros Hjson. unfold res_formatResponse, formatResponse, json_data.
  destruct (format_of req); cbn in Hjson |- *; try reflexivity.
  now rewrite Hjson.
Qed.

(** An instance built without [include] is always sent. *)
Lemma res_formatInstance_own (req : Request) (statusCode : Z)
      (json message : JsVal) (db : Db) :
  exists r, res_formatInstance req statusCode false json message db = (Ok r, db)
            /\ status r = statusCode
            /\ (is_str "xml" (format_of req) = false ->
                r = res_formatResponse req statusCode json message).
Proof.
  destruct (res_formatInstance_outcome req statusCode false json message db)
    as [Hsent|(_ & _ & Hincluded)]; [exact Hsent|discriminate Hincluded].
Qed.

Lemma res_formatInstances_outcome (req : Request) (statusCode : Z)
      (rows : list JsVal) (message : JsVal) (db : Db) :
  (res_formatInstances req statusCode rows message db
   = (Ok (res_formatResponse req statusCode (JArr rows) message), db))
  \/ (res_formatInstances req statusCode rows message db = (Throw RangeError, db)
      /\ is_str "xml" (format_of req) = true /\ rows <> []).
Proof.
  unfold res_formatInstances. destruct rows as [|row rows]; [now left|].
  destruct (is_str "xml" (format_of req)); [right|left]; [|reflexivity].
  split; [reflexivity|]. split; [reflexivity|discriminate].
Qed.

Lemma Project_findByPk_keeps_store (param : JsVal) (db : Db) :
  snd (Project_findByPk param db) = db.
Proof. apply findByPk_keeps_store. Qed.

Lemma User_findByPk_keeps_store (param : JsVal) (db : Db) :
  snd (User_findByPk param db) = db.
Proof. apply findByPk_keeps_store. Qed.

(** *** Deleting a project *)

(** The association is declared with [onDelete: 'CASCADE'], so deleting
    the row takes the rows of [tasks] that reference it along. *)
Lemma Project_destroy_cascades (p : Project) (db db' : Db) :
  Project_destroy p db = (Ok tt, db') ->
  projects db' = filter (fun q => negb (p_id q =? p_id p)) (projects db)
  /\ tasks db' = filter (fun t => negb (t_projectId t =? p_id p)) (tasks db)
  /\ users db' = users db.
Proof.
  unfold Project_destroy. destruct (online db); cbn; [|discriminate].
  intros [= <-]. auto.
Qed.

(** C4: after a delete-project operation that succeeds (it answers
    200), the project found for the request's id is gone and no task
    whose projectId is that project's id remains; the other projects
    and tasks are as they were, so a store without orphan tasks stays
    without them. *)
Theorem deleteProject_cascades (req : Request) (db db' : Db) (r : HttpResponse) :
  deleteProject req db = (r, db') ->
  status r = 200 ->
  exists p,
    fst (Project_findByPk (field (params req) "id") db) = Ok (Some p)
    /\ (forall t, In t (tasks db') -> t_projectId t <> p_id p)
    /\ (forall q, In q (projects db') -> p_id q <> p_id p)
    /\ (forall t, In t (tasks db) -> t_projectId t <> p_id p -> In t (tasks db'))
    /\ (forall q, In q (projects db) -> p_id q <> p_id p -> In q (projects db'))
    /\ (no_orphans db -> no_orphans db').
Proof.
  unfold deleteProject, catching, deleteProject_try, bind.
  pose proof (Project_findByPk_keeps_store (field (params req) "id") db) as Hkeep.
  destruct (Project_findByPk (field (params req) "id") db) as [[[p|]|e] db1];
    cbn in Hkeep; subst db1; cbn [fst].
  2, 3: intros [= <- <-]; rewrite status_res_formatResponse; discriminate.
  destruct (user req) as [u|];
    [|intros [= <- <-]; rewrite status_res_formatResponse; discriminate].
  destruct (neither_owner_nor_admin p u);
    [intros [= <- <-]; rewrite status_res_formatResponse; discriminate|].
  destruct (Project_destroy p db) as [[[]|e] db2] eqn:Hdestroy;
    [|intros [= <- <-]; rewrite status_res_formatResponse; discriminate].
  intros [= <- <-] _.
  destruct (Project_destroy_cascades _ _ Hdestroy) as (Hps & Hts & _).
  exists p. split; [reflexivity|].
  assert (Htask : forall t, In t (tasks db2)
                            <-> In t (tasks db) /\ t_projectId t <> p_id p).
  { intros t. rewrite Hts, filter_In, negb_true_iff, Z.eqb_neq. tauto. }
  assert (Hproj : forall q, In q (projects db2)
                            <-> In q (projects db) /\ p_id q <> p_id p).
  { intros q. rewrite Hps, filter_In, negb_true_iff, Z.eqb_neq. tauto. }
  repeat split.
  - intros t Ht. now apply Htask.
  - intros q Hq. now apply Hproj.
  - intros t Ht Hne. now apply Htask.
  - intros q Hq Hne. now apply Hproj.
  - intros Hno t Ht. apply Htask in Ht. destruct Ht as [Ht Hne].
    destruct (Hno t Ht) as (q & Hq & Hid). exists q. split; [|assumption].
    apply Hproj. split; [assumption|congruence].
Qed.

(** *** Listing projects *)

(** An administrator's listing builds the condition
    [createdBy: undefined]; the query generator throws on it, and the
    handler's [catch] answers 500 whatever the store holds. *)
Lemma getProjects_admin_rejected (req : Request) (db : Db) (caller : ReqUser) :
  user req = Some caller -> ru_role caller = "admin" ->
  getProjects req db
  = (res_formatResponse req 500 JNull (JStr "Error al obtener proyectos"), db).
Proof.
  intros Hu Hrole. unfold getProjects, catching, getProjects_try.
  rewrite Hu, Hrole. cbn [String.eqb Ascii.eqb Bool.eqb].
  unfold bind, select.
  destruct (truthy (field (query req) "status")
            && includes ["active"; "completed"; "canceled"] (field (query req) "status"));
    destruct (truthy (field (query req) "search")); reflexivity.
Qed.

Lemma In_insert_by {R : Type} (cmp : R -> R -> comparison) (x y : R) (l : list R) :
  In y (insert_by cmp x l) <-> y = x \/ In y l.
Proof.
  induction l as [|z l IH]; cbn; [intuition|].
  destruct (cmp x z); cbn; rewrite ?IH; intuition.
Qed.

Lemma In_sort_by {R : Type} (cmp : R -> R -> comparison) (y : R) (l : list R) :
  In y (sort_by cmp l) <-> In y l.
Proof.
  induction l as [|x l IH]; [reflexivity|].
  unfold sort_by in *. cbn. rewrite In_insert_by, IH. intuition.
Qed.

(** The listing, asked for in JSON, of a caller who is not an
    administrator: 200, and the rows are the stored projects that the
    caller created, that have the status asked for when it is one of
    the three labels, and whose name the engine's LIKE matches against
    [%search%] when a search term is given. *)
Lemma getProjects_own_projects (req : Request) (db : Db) (caller : ReqUser) :
  is_str "xml" (format_of req) = false ->
  user req = Some caller -> ru_role caller <> "admin" -> online db = true ->
  to_integer (JNum (ru_id caller)) = Some (ru_id caller) ->
  let status := field (query req) "status" in
  let search := field (query req) "search" in
  exists rows,
    getProjects req db
    = (res_formatResponse req 200 (JArr (map (Project_with_includes db) rows))
                          (JStr "Proyectos obtenidos correctamente"), db)
    /\ forall p, In p rows <->
                 In p (projects db)
                 /\ p_createdBy p = ru_id caller
                 /\ (truthy status && includes ["active"; "completed"; "canceled"] status
                     = true -> status = JStr (p_status p))
                 /\ (truthy search = true ->
                     sql_like ("%" ++ toString search ++ "%") (p_name p) = true).
Proof.
  intros Hjson Hu Hrole Hon Hint status search. subst status search.
  apply String.eqb_neq in Hrole.
  unfold getProjects, catching, getProjects_try. rewrite Hu, Hrole.
  unfold bind, select.
  destruct (truthy (field (query req) "status")
            && includes ["active"; "completed"; "canceled"] (field (query req) "status"))
    eqn:Hst;
    destruct (truthy (field (query req) "search")) eqn:Hse;
    cbn [app whereItemsQuery whereItemQuery snd].
  all: try (apply andb_prop in Hst; destruct Hst as [Hst1 Hst2];
            destruct (field (query req) "status") as [| | | | |st| |];
            try discriminate Hst2; cbn [whereItemsQuery whereItemQuery snd]).
  all: rewrite Hon; cbn [snapshot];
    rewrite (res_formatInstances_json req 200 _ _ Hjson); unfold ret;
    eexists; (split; [reflexivity|]).
  all: intros p; rewrite In_sort_by, filter_In; unfold row_matches;
    cbn [forallb fst snd field Project_values String.eqb Ascii.eqb Bool.eqb col_holds
         sql_equals number_stringify nullish is_str];
    rewrite Hint, ?andb_true_r, ?andb_true_iff, Z.eqb_eq, ?String.eqb_eq.
  - split.
    + intros (Hin & Hc & Hs & Hl). subst st. repeat split; auto.
    + intros (Hin & Hc & Hs & Hl). repeat split; auto.
      specialize (Hs eq_refl). congruence.
  - split.
    + intros (Hin & Hc & Hs). subst st. repeat split; auto. discriminate.
    + intros (Hin & Hc & Hs & _). repeat split; auto.
      specialize (Hs eq_refl). congruence.
  - split.
    + intros (Hin & Hc & Hl). repeat split; auto. discriminate.
    + intros (Hin & Hc & _ & Hl). repeat split; auto.
  - split.
    + intros (Hin & Hc). repeat split; auto; discriminate.
    + intros (Hin & Hc & _). split; auto.
Qed.

(** *** Listing the tasks of a project *)

Lemma string_compare_refl (s : string) : String.compare s s = Eq.
Proof.
  pose proof (String.compare_antisym s s) as E.
  destruct (String.compare s s); [reflexivity|discriminate E|discriminate E].
Qed.

Lemma sql_compare_antisym (a b : JsVal) :
  sql_compare b a = CompOpp (sql_compare a b).
Proof.
  destruct a, b; cbn; try reflexivity.
  - apply Z.compare_antisym.
  - apply String.compare_antisym.
Qed.

Lemma order_compare_antisym (order : list (string * Direction)) (a b : Obj) :
  order_compare order b a = CompOpp (order_compare order a b).
Proof.
  induction order as [|[column d] order IH]; [reflexivity|]. cbn.
  rewrite (sql_compare_antisym (field a column) (field b column)), IH.
  destruct d, (sql_compare (field a column) (field b column)); reflexivity.
Qed.

Lemma insert_by_sorted {R : Type} (cmp : R -> R -> comparison) (x : R) (l : list R) :
  (forall a b, cmp b a = CompOpp (cmp a b)) ->
  Sorted (fun a b => cmp a b <> Gt) l ->
  Sorted (fun a b => cmp a b <> Gt) (insert_by cmp x l).
Proof.
  intros Hanti Hs. induction Hs as [|y l Hs IH Hhd]; cbn.
  - repeat constructor.
  - destruct (cmp x y) eqn:Hxy.
    + repeat constructor; [assumption..|congruence].
    + repeat constructor; [assumption..|congruence].
    + constructor; [assumption|].
      destruct l as [|z l]; cbn in *.
      * constructor. rewrite Hanti, Hxy. discriminate.
      * destruct (cmp x z); constructor; try (now inversion Hhd).
        all: rewrite Hanti, Hxy; discriminate.
Qed.

Lemma sort_by_sorted {R : Type} (cmp : R -> R -> comparison) (l : list R) :
  (forall a b, cmp b a = CompOpp (cmp a b)) ->
  Sorted (fun a b => cmp a b <> Gt) (sort_by cmp l).
Proof.
  intros Hanti. induction l as [|x l IH]; [constructor|].
  unfold sort_by in *. cbn. now apply insert_by_sorted.
Qed.

(** It is the order of the priority labels as text, greatest first,
    and among rows with one label that of the creation times, latest
    first. *)
Lemma listed_before_spec (a b : Task) :
  listed_before a b <->
  String.compare (t_priority a) (t_priority b) = Gt
  \/ (t_priority a = t_priority b
      /\ String.compare (t_createdAt a) (t_createdAt b) <> Lt).
Proof.
  unfold listed_before. cbn.
  destruct (String.compare (t_priority a) (t_priority b)) eqn:Hp; cbn.
  - apply String.compare_eq_iff in Hp.
    destruct (String.compare (t_createdAt a) (t_createdAt b)); cbn.
    + split; [intros _; right; split; [assumption|discriminate]|discriminate].
    + split; [intros Hx; now contradiction Hx|].
      intros [Hx|[_ Hx]]; [discriminate Hx|now contradiction Hx].
    + split; [intros _; right; split; [assumption|discriminate]|discriminate].
  - split; [intros Hx; now contradiction Hx|].
    intros [Hx|[Hx _]]; [discriminate Hx|].
    rewrite Hx, string_compare_refl in Hp. discriminate Hp.
  - split; [now left|discriminate].
Qed.

(** The listing of a project's tasks, asked for in JSON by its owner or
    an administrator with no filter given: 200, the rows are the stored
    tasks of the project, in the order above. *)
Lemma getProjectTasks_listing (req : Request) (db : Db) (caller : ReqUser) (p : Project) :
  is_str "xml" (format_of req) = false ->
  user req = Some caller ->
  fst (Project_findByPk (field (params req) "projectId") db) = Ok (Some p) ->
  p_createdBy p = ru_id caller \/ ru_role caller = "admin" ->
  truthy (field (query req) "status") = false ->
  truthy (field (query req) "priority") = false ->
  truthy (field (query req) "assignedTo") = false ->
  exists rows,
    getProjectTasks req db
    = (res_formatResponse req 200 (JArr (map (Task_with_assignee db) rows))
                          (JStr "Tareas obtenidas correctamente"), db)
    /\ Sorted listed_before rows
    /\ forall t, In t rows <->
                 In t (tasks db)
                 /\ key_is (field (params req) "projectId") (t_projectId t) = true.
Proof.
  intros Hjson Hu Hfound Hown Hst Hpr Has.
  assert (Hkey : is_key (field (params req) "projectId") = true
                 /\ online db = true).
  { unfold Project_findByPk, findByPk, findOne, bind, select in Hfound.
    destruct (field (params req) "projectId"); try discriminate Hfound;
      cbn in Hfound; destruct (online db); try discriminate Hfound; auto. }
  destruct Hkey as [Hkey Hon].
  apply Project_findByPk_outcome in Hfound.
  assert (Hoa : neither_owner_nor_admin p caller = false).
  { unfold neither_owner_nor_admin. destruct Hown as [E|E]; rewrite E.
    - now rewrite Z.eqb_refl.
    - now rewrite String.eqb_refl, andb_false_r. }
  unfold getProjectTasks, catching, getProjectTasks_try, bind.
  rewrite Hfound, Hu, Hoa, Hst, Hpr, Has. cbn [andb].
  unfold select.
  replace (whereItemsQuery [("projectId", CEq (field (params req) "projectId"))])
    with (Ok tt)
    by (destruct (field (params req) "projectId"); try discriminate Hkey; reflexivity).
  rewrite Hon. cbn [snapshot].
  rewrite (res_formatInstances_json req 200 _ _ Hjson). unfold ret.
  eexists. split; [reflexivity|]. split.
  - apply (sort_by_sorted
             (fun a b => order_compare [("priority", DESC); ("createdAt", DESC)]
                                       (Task_values a) (Task_values b))).
    intros a b. apply order_compare_antisym.
  - intros t. rewrite In_sort_by, filter_In. unfold row_matches.
    cbn [forallb fst snd field Task_values String.eqb Ascii.eqb Bool.eqb].
    now rewrite andb_true_r, col_holds_key.
Qed.

(** *** Creating a task *)

Lemma find_none_iff {R : Type} (f : R -> bool) (l : list R) :
  (forall x, In x l -> f x = false) -> find f l = None.
Proof.
  induction l as [|x l IH]; intros Hall; [reflexivity|]. cbn.
  rewrite (Hall x (or_introl eq_refl)). apply IH. intros y Hy. apply Hall. now right.
Qed.

Lemma existsb_none {R : Type} (f : R -> bool) (l : list R) :
  (forall x, In x l -> f x = false) -> existsb f l = false.
Proof.
  induction l as [|x l IH]; intros Hall; [reflexivity|]. cbn.
  rewrite (Hall x (or_introl eq_refl)). apply IH. intros y Hy. apply Hall. now right.
Qed.

(** A key for which the lookup finds no identity is the key of no row
    of [users]. *)
Lemma User_findByPk_none (v : JsVal) (db : Db) :
  nullish v = false -> fst (User_findByPk v db) = Ok None ->
  forall u, In u (users db) -> key_is v (u_id u) = false.
Proof.
  intros Hset Hnone.
  assert (Hkey : is_key v = true /\ online db = true).
  { unfold User_findByPk, findByPk, findOne, bind, select in Hnone.
    destruct v; try discriminate Hset; try discriminate Hnone;
      cbn in Hnone; destruct (online db); try discriminate Hnone; auto. }
  destruct Hkey as [Hkey Hon].
  rewrite User_findByPk_by_key in Hnone by assumption. cbn in Hnone.
  injection Hnone as Hfind. intros u Hu.
  destruct (key_is v (u_id u)) eqn:Hk; [|reflexivity].
  exfalso. apply (find_none _ _ Hfind) in Hu. congruence.
Qed.

(** So the INSERT of a row that refers to it breaks the foreign key. *)
Lemma foreign_key_absent (v : JsVal) (db : Db) :
  nullish v = false ->
  (forall u, In u (users db) -> key_is v (u_id u) = false) ->
  foreign_key (fun k => existsb (fun u => u_id u =? k) (users db)) v
  = Throw ForeignKeyConstraintError.
Proof.
  intros Hset Hnone. unfold foreign_key. rewrite Hset.
  destruct (to_integer v) as [k|] eqn:Hk; [|reflexivity].
  replace (existsb (fun u => u_id u =? k) (users db)) with false; [reflexivity|].
  symmetry. apply existsb_none. intros u Hu. specialize (Hnone u Hu).
  unfold key_is in Hnone. now rewrite Hk in Hnone.
Qed.

(** C8 (amended): when the body's [assignedTo] is set (it is neither
    absent nor [null]) to an id for which the store has no identity,
    no task is persisted and the store is as it was, whatever the
    answer is; and the answer is 404 "Usuario asignado no encontrado"
    when that id is truthy, the request has a title, names a stored
    project and its caller created that project or is an
    administrator. *)
Theorem createTask_unknown_assignee (req : Request) (db : Db) :
  fst (User_findByPk (field (body req) "assignedTo") db) = Ok None ->
  (nullish (field (body req) "assignedTo") = false -> snd (createTask req db) = db)
  /\ (forall p caller,
      truthy (field (body req) "assignedTo") = true ->
      truthy (field (body req) "title") = true ->
      fst (Project_findByPk (field (params req) "projectId") db) = Ok (Some p) ->
      user req = Some caller ->
      p_createdBy p = ru_id caller \/ ru_role caller = "admin" ->
      createTask req db
      = (res_formatResponse req 404 JNull (JStr "Usuario asignado no encontrado"), db)).
Proof.
  intros Hnone. split.
  - intros Hset.
    pose proof (foreign_key_absent _ db Hset (User_findByPk_none _ db Hset Hnone))
      as Hfk.
    apply User_findByPk_outcome in Hnone.
    pose proof (Project_findByPk_keeps_store (field (params req) "projectId") db)
      as Hkeep.
    unfold createTask, catching, createTask_try, bind.
    destruct (truthy (field (body req) "title")); cbn [negb]; [|reflexivity].
    destruct (Project_findByPk (field (params req) "projectId") db)
      as [[[p|]|e] db1]; cbn in Hkeep; subst db1; try reflexivity.
    destruct (user req) as [u|]; [|reflexivity].
    destruct (neither_owner_nor_admin p u); [reflexivity|].
    destruct (truthy (field (body req) "assignedTo")).
    + rewrite Hnone. reflexivity.
    + cbn [ret]. unfold Task_create.
      destruct (_ ++ _)%list as [|m ms]; [|reflexivity].
      destruct (online db); cbn [negb]; [|reflexivity].
      destruct (foreign_key _ (field (params req) "projectId")) as [[pid|]|e];
        try reflexivity.
      rewrite Hfk. reflexivity.
  - intros p caller Hset Htitle Hfound Hu Hown.
    apply User_findByPk_outcome in Hnone.
    apply Project_findByPk_outcome in Hfound.
    assert (Hoa : neither_owner_nor_admin p caller = false).
    { unfold neither_owner_nor_admin. destruct Hown as [E|E]; rewrite E.
      - now rewrite Z.eqb_refl.
      - now rewrite String.eqb_refl, andb_false_r. }
    unfold createTask, catching, createTask_try, bind.
    rewrite Htitle. cbn [negb]. rewrite Hfound, Hu, Hoa, Hset, Hnone. reflexivity.
Qed.

(** *** Registration *)

Lemma is_str_true (lit : string) (v : JsVal) :
  is_str lit v = true <-> v = JStr lit.
Proof.
  destruct v; cbn; try (split; [discriminate|congruence]).
  rewrite String.eqb_eq. split; congruence.
Qed.

Lemma status_validation_or_500 (req : Request) (names : list string)
      (fallback : string) (e : JsError) :
  status (validation_or_500 req names fallback e) <> 201.
Proof.
  unfold validation_or_500. destruct (existsb _ names);
    rewrite status_res_formatResponse; discriminate.
Qed.

Lemma User_findOne_keeps_store (w : Where) (db : Db) :
  snd (User_findOne w db) = db.
Proof. apply findOne_keeps_store. Qed.

(** No stored identity has the e-mail: the duplicate check finds
    nothing. *)
Lemma User_findOne_email_free (e : string) (db : Db) :
  online db = true -> (forall u, In u (users db) -> u_email u <> e) ->
  User_findOne [("email", CEq (JStr e))] db = (Ok None, db).
Proof.
  intros Hon Hfree. unfold User_findOne, findOne, bind, select. cbn. rewrite Hon.
  rewrite sort_by_unordered, hd_error_filter, find_none_iff; [reflexivity|].
  intros u Hu. unfold row_matches. cbn. rewrite andb_true_r.
  apply String.eqb_neq. intros E. now apply (Hfree u Hu).
Qed.

(** C9: registration stands behind no gate, and the identity it
    persists has the role "admin" exactly when the body's [role] field
    is the string "admin" and the role "user" for any other value or
    none. A registration that does not answer 201 persists nothing. So
    a client with no credentials at all, sending a well-formed name,
    an unused e-mail, a password the pattern accepts and role "admin",
    gets an administrator's identity stored. *)
Theorem register_persists_requested_role (req : Request) (db : Db) :
  POST_registro req db = register req db
  /\ (forall r db', register req db = (r, db') ->
      (db' = db /\ status r <> 201)
      \/ (exists u, status r = 201
                    /\ users db' = (users db ++ [u])%list
                    /\ projects db' = projects db /\ tasks db' = tasks db
                    /\ (u_role u = "admin" <-> field (body req) "role" = JStr "admin")
                    /\ (field (body req) "role" <> JStr "admin" -> u_role u = "user")))
  /\ (forall n e pw,
      headers req = [] -> user req = None ->
      field (body req) "name" = JStr n -> field (body req) "email" = JStr e ->
      field (body req) "password" = JStr pw ->
      field (body req) "role" = JStr "admin" ->
      len_between 2 100 n = true -> isEmail e = true -> passwordRegex pw = true ->
      online db = true -> (forall u, In u (users db) -> u_email u <> e) ->
      exists r,
        status r = 201
        /\ register req db
           = (r, set_users (users db ++ [registered db n e pw "admin"])%list
                           (users_seq db + 1) db)).
Proof.
  split; [reflexivity|]. split.
  - intros r db'. unfold register, catching, register_try, bind.
    pose proof (User_findOne_keeps_store
                  [("email", CEq (field (body req) "email"))] db) as Hkeep.
    destruct (User_findOne [("email", CEq (field (body req) "email"))] db)
      as [[[existing|]|err] db1]; cbn in Hkeep; subst db1.
    + intros [= <- <-]. left. rewrite status_res_formatResponse.
      split; [reflexivity|discriminate].
    + destruct (passwordRegex (toString (field (body req) "password"))); cbn [negb].
      2:{ intros [= <- <-]. left. rewrite status_res_formatResponse.
          split; [reflexivity|discriminate]. }
      unfold User_create.
      destruct (_ ++ _)%list as [|m ms].
      2:{ intros [= <- <-]. left. split; [reflexivity|apply status_validation_or_500]. }
      destruct (online db); cbn [negb].
      2:{ intros [= <- <-]. left. split; [reflexivity|apply status_validation_or_500]. }
      destruct (existsb _ (users db)).
      { intros [= <- <-]. left. split; [reflexivity|apply status_validation_or_500]. }
      intros [= <- <-]. right. eexists. rewrite status_res_formatResponse.
      split; [reflexivity|]. split; [reflexivity|]. split; [reflexivity|].
      split; [reflexivity|]. cbn [u_role].
      destruct (is_str "admin" (field (body req) "role")) eqn:Hrole.
      * apply is_str_true in Hrole. split; [tauto|congruence].
      * split; [|reflexivity]. split; [discriminate|].
        intros E. apply is_str_true in E. congruence.
    + intros [= <- <-]. left. split; [reflexivity|apply status_validation_or_500].
  - intros n e pw _ _ Hn He Hpw Hrole Hlen Hmail Hregex Hon Hfree.
    eexists. split; [apply status_res_formatResponse with (req := req)|].
    unfold register, catching, register_try, bind.
    rewrite He, Hn, Hpw, Hrole, (@User_findOne_email_free e db Hon Hfree).
    cbn [toString]. rewrite Hregex. cbn [negb].
    unfold User_create. cbn [validate_attr flat_map snd fst toString].
    rewrite Hlen, Hmail, Hregex. cbn [app]. rewrite Hon. cbn [negb].
    rewrite (existsb_none _ (users db)).
    + reflexivity.
    + intros u Hu. apply String.eqb_neq. now apply Hfree.
Qed.

End Handlers.

(** The answer that carries an instance built without [include], named
    in the goal. *)
Ltac own_instance :=
  match goal with
  | |- context [res_formatInstance ?req ?code false ?json ?message ?db] =>
      let r := fresh "r" in
      let Hr := fresh "Hr" in
      let Hs := fresh "Hs" in
      let Hj := fresh "Hj" in
      destruct (res_formatInstance_own req code json message db) as (r & Hr & Hs & Hj);
      rewrite Hr
  end.

End HandlerFacts.

(** ** The handlers at work on the small installation *)

Module Scenarios.
Import Fixture GateFacts HandlerFacts.

#[local] Existing Instance collaborators.

(** One request for each way through the authentication gate. *)
Lemma authenticate_checks_in_order_witness :
  authenticate (request JUndefined [] []) db0
  = (answer (request JUndefined [] []) 401 "No se proporcionó token de autenticación",
     db0)
  /\ authenticate (request (JStr "Token abc") [] []) db0
     = (answer (request (JStr "Token abc") [] []) 401 "Formato de token inválido", db0)
  /\ authenticate (request (JStr "Bearer nope") [] []) db0
     = (answer (request (JStr "Bearer nope") [] []) 401 "Token inválido o expirado", db0)
  /\ authenticate (request (JStr "Bearer ghost.user") [] []) db0
     = (answer (request (JStr "Bearer ghost.user") [] []) 401
               "Usuario no encontrado o inactivo", db0)
  /\ authenticate (request (JStr "Bearer eva.user") [] []) db0
     = (answer (request (JStr "Bearer eva.user") [] []) 401
               "Usuario no encontrado o inactivo", db0)
  /\ (exists req',
        authenticate (request (JStr "Bearer luis.user") [] []) db0 = (Next req', db0)
        /\ user req' = Some {| ru_id := 2; ru_email := "luis@test.com";
                               ru_role := "user" |}
        /\ headers req' = [("authorization", JStr "Bearer luis.user")]
        /\ project req' = None)
  /\ authenticate (request (JStr "Bearer luis.user") [] []) (offline db0)
     = (answer (request (JStr "Bearer luis.user") [] []) 500 "Error en autenticación",
        offline db0)
  /\ authenticate (request (JNum 7) [] []) db0
     = (answer (request (JNum 7) [] []) 500 "Error en autenticación", db0).
Proof.
  split.
  { destruct (authenticate_checks_in_order (request JUndefined [] []) db0)
      as (C & _). exact (C eq_refl). }
  split.
  { destruct (authenticate_checks_in_order (request (JStr "Token abc") [] []) db0)
      as (_ & C & _). exact (C "Token abc" eq_refl eq_refl eq_refl). }
  split.
  { destruct (authenticate_checks_in_order (request (JStr "Bearer nope") [] []) db0)
      as (_ & _ & C & _). exact (C "Bearer nope" "nope" eq_refl eq_refl eq_refl). }
  split.
  { destruct (authenticate_checks_in_order (request (JStr "Bearer ghost.user") [] []) db0)
      as (_ & _ & _ & C & _).
    apply (C "Bearer ghost.user" "ghost.user" None); try reflexivity.
    intros u E. discriminate E. }
  split.
  { destruct (authenticate_checks_in_order (request (JStr "Bearer eva.user") [] []) db0)
      as (_ & _ & _ & C & _).
    apply (C "Bearer eva.user" "eva.user" (Some eva)); try reflexivity.
    intros u E. injection E as <-. reflexivity. }
  split.
  { destruct (authenticate_checks_in_order (request (JStr "Bearer luis.user") [] []) db0)
      as (_ & _ & _ & _ & C & _).
    destruct (C "Bearer luis.user" "luis.user" luis eq_refl eq_refl eq_refl eq_refl
                eq_refl)
      as (req' & Hrun & Huser & _ & Hheaders & _ & _ & Hproject).
    exists req'. split; [exact Hrun|]. split; [exact Huser|].
    split; [exact Hheaders|exact Hproject]. }
  split.
  { destruct (authenticate_checks_in_order (request (JStr "Bearer luis.user") [] [])
                (offline db0))
      as (_ & _ & _ & _ & _ & C & _).
    exact (C "Bearer luis.user" "luis.user" ConnectionError
             eq_refl eq_refl eq_refl eq_refl). }
  destruct (authenticate_checks_in_order (request (JNum 7) [] []) db0)
    as (_ & _ & _ & _ & _ & _ & C).
  apply C; [reflexivity|]. intros h E. discriminate E.
Defined.

(** C1, as the claim words it: the four refusals would carry the texts
    "no token provided", "invalid token format", "invalid or expired
    token" and "user not found or inactive". The gate answers in
    Spanish, so none of them is what it sends. *)
Lemma authenticate_answers_are_not_the_claimed :
  authenticate (request JUndefined [] []) db0
  <> (answer (request JUndefined [] []) 401 "no token provided", db0)
  /\ authenticate (request (JStr "Token abc") [] []) db0
     <> (answer (request (JStr "Token abc") [] []) 401 "invalid token format", db0)
  /\ authenticate (request (JStr "Bearer nope") [] []) db0
     <> (answer (request (JStr "Bearer nope") [] []) 401 "invalid or expired token", db0)
  /\ authenticate (request (JStr "Bearer ghost.user") [] []) db0
     <> (answer (request (JStr "Bearer ghost.user") [] []) 401
                "user not found or inactive", db0).
Proof.
  split; [|split; [|split]]; intros E; vm_compute in E; discriminate E.
Qed.

(** An empty header value is a header all the same, and is answered as
    a missing one. *)
Example authenticate_empty_header :
  authenticate (request (JStr "") [] []) db0
  = (answer (request (JStr "") [] []) 401 "No se proporcionó token de autenticación",
     db0).
Proof. reflexivity. Qed.

(** Ana's token from before her e-mail and role changed, and her
    current one: both attach the stored record. *)
Lemma attached_identity_is_stored_record_witness :
  let req := request JUndefined [("id", JStr "10")] [] in
  prop (verifyToken "ana.stale") "role" = JStr "user"
  /\ exists req1 req2,
       authenticate (set_headers (bearer "ana.admin") req) db0 = (Next req1, db0)
       /\ authenticate (set_headers (bearer "ana.stale") req) db0 = (Next req2, db0)
       /\ user req1 = Some {| ru_id := 1; ru_email := "ana@test.com";
                              ru_role := "admin" |}
       /\ user req2 = Some {| ru_id := 1; ru_email := "ana@test.com";
                              ru_role := "admin" |}
       /\ DELETE_proyectos_id (set_headers (bearer "ana.admin") req) db0
          = DELETE_proyectos_id (set_headers (bearer "ana.stale") req) db0
       /\ GET_perfil (set_headers (bearer "ana.admin") req) db0
          = GET_perfil (set_headers (bearer "ana.stale") req) db0.
Proof.
  intros req. split; [reflexivity|].
  destruct (@attached_identity_is_stored_record collaborators req db0
              (bearer "ana.admin") (bearer "ana.stale")
              "Bearer ana.admin" "Bearer ana.stale" "ana.admin" "ana.stale" ana
              eq_refl eq_refl eq_refl eq_refl eq_refl eq_refl eq_refl eq_refl eq_refl)
    as (req1 & req2 & A1 & A2 & U1 & U2 & _ & _ & _ & _ & _ & _ & _ & _ & _ & _ & _
        & Routes).
  exists req1, req2.
  split; [exact A1|]. split; [exact A2|]. split; [exact U1|]. split; [exact U2|].
  split.
  - apply (proj1 (Forall_forall _ _) Routes DELETE_proyectos_id).
    unfold protected_routes. do 5 right. left. reflexivity.
  - apply (proj1 (Forall_forall _ _) Routes GET_perfil).
    unfold protected_routes. left. reflexivity.
Defined.

(** One request for each way through the owner-or-admin gate. *)
Lemma isProjectOwnerOrAdmin_decides_witness :
  isProjectOwnerOrAdmin (as_user luis (request JUndefined [] [])) db0
  = (answer (as_user luis (request JUndefined [] [])) 400
            "ID de proyecto no proporcionado", db0)
  /\ isProjectOwnerOrAdmin (as_user luis (request JUndefined [("id", JStr "99")] [])) db0
     = (answer (as_user luis (request JUndefined [("id", JStr "99")] [])) 404
               "Proyecto no encontrado", db0)
  /\ (exists req',
        isProjectOwnerOrAdmin (as_user luis (request JUndefined [("id", JStr "10")] []))
                              db0
        = (Next req', db0)
        /\ project req' = Some web
        /\ params req' = [("id", JStr "10")])
  /\ (exists req',
        isProjectOwnerOrAdmin (as_user ana (request JUndefined [] [("projectId", JNum 10)]))
                              db0
        = (Next req', db0)
        /\ project req' = Some web
        /\ user req' = Some {| ru_id := 1; ru_email := "ana@test.com";
                               ru_role := "admin" |})
  /\ isProjectOwnerOrAdmin (as_user luis (request JUndefined [("id", JStr "11")] [])) db0
     = (answer (as_user luis (request JUndefined [("id", JStr "11")] [])) 403
               "No tiene permiso para modificar este proyecto", db0)
  /\ isProjectOwnerOrAdmin (as_user luis (request JUndefined [("id", JStr "10")] []))
                           (offline db0)
     = (answer (as_user luis (request JUndefined [("id", JStr "10")] [])) 500
               "Error al verificar permisos", offline db0).
Proof.
  split.
  { destruct (@isProjectOwnerOrAdmin_decides collaborators
                (as_user luis (request JUndefined [] [])) db0 _ eq_refl) as (C & _).
    exact (C eq_refl). }
  split.
  { destruct (@isProjectOwnerOrAdmin_decides collaborators
                (as_user luis (request JUndefined [("id", JStr "99")] [])) db0 _ eq_refl)
      as (_ & C & _).
    exact (C eq_refl eq_refl). }
  split.
  { destruct (@isProjectOwnerOrAdmin_decides collaborators
                (as_user luis (request JUndefined [("id", JStr "10")] [])) db0 _ eq_refl)
      as (_ & _ & C & _).
    destruct (C web eq_refl eq_refl (or_introl eq_refl))
      as (req' & Hrun & Hproject & _ & _ & _ & Hparams & _).
    exists req'. split; [exact Hrun|]. split; [exact Hproject|exact Hparams]. }
  split.
  { destruct (@isProjectOwnerOrAdmin_decides collaborators
                (as_user ana (request JUndefined [] [("projectId", JNum 10)])) db0 _
                eq_refl)
      as (_ & _ & C & _).
    destruct (C web eq_refl eq_refl (or_intror eq_refl))
      as (req' & Hrun & Hproject & Huser & _).
    exists req'. split; [exact Hrun|]. split; [exact Hproject|exact Huser]. }
  split.
  { destruct (@isProjectOwnerOrAdmin_decides collaborators
                (as_user luis (request JUndefined [("id", JStr "11")] [])) db0 _ eq_refl)
      as (_ & _ & _ & C & _).
    apply (C api); try reflexivity; cbn; discriminate. }
  destruct (@isProjectOwnerOrAdmin_decides collaborators
              (as_user luis (request JUndefined [("id", JStr "10")] []))
              (offline db0) _ eq_refl)
    as (_ & _ & _ & _ & C).
  exact (C ConnectionError eq_refl eq_refl).
Defined.

(** C3, as the claim words it: the first two refusals would carry the
    texts "project id not provided" and "project not found". The gate
    answers in Spanish, so neither is what it sends. *)
Lemma isProjectOwnerOrAdmin_answers_are_not_the_claimed :
  isProjectOwnerOrAdmin (as_user luis (request JUndefined [] [])) db0
  <> (answer (as_user luis (request JUndefined [] [])) 400 "project id not provided", db0)
  /\ isProjectOwnerOrAdmin (as_user luis (request JUndefined [("id", JStr "99")] [])) db0
     <> (answer (as_user luis (request JUndefined [("id", JStr "99")] [])) 404
                "project not found", db0).
Proof.
  split; intros E; vm_compute in E; discriminate E.
Qed.

(** Luis deletes his project 10: its three tasks go with it, the task
    of project 11 stays. *)
Lemma deleteProject_cascades_witness :
  let req := as_user luis (request JUndefined [("id", JStr "10")] []) in
  status (fst (deleteProject req db0)) = 200
  /\ (forall t, In t (tasks (snd (deleteProject req db0))) -> t_projectId t <> 10)
  /\ In (task 103 "Deploy" "high" 11 "2025-03-04 00:00:00.000 +00:00")
        (tasks (snd (deleteProject req db0))).
Proof.
  intros req.
  destruct (@deleteProject_cascades collaborators req db0
              (snd (deleteProject req db0)) (fst (deleteProject req db0))
              (surjective_pairing _) eq_refl)
    as (p & Hfound & Hgone & _ & Hkept & _).
  assert (Hp : p = web) by (injection Hfound as <-; reflexivity).
  subst p. split; [reflexivity|]. split; [exact Hgone|].
  apply Hkept; [cbn; tauto|cbn; discriminate].
Defined.

(** C5, at an administrator's request: Ana is an administrator and two
    projects are stored, yet her listing is answered 500 "Error al
    obtener proyectos" and lists nothing. *)
Theorem getProjects_admin_gets_500 :
  ru_role (identity_of ana) = "admin"
  /\ length (projects db0) = 2%nat
  /\ GET_proyectos (request (JStr "Bearer ana.admin") [] []) db0
     = (formatResponse now 500 JNull (JStr "Error al obtener proyectos") (JStr "json"),
        db0).
Proof. repeat split. Qed.

(** The same request by Luis, who is not an administrator, lists the
    project he created. *)
Example getProjects_owner_gets_own :
  exists listing,
    GET_proyectos (request (JStr "Bearer luis.user") [] []) db0
    = (formatResponse now 200 (JArr [listing])
                      (JStr "Proyectos obtenidos correctamente") (JStr "json"), db0)
    /\ prop listing "id" = JNum 10.
Proof. eexists. split; reflexivity. Qed.

(** The labels of the priority column order as text does. *)
Lemma priority_labels_as_text :
  sql_compare (JStr "medium") (JStr "low") = Gt
  /\ sql_compare (JStr "low") (JStr "high") = Gt
  /\ sql_compare (JStr "medium") (JStr "high") = Gt.
Proof. repeat split. Qed.

(** Whatever else two tasks hold, the listing's order puts one with the
    label "medium" before one with the label "high", and one with the
    label "low" before one with the label "high". *)
Lemma priority_DESC_puts_high_last (a b : Task) :
  t_priority b = "high" ->
  t_priority a = "medium" \/ t_priority a = "low" ->
  order_compare [("priority", DESC); ("createdAt", DESC)] (Task_values a) (Task_values b)
  = Lt.
Proof. intros Hb [Ha|Ha]; cbn; rewrite Ha, Hb; reflexivity. Qed.

(** C7, at a project with one task of each priority: the listing is
    answered 200 with the tasks in the order medium, low, high, the
    high-priority task last. *)
Theorem getProjectTasks_lists_high_last :
  let response :=
    fst (GET_proyectos_projectId_tareas
           (request (JStr "Bearer luis.user") [("projectId", JStr "10")] []) db0) in
  status response = 200
  /\ listed "priority" response = [JStr "medium"; JStr "low"; JStr "high"]
  /\ listed "id" response = [JNum 101; JNum 102; JNum 100].
Proof. repeat split. Qed.

(** C8, as the claim words it, fails on requests that an earlier check
    stops. The assignee 999 is no stored identity, yet without a title
    the answer is 400 "El título de la tarea es requerido"; for a
    project that is not stored it is 404 "Proyecto no encontrado"; and
    for Luis on Ana's project it is 403. For the id 0, which no
    identity has either, the lookup is skipped ([if (assignedTo)]) and
    the answer is not the 404. *)
Lemma createTask_unknown_assignee_stopped_earlier :
  let untitled := as_user luis (request JUndefined [("projectId", JStr "10")]
                                        [("assignedTo", JNum 999)]) in
  let nowhere := as_user luis (request JUndefined [("projectId", JStr "99")]
                                       [("title", JStr "New"); ("assignedTo", JNum 999)]) in
  let foreign := as_user luis (request JUndefined [("projectId", JStr "11")]
                                       [("title", JStr "New"); ("assignedTo", JNum 999)]) in
  let zero := as_user luis (request JUndefined [("projectId", JStr "10")]
                                    [("title", JStr "New"); ("assignedTo", JNum 0)]) in
  truthy (JNum 999) = true
  /\ fst (User_findByPk (JNum 999) db0) = Ok None
  /\ fst (User_findByPk (JNum 0) db0) = Ok None
  /\ createTask untitled db0
     = (res_formatResponse untitled 400 JNull
          (JStr "El título de la tarea es requerido"), db0)
  /\ createTask nowhere db0
     = (res_formatResponse nowhere 404 JNull (JStr "Proyecto no encontrado"), db0)
  /\ createTask foreign db0
     = (res_formatResponse foreign 403 JNull
          (JStr "No tiene permisos para añadir tareas a este proyecto"), db0)
  /\ status (fst (createTask untitled db0)) <> 404
  /\ status (fst (createTask zero db0)) <> 404.
Proof.
  cbn zeta. repeat (split; [reflexivity|]). split; cbn; discriminate.
Qed.

Lemma createTask_unknown_assignee_witness :
  let req := as_user luis (request JUndefined [("projectId", JStr "10")]
                                   [("title", JStr "New"); ("assignedTo", JNum 999)]) in
  let zero := as_user luis (request JUndefined [("projectId", JStr "10")]
                                    [("title", JStr "New"); ("assignedTo", JNum 0)]) in
  snd (createTask req db0) = db0
  /\ createTask req db0
     = (res_formatResponse req 404 JNull (JStr "Usuario asignado no encontrado"), db0)
  /\ snd (createTask zero db0) = db0.
Proof.
  intros req zero.
  destruct (@createTask_unknown_assignee collaborators req db0 eq_refl)
    as (Hsame & H404).
  split; [exact (Hsame eq_refl)|]. split.
  - exact (H404 web (identity_of luis) eq_refl eq_refl eq_refl eq_refl
             (or_introl eq_refl)).
  - exact (proj1 (@createTask_unknown_assignee collaborators zero db0 eq_refl) eq_refl).
Defined.

(** With a stored assignee the same request does persist a task. *)
Example createTask_known_assignee :
  let req := as_user luis (request JUndefined [("projectId", JStr "10")]
                                   [("title", JStr "New"); ("assignedTo", JNum 1)]) in
  status (fst (createTask req db0)) = 201
  /\ length (tasks (snd (createTask req db0))) = 5%nat.
Proof. cbn zeta. split; reflexivity. Qed.

(** A client with no credentials registers as an administrator. *)
Lemma register_persists_requested_role_witness :
  let req := request JUndefined [] [ ("name", JStr "Mallory");
                                     ("email", JStr "mallory@test.com");
                                     ("password", JStr "Abcdefg1");
                                     ("role", JStr "admin") ] in
  status (fst (register req db0)) = 201
  /\ users (snd (register req db0))
     = [ana; luis; eva; registered db0 "Mallory" "mallory@test.com" "Abcdefg1" "admin"]
  /\ exists u, users (snd (register req db0)) = (users db0 ++ [u])%list
               /\ u_role u = "admin".
Proof.
  intros req.
  destruct (@register_persists_requested_role collaborators req db0)
    as (_ & Hrole & Hcan).
  destruct (Hcan "Mallory" "mallory@test.com" "Abcdefg1"
              eq_refl eq_refl eq_refl eq_refl eq_refl eq_refl eq_refl eq_refl eq_refl
              eq_refl)
    as (r & Hstatus & Hrun).
  { intros u [<-|[<-|[<-|[]]]]; discriminate. }
  rewrite Hrun. split; [exact Hstatus|]. split; [reflexivity|].
  destruct (Hrole r _ Hrun) as [[Hsame _]|(u & _ & Husers & _ & _ & Hadmin & _)].
  - exfalso. apply (f_equal (fun d => length (users d))) in Hsame. discriminate Hsame.
  - exists u. split; [exact Husers|]. now apply Hadmin.
Defined.

(** The name is measured in characters: one letter outside ASCII is
    one character, too short a name, though it is two bytes. *)
Example register_counts_characters :
  let req := request JUndefined [] [ ("name", JStr "ñ");
                                     ("email", JStr "mallory@test.com");
                                     ("password", JStr "Abcdefg1") ] in
  String.length "ñ" = 2%nat
  /\ len_between 2 100 "ñ" = false
  /\ len_between 2 100 "ño" = true
  /\ register req db0
     = (res_formatResponse req 400 JNull (JStr "Validation len on name failed"), db0).
Proof. cbn zeta. repeat split. Qed.

(** Any other role value, or none, registers a plain user. *)
Example register_other_role :
  let req := request JUndefined [] [ ("name", JStr "Mallory");
                                     ("email", JStr "mallory@test.com");
                                     ("password", JStr "Abcdefg1");
                                     ("role", JStr "root") ] in
  users (snd (register req db0))
  = [ana; luis; eva; registered db0 "Mallory" "mallory@test.com" "Abcdefg1" "user"].
Proof. reflexivity. Qed.

End Scenarios.

(** * Further properties of the pipeline *)

(** ** What a lookup that answered tells about the store *)

Module LookupFacts.
Import GateFacts HandlerFacts.

Section Lookups.
Context `{Collaborators}.

Lemma select_rows {R : Type} (table : Db -> list R) (values : R -> Obj) (w : Where)
      (order : list (string * Direction)) (db db' : Db) (rows : list R) :
  select table values w order db = (Ok rows, db') ->
  db' = db /\ online db = true
  /\ forall r, In r rows <-> In r (table db) /\ row_matches w (values r) = true.
Proof.
  unfold select. destruct (whereItemsQuery w); [|discriminate].
  destruct (online db); [|discriminate]. intros [= <- <-].
  split; [reflexivity|]. split; [reflexivity|].
  intros r. rewrite In_sort_by, filter_In. tauto.
Qed.

Lemma findOne_found {R : Type} (table : Db -> list R) (values : R -> Obj) (w : Where)
      (db db' : Db) (r : R) :
  findOne table values w db = (Ok (Some r), db') ->
  db' = db /\ online db = true /\ In r (table db) /\ row_matches w (values r) = true.
Proof.
  unfold findOne, bind.
  destruct (select table values w [] db) as [[rows|e] db1] eqn:Hsel; [|discriminate].
  apply select_rows in Hsel. destruct Hsel as (-> & Hon & Hrows).
  unfold ret. intros [= Hhd <-]. destruct rows as [|x rows]; [discriminate|].
  injection Hhd as ->. destruct (proj1 (Hrows r) (or_introl eq_refl)). auto.
Qed.

Lemma findByPk_found {R : Type} (table : Db -> list R) (values : R -> Obj) (v : JsVal)
      (db db' : Db) (r : R) :
  findByPk table values v db = (Ok (Some r), db') ->
  db' = db /\ online db = true /\ In r (table db)
  /\ col_holds (field (values r) "id") (CEq v) = true.
Proof.
  destruct v; cbn; try discriminate; intros Hf; apply findOne_found in Hf;
    destruct Hf as (-> & Hon & Hin & Hm); unfold row_matches in Hm; cbn in Hm;
    rewrite andb_true_r in Hm; auto.
Qed.

Lemma User_findByPk_found (v : JsVal) (db db' : Db) (u : User) :
  User_findByPk v db = (Ok (Some u), db') ->
  db' = db /\ online db = true /\ In u (users db).
Proof. intros Hf. apply findByPk_found in Hf. tauto. Qed.

Lemma Project_findByPk_found (v : JsVal) (db db' : Db) (p : Project) :
  Project_findByPk v db = (Ok (Some p), db') ->
  db' = db /\ online db = true /\ In p (projects db).
Proof. intros Hf. apply findByPk_found in Hf. tauto. Qed.

Lemma Task_findByPk_found (v : JsVal) (db db' : Db) (t : Task) :
  Task_findByPk v db = (Ok (Some t), db') ->
  db' = db /\ online db = true /\ In t (tasks db).
Proof. intros Hf. apply findByPk_found in Hf. tauto. Qed.

(** A lookup by a numeric key, the engine reading numbers as they are:
    the first row with that key. *)
Lemma findByPk_number {R : Type} (table : Db -> list R) (values : R -> Obj)
      (key : R -> Z) (k : Z) (db : Db) :
  (forall r, field (values r) "id" = JNum (key r)) ->
  integer_keys -> online db = true ->
  findByPk table values (JNum k) db = (Ok (find (fun r => key r =? k) (table db)), db).
Proof.
  intros Hid Hint Hon. rewrite (findByPk_by_key table values key); auto.
  do 2 f_equal. unfold key_is. rewrite Hint. reflexivity.
Qed.

End Lookups.
End LookupFacts.

(** ** The gates, the other way round *)

Module GateSoundness.
Import GateFacts HandlerFacts LookupFacts.

Section Gates.
Context `{Collaborators} `{PasswordCheck}.

Lemma authenticate_keeps_store (req : Request) (db : Db) :
  snd (authenticate req db) = db.
Proof.
  unfold authenticate, catching, authenticate_try.
  destruct (truthy (field (headers req) "authorization")); cbn [negb]; [|reflexivity].
  destruct (field (headers req) "authorization") as [| | | | |h| |]; try reflexivity.
  destruct (negb (is_str "Bearer" (slot (split " " h) 0))
            || negb (truthy (slot (split " " h) 1))); [reflexivity|].
  destruct (negb (truthy (verifyToken (toString (slot (split " " h) 1)))));
    [reflexivity|].
  unfold bind.
  pose proof (User_findByPk_keeps_store
                (prop (verifyToken (toString (slot (split " " h) 1))) "id") db) as Hk.
  destruct (User_findByPk _ db) as [[[u|]|e] db1]; cbn in Hk; subst db1;
    try reflexivity.
  destruct (u_active u); reflexivity.
Qed.

Lemma authenticate_answers (req : Request) (db : Db) (r : HttpResponse) :
  fst (authenticate req db) = Respond r -> status r = 401 \/ status r = 500.
Proof.
  unfold authenticate, catching, authenticate_try.
  destruct (truthy (field (headers req) "authorization")); cbn [negb];
    [|cbn; intros [= <-]; rewrite status_formatResponse; auto].
  destruct (field (headers req) "authorization") as [| | | | |h| |];
    try (cbn; intros [= <-]; rewrite status_formatResponse; auto).
  destruct (negb (is_str "Bearer" (slot (split " " h) 0))
            || negb (truthy (slot (split " " h) 1)));
    [cbn; intros [= <-]; rewrite status_formatResponse; auto|].
  destruct (negb (truthy (verifyToken (toString (slot (split " " h) 1)))));
    [cbn; intros [= <-]; rewrite status_formatResponse; auto|].
  unfold bind.
  destruct (User_findByPk _ db) as [[[u|]|e] db1];
    try (cbn; intros [= <-]; rewrite status_formatResponse; auto).
  destruct (u_active u); cbn; [discriminate|].
  intros [= <-]; rewrite status_formatResponse; auto.
Qed.

Lemma authenticate_continues (req req' : Request) (db : Db) :
  fst (authenticate req db) = Next req' ->
  online db = true
  /\ exists u, In u (users db) /\ u_active u = true
               /\ req' = set_user (identity_of u) req.
Proof.
  unfold authenticate, catching, authenticate_try.
  destruct (truthy (field (headers req) "authorization")); cbn [negb];
    [|discriminate].
  destruct (field (headers req) "authorization") as [| | | | |h| |];
    try discriminate.
  destruct (negb (is_str "Bearer" (slot (split " " h) 0))
            || negb (truthy (slot (split " " h) 1))); [discriminate|].
  destruct (negb (truthy (verifyToken (toString (slot (split " " h) 1)))));
    [discriminate|].
  unfold bind.
  destruct (User_findByPk _ db) as [[[u|]|e] db1] eqn:Hf; try discriminate.
  apply User_findByPk_found in Hf. destruct Hf as (-> & Hon & Hin).
  destruct (u_active u) eqn:Hact; cbn; [|discriminate].
  intros [= <-]. split; [assumption|]. exists u. auto.
Qed.

(** X1: [authenticate] never changes the store; when it answers
    itself the status is 401 or 500; and it calls the next handler only
    with the identity of a stored, active user attached, the request
    otherwise as it came. *)
Theorem authenticate_lets_only_stored_active_users (req : Request) (db : Db) :
  snd (authenticate req db) = db
  /\ match fst (authenticate req db) with
     | Respond r => status r = 401 \/ status r = 500
     | Next req' =>
         exists u, In u (users db) /\ u_active u = true
                   /\ req' = set_user (identity_of u) req
     end.
Proof.
  split; [apply authenticate_keeps_store|].
  destruct (fst (authenticate req db)) as [r|req'] eqn:Hr.
  - now apply (authenticate_answers req db).
  - now apply authenticate_continues in Hr.
Qed.

Lemma neither_is_not_owner_or_admin (p : Project) (u : ReqUser) :
  neither_owner_nor_admin p u = negb (owner_or_admin p u).
Proof.
  unfold neither_owner_nor_admin, owner_or_admin.
  destruct (p_createdBy p =? ru_id u), (ru_role u =? "admin")%string; reflexivity.
Qed.

Lemma owner_or_admin_spec (p : Project) (u : ReqUser) :
  owner_or_admin p u = true <-> p_createdBy p = ru_id u \/ ru_role u = "admin".
Proof.
  unfold owner_or_admin. rewrite orb_true_iff, Z.eqb_eq, String.eqb_eq. tauto.
Qed.

Lemma isProjectOwnerOrAdmin_keeps_store (req : Request) (db : Db) :
  snd (isProjectOwnerOrAdmin req db) = db.
Proof.
  unfold isProjectOwnerOrAdmin, catching, isProjectOwnerOrAdmin_try.
  fold (resolved_project_id req).
  destruct (truthy (resolved_project_id req)); cbn [negb]; [|reflexivity].
  unfold bind.
  pose proof (Project_findByPk_keeps_store (resolved_project_id req) db) as Hk.
  destruct (Project_findByPk _ db) as [[[p|]|e] db1]; cbn in Hk; subst db1;
    try reflexivity.
  destruct (user req) as [u|]; [|reflexivity].
  destruct (owner_or_admin p u); reflexivity.
Qed.

Lemma isProjectOwnerOrAdmin_answers (req : Request) (db : Db) (r : HttpResponse) :
  fst (isProjectOwnerOrAdmin req db) = Respond r -> In (status r) [400; 403; 404; 500].
Proof.
  unfold isProjectOwnerOrAdmin, catching, isProjectOwnerOrAdmin_try.
  fold (resolved_project_id req).
  destruct (truthy (resolved_project_id req)); cbn [negb];
    [|cbn; intros [= <-]; rewrite status_formatResponse; auto].
  unfold bind.
  destruct (Project_findByPk _ db) as [[[p|]|e] db1];
    try (cbn; intros [= <-]; rewrite status_formatResponse; auto 6).
  destruct (user req) as [u|];
    [|cbn; intros [= <-]; rewrite status_formatResponse; auto 6].
  destruct (owner_or_admin p u); cbn; [discriminate|].
  intros [= <-]; rewrite status_formatResponse; auto 6.
Qed.

Lemma isProjectOwnerOrAdmin_continues (req req' : Request) (db : Db) :
  fst (isProjectOwnerOrAdmin req db) = Next req' ->
  truthy (resolved_project_id req) = true
  /\ exists p caller,
       Project_findByPk (resolved_project_id req) db = (Ok (Some p), db)
       /\ user req = Some caller /\ owner_or_admin p caller = true
       /\ req' = set_project p req.
Proof.
  unfold isProjectOwnerOrAdmin, catching, isProjectOwnerOrAdmin_try.
  fold (resolved_project_id req).
  destruct (truthy (resolved_project_id req)); cbn [negb]; [|discriminate].
  unfold bind.
  destruct (Project_findByPk _ db) as [[[p|]|e] db1] eqn:Hf; try discriminate.
  pose proof (Project_findByPk_found _ _ Hf) as (-> & _).
  destruct (user req) as [u|]; [|discriminate].
  destruct (owner_or_admin p u) eqn:Hoa; cbn; [|discriminate].
  intros [= <-]. split; [reflexivity|]. exists p, u. auto.
Qed.

(** X2: [isProjectOwnerOrAdmin] never changes the store; when it
    answers itself the status is 400, 403, 404 or 500; and it calls the
    next handler only with a stored project attached that the caller
    created or, being an administrator, may touch. *)
Theorem isProjectOwnerOrAdmin_lets_only_owner_or_admin (req : Request) (db : Db) :
  snd (isProjectOwnerOrAdmin req db) = db
  /\ match fst (isProjectOwnerOrAdmin req db) with
     | Respond r => In (status r) [400; 403; 404; 500]
     | Next req' =>
         exists p caller,
           In p (projects db) /\ user req = Some caller
           /\ (p_createdBy p = ru_id caller \/ ru_role caller = "admin")
           /\ req' = set_project p req
     end.
Proof.
  split; [apply isProjectOwnerOrAdmin_keeps_store|].
  destruct (fst (isProjectOwnerOrAdmin req db)) as [r|req'] eqn:Hr.
  - now apply (isProjectOwnerOrAdmin_answers req db).
  - apply isProjectOwnerOrAdmin_continues in Hr.
    destruct Hr as (_ & p & caller & Hf & Hu & Hoa & ->).
    exists p, caller. apply Project_findByPk_found in Hf.
    apply owner_or_admin_spec in Hoa. tauto.
Qed.

(** X3: behind [authenticate], [authorize(roles)] never answers its
    500 for a missing [req.user]: it lets the request through when the
    stored role of the user is among [roles] (one role or an array of
    them) and answers 403 otherwise. *)
Theorem authorize_behind_authenticate (roles : JsVal) (req req' : Request) (db : Db) :
  fst (authenticate req db) = Next req' ->
  exists u,
    In u (users db) /\ user req' = Some (identity_of u)
    /\ authorize roles req'
       = if allows roles (u_role u) then Next req'
         else answer req 403 "No tiene permisos para acceder a este recurso".
Proof.
  intros Hnext. apply authenticate_continues in Hnext.
  destruct Hnext as (_ & u & Hin & _ & ->). exists u.
  split; [assumption|]. split; [reflexivity|].
  unfold authorize, allows. cbn [user set_user identity_of ru_role].
  destruct (existsb (is_str (u_role u)) _); reflexivity.
Qed.

(** X4: on a route [/:id], what [isProjectOwnerOrAdmin] lets through
    is carried out: [deleteProject] then answers 200 and the project is
    gone, and [updateProject] never answers 403 or 404. The handlers'
    own lookups and ownership checks repeat the gate's and cannot
    fail behind it. *)
Theorem behind_the_gate_the_handler_checks_pass (req req' : Request) (db : Db) :
  field (params req) "projectId" = JUndefined ->
  truthy (field (params req) "id") = true ->
  fst (isProjectOwnerOrAdmin req db) = Next req' ->
  (status (fst (deleteProject req' db)) = 200
   /\ exists p, project req' = Some p /\ In p (projects db)
                /\ forall q, In q (projects (snd (deleteProject req' db))) ->
                             p_id q <> p_id p)
  /\ status (fst (updateProject req' db)) <> 403
  /\ status (fst (updateProject req' db)) <> 404.
Proof.
  intros Hpid Hid Hnext. apply isProjectOwnerOrAdmin_continues in Hnext.
  destruct Hnext as (_ & p & caller & Hf & Hu & Hoa & ->).
  assert (Hres : resolved_project_id req = field (params req) "id").
  { unfold resolved_project_id, or_else. rewrite Hpid. cbn. now rewrite Hid. }
  rewrite Hres in Hf.
  pose proof (Project_findByPk_found _ _ Hf) as (_ & Hon & Hin).
  assert (Hno : neither_owner_nor_admin p caller = false)
    by (rewrite neither_is_not_owner_or_admin, Hoa; reflexivity).
  split; [|split].
  - unfold deleteProject, catching, deleteProject_try, bind.
    cbn [params user set_project]. rewrite Hf, Hu, Hno.
    unfold Project_destroy. rewrite Hon. cbn.
    rewrite status_res_formatResponse. split; [reflexivity|].
    exists p. repeat split; auto.
    intros q Hq. apply filter_In in Hq. destruct Hq as [_ Hq].
    apply negb_true_iff, Z.eqb_neq in Hq. exact Hq.
  - unfold updateProject, catching, updateProject_try, bind.
    cbn [params user set_project]. rewrite Hf, Hu, Hno.
    destruct (Project_save p _ db) as [[saved|e] db1].
    + own_instance. cbn [fst]. rewrite Hs. discriminate.
    + cbn [fst]. unfold validation_or_500. destruct (existsb _ _);
        rewrite status_res_formatResponse; discriminate.
  - unfold updateProject, catching, updateProject_try, bind.
    cbn [params user set_project]. rewrite Hf, Hu, Hno.
    destruct (Project_save p _ db) as [[saved|e] db1].
    + own_instance. cbn [fst]. rewrite Hs. discriminate.
    + cbn [fst]. unfold validation_or_500. destruct (existsb _ _);
        rewrite status_res_formatResponse; discriminate.
Qed.

End Gates.
End GateSoundness.

(** ** Logging in, and the profile *)

Module AuthFacts.
Import GateFacts HandlerFacts LookupFacts GateSoundness.

Section Auth.
Context `{Collaborators} `{PasswordCheck}.

Lemma find_app_none {R : Type} (f : R -> bool) (l l' : list R) :
  (forall x, In x l -> f x = false) -> find f (l ++ l') = find f l'.
Proof.
  induction l as [|x l IH]; intros Hall; [reflexivity|]. cbn.
  rewrite (Hall x (or_introl eq_refl)). apply IH. intros y Hy. apply Hall. now right.
Qed.

Lemma find_first_of_unique {R K : Type} (key : R -> K) (f : R -> bool) (l : list R)
      (r : R) :
  NoDup (map key l) -> In r l -> f r = true ->
  (forall r', In r' l -> f r' = true -> key r' = key r) ->
  find f l = Some r.
Proof.
  induction l as [|x l IH]; intros Hnd Hin Hf Huniq; [contradiction|].
  cbn. destruct (f x) eqn:Hfx.
  - destruct Hin as [->|Hin]; [reflexivity|]. exfalso.
    inversion Hnd as [|? ? Hnotin _]; subst. apply Hnotin.
    rewrite (Huniq x (or_introl eq_refl) Hfx). now apply in_map.
  - destruct Hin as [->|Hin]; [congruence|].
    inversion Hnd; subst. apply IH; auto. intros r' Hr'. apply Huniq. now right.
Qed.

Lemma find_pointwise {R : Type} (f g : R -> bool) (l : list R) :
  (forall x, f x = g x) -> find f l = find g l.
Proof.
  intros Hfg. induction l as [|x l IH]; [reflexivity|]. cbn. now rewrite Hfg, IH.
Qed.

(** The lookup of [login] and [register] by e-mail: the first stored
    row with that address. *)
Lemma User_findOne_by_email (e : string) (db : Db) :
  online db = true ->
  User_findOne [("email", CEq (JStr e))] db
  = (Ok (find (fun u => (e =? u_email u)%string) (users db)), db).
Proof.
  intros Hon. unfold User_findOne, findOne, bind, select. cbn. rewrite Hon.
  rewrite sort_by_unordered, hd_error_filter. unfold ret. do 2 f_equal.
  apply find_pointwise. intros u. unfold row_matches. cbn. now rewrite andb_true_r.
Qed.

(** X5: [login] does not tell an unknown e-mail from a wrong password.
    When every stored account with the address sent, if there is any,
    is active and does not have the password sent, the answer is the
    same 401 "Credenciales inválidas", and nothing is written. *)
Theorem login_hides_which_credential_failed (req : Request) (db : Db) (e pw : string) :
  field (body req) "email" = JStr e -> e <> "" ->
  field (body req) "password" = JStr pw -> pw <> "" ->
  online db = true ->
  (forall u, In u (users db) -> u_email u = e ->
             u_active u = true /\ bcrypt_compare pw (u_password u) = false) ->
  login req db = (res_formatResponse req 401 JNull (JStr "Credenciales inválidas"), db).
Proof.
  intros He Hne Hpw Hnp Hon Hall.
  unfold login, catching, login_try. rewrite He, Hpw.
  rewrite (proj2 (truthy_JStr e) Hne), (proj2 (truthy_JStr pw) Hnp). cbn [negb orb].
  unfold bind. rewrite (User_findOne_by_email e db Hon).
  destruct (find _ (users db)) as [u|] eqn:Hf; [|reflexivity].
  apply find_some in Hf. destruct Hf as [Hin Hmail]. apply String.eqb_eq in Hmail.
  destruct (Hall u Hin (eq_sym Hmail)) as [Hact Hbad].
  rewrite Hact. cbn. now rewrite Hbad.
Qed.

(** X6: an inactive account is refused before the password is looked
    at: with e-mails unique in the store, a login for the address of an
    inactive account is answered 401 "Usuario inactivo. Contacte al
    administrador" whatever password is sent, the right one included. *)
Theorem login_refuses_inactive_whatever_the_password (req : Request) (db : Db)
        (e : string) (u : User) :
  field (body req) "email" = JStr e -> e <> "" ->
  truthy (field (body req) "password") = true ->
  online db = true -> NoDup (map u_email (users db)) ->
  In u (users db) -> u_email u = e -> u_active u = false ->
  login req db
  = (res_formatResponse req 401 JNull
       (JStr "Usuario inactivo. Contacte al administrador"), db).
Proof.
  intros He Hne Hpw Hon Hnd Hin Hmail Hact.
  unfold login, catching, login_try. rewrite He, Hpw.
  rewrite (proj2 (truthy_JStr e) Hne). cbn [negb orb].
  unfold bind. rewrite (User_findOne_by_email e db Hon).
  rewrite (find_first_of_unique u_email _ (users db) u Hnd Hin).
  - now rewrite Hact.
  - apply String.eqb_eq. now symmetry.
  - intros u' _ E. apply String.eqb_eq in E. congruence.
Qed.

(** X7: a registration that goes through can be used to log in. For
    a well-formed name, an unused non-empty e-mail and a password the
    pattern accepts, [register] answers 201, and on the store it leaves
    [login] with the same e-mail and password answers 200 with the
    data and a token of the identity just stored, provided the hash
    checks against the password it was made from. *)
Theorem registered_user_can_log_in (req req2 : Request) (db : Db) (n e pw : string) :
  field (body req) "name" = JStr n -> field (body req) "email" = JStr e ->
  field (body req) "password" = JStr pw ->
  field (body req2) "email" = JStr e -> field (body req2) "password" = JStr pw ->
  len_between 2 100 n = true -> isEmail e = true -> e <> "" ->
  passwordRegex pw = true ->
  online db = true -> (forall u, In u (users db) -> u_email u <> e) ->
  bcrypt_compare pw (bcrypt_hash pw) = true ->
  let role := if is_str "admin" (field (body req) "role") then "admin" else "user" in
  status (fst (register req db)) = 201
  /\ users (snd (register req db)) = (users db ++ [registered db n e pw role])%list
  /\ login req2 (snd (register req db))
     = (logged_in req2 (registered db n e pw role), snd (register req db)).
Proof.
  intros Hn He Hpw He2 Hpw2 Hlen Hmail Hne Hregex Hon Hfree Hhash role.
  assert (Hpne : pw <> "").
  { intros ->. discriminate Hregex. }
  assert (Hrun : register req db
                 = (res_formatResponse req 201
                      (JObj [ ("id", JNum (users_seq db + 1)); ("name", JStr n);
                              ("email", JStr e); ("role", JStr role);
                              ("createdAt", Date_in req (Date_set (JStr now))) ])
                      (JStr "Usuario registrado correctamente"),
                    set_users (users db ++ [registered db n e pw role])%list
                              (users_seq db + 1) db)).
  { unfold register, catching, register_try, bind.
    rewrite He, Hn, Hpw, (@User_findOne_email_free _ e db Hon Hfree).
    cbn [toString]. rewrite Hregex. cbn [negb].
    unfold User_create. cbn [validate_attr flat_map snd fst toString].
    rewrite Hlen, Hmail, Hregex. cbn [app]. rewrite Hon. cbn [negb].
    rewrite (existsb_none _ (users db)); [reflexivity|].
    intros u Hu. apply String.eqb_neq. now apply Hfree. }
  rewrite Hrun. cbn [fst snd]. rewrite status_res_formatResponse.
  split; [reflexivity|]. split; [reflexivity|].
  unfold login, catching, login_try. rewrite He2, Hpw2.
  rewrite (proj2 (truthy_JStr e) Hne), (proj2 (truthy_JStr pw) Hpne). cbn [negb orb].
  unfold bind. rewrite User_findOne_by_email by exact Hon.
  cbn [users set_users]. rewrite find_app_none.
  2:{ intros u Hu. apply String.eqb_neq. intros E. now apply (Hfree u Hu). }
  cbn [find registered u_email]. rewrite String.eqb_refl.
  unfold User_checkPassword, ret.
  change (u_active (registered db n e pw role)) with true.
  change (u_password (registered db n e pw role)) with (bcrypt_hash pw).
  rewrite Hhash. reflexivity.
Qed.

Lemma User_findByPk_number (k : Z) (db : Db) (u : User) :
  integer_keys -> online db = true -> NoDup (map u_id (users db)) ->
  In u (users db) -> u_id u = k ->
  User_findByPk (JNum k) db = (Ok (Some u), db).
Proof.
  intros Hint Hon Hnd Hin Hk. unfold User_findByPk.
  rewrite (findByPk_number users User_values u_id); auto.
  rewrite (find_first_of_unique u_id _ (users db) u Hnd Hin); [reflexivity| |].
  - now apply Z.eqb_eq.
  - intros u' _ E. apply Z.eqb_eq in E. congruence.
Qed.



(** X9: behind [authenticate], [getProfile] answers 200 and writes
    nothing; it does not answer 404 there (keys unique, numbers read
    as keys). Asked for in JSON, the data of the answer are those of
    the authenticated user's stored record, its id, name, e-mail and
    role, and have no [password]. *)
Theorem profile_of_the_authenticated_user (req req' : Request) (db : Db) :
  integer_keys -> NoDup (map u_id (users db)) ->
  fst (authenticate req db) = Next req' ->
  exists u,
    In u (users db) /\ user req' = Some (identity_of u)
    /\ status (fst (getProfile req' db)) = 200
    /\ snd (getProfile req' db) = db
    /\ (is_str "xml" (format_of req') = false ->
        let profile := json_data (fst (getProfile req' db)) in
        has_key "password" profile = false
        /\ prop profile "password" = JUndefined
        /\ prop profile "id" = JNum (u_id u)
        /\ prop profile "name" = JStr (u_name u)
        /\ prop profile "email" = JStr (u_email u)
        /\ prop profile "role" = JStr (u_role u)).
Proof.
  intros Hint Hnd Hnext. apply authenticate_continues in Hnext.
  destruct Hnext as (Hon & u & Hin & _ & ->). exists u.
  split; [assumption|]. split; [reflexivity|].
  unfold getProfile, catching, getProfile_try, bind.
  cbn [user set_user identity_of ru_id].
  rewrite User_findByPk_number with (u := u) by auto.
  own_instance. cbn [fst snd]. split; [exact Hs|]. split; [reflexivity|].
  intros Hjson. rewrite (Hj Hjson).
  rewrite (json_data_res_formatResponse _ _ _ _ Hjson).
  cbn. destruct (date_json (u_createdAt u)); destruct (date_json (u_updatedAt u));
    repeat split; reflexivity.
Qed.

End Auth.
End AuthFacts.

(** ** What the write operations do to the store *)

Module WriteFacts.
Import GateFacts HandlerFacts LookupFacts.

(** What a lookup leaves to reason about: its outcome, the store as it was. *)
Ltac looked_up lookup o :=
  let db1 := fresh "db1" in
  let E := fresh "Hlookup" in
  let K := fresh "Hkeep" in
  match goal with
  | |- context [lookup ?v ?db] =>
      pose proof (findByPk_keeps_store _ _ v db : snd (lookup v db) = db) as K;
      destruct (lookup v db) as [o db1] eqn:E; cbn [snd] in K; subst db1
  end.

Section Failures.
Context `{Collaborators}.

Lemma failed_res_formatResponse (req : Request) (code : Z) (d m : JsVal) :
  ~ (200 <= code < 300) -> failed (res_formatResponse req code d m).
Proof. unfold failed. now rewrite status_res_formatResponse. Qed.

Lemma failed_validation_or_500 (req : Request) (names : list string) (fallback : string)
      (e : JsError) :
  failed (validation_or_500 req names fallback e).
Proof.
  unfold validation_or_500. destruct (existsb _ names);
    apply failed_res_formatResponse; lia.
Qed.

End Failures.

(** A branch that answers with a failure and leaves the store alone. *)
Ltac refused :=
  left; cbn [ret throw fst snd]; split;
  [reflexivity
  |first [apply failed_res_formatResponse; lia|apply failed_validation_or_500]].

Section Writes.
Context `{Collaborators} `{PasswordCheck}.

Lemma existsb_key_In {R : Type} (key : R -> Z) (k : Z) (l : list R) :
  existsb (fun r => key r =? k) l = true -> In k (map key l).
Proof.
  intros Hex. apply existsb_exists in Hex. destruct Hex as (r & Hin & Hk).
  apply Z.eqb_eq in Hk. subst k. now apply in_map.
Qed.

Lemma foreign_key_present (present : Z -> bool) (v : JsVal) (k : Z) :
  foreign_key present v = Ok (Some k) -> to_integer v = Some k /\ present k = true.
Proof.
  unfold foreign_key. destruct (nullish v); [discriminate|].
  destruct (to_integer v) as [n|]; [|discriminate].
  destruct (present n) eqn:Hp; [|discriminate]. intros [= <-]. auto.
Qed.

Lemma User_create_result (name email password : JsVal) (role : string) (db db' : Db)
      (o : Outcome User) :
  User_create name email password role db = (o, db') ->
  match o with
  | Throw _ => db' = db
  | Ok u =>
      db' = set_users (users db ++ [u])%list (users_seq db + 1) db
      /\ online db = true
      /\ u_id u = users_seq db + 1 /\ u_role u = role /\ u_active u = true
      /\ ~ In (u_email u) (map u_email (users db))
  end.
Proof.
  unfold User_create. destruct (_ ++ _)%list; [|intros [= <- <-]; reflexivity].
  destruct (online db); cbn [negb]; [|intros [= <- <-]; reflexivity].
  destruct (existsb _ (users db)) eqn:Hex; intros [= <- <-]; [reflexivity|].
  cbn. repeat split; auto. intros Hin. apply in_map_iff in Hin.
  destruct Hin as (u & Hu & Hin).
  assert (existsb (fun u => (u_email u =? toString email)%string) (users db) = true)
    as Hyes by (apply existsb_exists; exists u; split; [assumption|];
                now apply String.eqb_eq).
  congruence.
Qed.

Lemma Project_create_result (name description status startDate endDate createdBy : JsVal)
      (db db' : Db) (o : Outcome Project) :
  Project_create name description status startDate endDate createdBy db = (o, db') ->
  match o with
  | Throw _ => db' = db
  | Ok p =>
      db' = set_projects (projects db ++ [p])%list (projects_seq db + 1) db
      /\ online db = true
      /\ p_id p = projects_seq db + 1 /\ p_status p = toString status
      /\ to_integer createdBy = Some (p_createdBy p)
      /\ In (p_createdBy p) (map u_id (users db))
  end.
Proof.
  unfold Project_create. destruct (_ ++ _)%list; [|intros [= <- <-]; reflexivity].
  destruct (online db); cbn [negb]; [|intros [= <- <-]; reflexivity].
  destruct (foreign_key _ createdBy) as [[owner|]|e] eqn:Hfk;
    intros [= <- <-]; try reflexivity.
  apply foreign_key_present in Hfk. destruct Hfk as [Hint Hpres].
  cbn. repeat split; auto. now apply existsb_key_In.
Qed.

Lemma Task_create_result (title description status priority dueDate projectId
                          assignedTo : JsVal) (db db' : Db) (o : Outcome Task) :
  Task_create title description status priority dueDate projectId assignedTo db
  = (o, db') ->
  match o with
  | Throw _ => db' = db
  | Ok t =>
      db' = set_tasks (tasks db ++ [t])%list (tasks_seq db + 1) db
      /\ online db = true
      /\ t_id t = tasks_seq db + 1
      /\ to_integer projectId = Some (t_projectId t)
      /\ In (t_projectId t) (map p_id (projects db))
      /\ (forall k, t_assignedTo t = Some k -> In k (map u_id (users db)))
  end.
Proof.
  unfold Task_create. destruct (_ ++ _)%list; [|intros [= <- <-]; reflexivity].
  destruct (online db); cbn [negb]; [|intros [= <- <-]; reflexivity].
  destruct (foreign_key _ projectId) as [[pid|]|e] eqn:Hfk;
    try (intros [= <- <-]; reflexivity).
  destruct (foreign_key _ assignedTo) as [assignee|e] eqn:Hfa;
    intros [= <- <-]; try reflexivity.
  apply foreign_key_present in Hfk. destruct Hfk as [Hint Hpres].
  cbn. repeat split; auto.
  - now apply existsb_key_In.
  - intros k ->. apply foreign_key_present in Hfa. apply existsb_key_In. tauto.
Qed.

(** The attributes [save] never writes. *)
Lemma Project_assign_keeps (p : Project) (kv : string * JsVal) :
  p_id (Project_assign p kv) = p_id p
  /\ p_createdBy (Project_assign p kv) = p_createdBy p
  /\ p_createdAt (Project_assign p kv) = p_createdAt p.
Proof.
  destruct kv as [k v]. unfold Project_assign.
  repeat match goal with
         | |- context [if ?b then _ else _] => destruct b
         end; auto.
Qed.

Lemma Project_write_keeps (changes : Obj) (p : Project) :
  p_id (Project_touch (fold_left Project_assign changes p)) = p_id p
  /\ p_createdBy (Project_touch (fold_left Project_assign changes p)) = p_createdBy p
  /\ p_createdAt (Project_touch (fold_left Project_assign changes p)) = p_createdAt p.
Proof.
  revert p. induction changes as [|kv changes IH]; intros p; [cbn; auto|].
  cbn [fold_left]. destruct (IH (Project_assign p kv)) as (A & B & C).
  destruct (Project_assign_keeps p kv) as (A' & B' & C').
  rewrite A, B, C. auto.
Qed.

Lemma Project_save_result (p : Project) (assigned : Obj) (db db' : Db)
      (o : Outcome Project) :
  Project_save p assigned db = (o, db') ->
  match o with
  | Throw _ => db' = db
  | Ok saved =>
      (saved = p /\ db' = db)
      \/ (online db = true
          /\ exists changes,
               changes = changed (Project_values p) assigned
               /\ saved = Project_touch (fold_left Project_assign changes p)
               /\ db' = set_projects
                          (map (fun q => if p_id q =? p_id p
                                         then Project_touch
                                                (fold_left Project_assign changes q)
                                         else q) (projects db))
                          (projects_seq db) db)
  end.
Proof.
  unfold Project_save.
  destruct (changed (Project_values p) assigned) as [|c cs] eqn:Hch;
    [intros [= <- <-]; now left|].
  destruct (flat_map Project_validate (c :: cs)); [|intros [= <- <-]; reflexivity].
  destruct (online db); cbn [negb]; [|intros [= <- <-]; reflexivity].
  intros [= <- <-]. right. split; [reflexivity|]. exists (c :: cs). auto.
Qed.

Lemma Task_assign_keeps (assignee : option Z) (t : Task) (kv : string * JsVal) :
  t_id (Task_assign assignee t kv) = t_id t
  /\ t_projectId (Task_assign assignee t kv) = t_projectId t
  /\ t_createdAt (Task_assign assignee t kv) = t_createdAt t
  /\ (t_assignedTo (Task_assign assignee t kv) = t_assignedTo t
      \/ t_assignedTo (Task_assign assignee t kv) = assignee).
Proof.
  destruct kv as [k v]. unfold Task_assign.
  repeat match goal with
         | |- context [if ?b then _ else _] => destruct b
         end; auto.
Qed.

Lemma Task_write_keeps (assignee : option Z) (changes : Obj) (t : Task) :
  let t' := Task_touch (fold_left (Task_assign assignee) changes t) in
  t_id t' = t_id t /\ t_projectId t' = t_projectId t /\ t_createdAt t' = t_createdAt t
  /\ (t_assignedTo t' = t_assignedTo t \/ t_assignedTo t' = assignee).
Proof.
  revert t. induction changes as [|kv changes IH]; intros t; [cbn; auto|].
  cbn [fold_left]. destruct (IH (Task_assign assignee t kv)) as (A & B & C & D).
  destruct (Task_assign_keeps assignee t kv) as (A' & B' & C' & D').
  cbn zeta. rewrite A, B, C. repeat split; auto.
  destruct D as [D|D]; [|now right]. rewrite D. exact D'.
Qed.

Lemma Task_save_result (t : Task) (assigned : Obj) (db db' : Db) (o : Outcome Task) :
  Task_save t assigned db = (o, db') ->
  match o with
  | Throw _ => db' = db
  | Ok saved =>
      (saved = t /\ db' = db)
      \/ (online db = true
          /\ exists changes assignee,
               changes = changed (Task_values t) assigned
               /\ (forall k, assignee = Some k -> In k (map u_id (users db)))
               /\ saved = Task_touch (fold_left (Task_assign assignee) changes t)
               /\ db' = set_tasks
                          (map (fun q => if t_id q =? t_id t
                                         then Task_touch
                                                (fold_left (Task_assign assignee)
                                                           changes q)
                                         else q) (tasks db))
                          (tasks_seq db) db)
  end.
Proof.
  unfold Task_save.
  destruct (changed (Task_values t) assigned) as [|c cs] eqn:Hch;
    [intros [= <- <-]; now left|].
  destruct (flat_map Task_validate (c :: cs)); [|intros [= <- <-]; reflexivity].
  destruct (online db); cbn [negb]; [|intros [= <- <-]; reflexivity].
  destruct (foreign_key _ _) as [assignee|e] eqn:Hfk; [|intros [= <- <-]; reflexivity].
  intros [= <- <-]. right. split; [reflexivity|]. exists (c :: cs), assignee.
  split; [reflexivity|]. split; [|split; reflexivity].
  intros k ->. apply foreign_key_present in Hfk. apply existsb_key_In. tauto.
Qed.

End Writes.
End WriteFacts.

(** ** projectController.js: create, read and update *)

Module ProjectFacts.
Import GateFacts HandlerFacts LookupFacts GateSoundness WriteFacts.

Section Projects.
Context `{Collaborators} `{PasswordCheck}.

Lemma createProject_effect (req : Request) (db : Db) :
  (snd (createProject req db) = db /\ failed (fst (createProject req db)))
  \/ exists caller p,
       user req = Some caller
       /\ Project_create (field (body req) "name") (field (body req) "description")
            (or_else (field (body req) "status") (JStr "active"))
            (or_else (field (body req) "startDate") (JStr now))
            (field (body req) "endDate") (JNum (ru_id caller)) db
          = (Ok p, snd (createProject req db))
       /\ status (fst (createProject req db)) = 201.
Proof.
  unfold createProject, catching, createProject_try.
  destruct (truthy (field (body req) "name")); cbn [negb];
    [|left; cbn [ret fst snd]; split; [reflexivity|apply failed_res_formatResponse; lia]].
  destruct (user req) as [caller|];
    [|left; cbn [throw fst snd]; split; [reflexivity|apply failed_validation_or_500]].
  unfold bind.
  destruct (Project_create _ _ _ _ _ _ db) as [[p|e] db1] eqn:Hc.
  - right. exists caller, p. own_instance. cbn [fst snd]. auto.
  - apply Project_create_result in Hc. subst db1. left. cbn [fst snd].
    split; [reflexivity|apply failed_validation_or_500].
Qed.

Lemma updateProject_effect (req : Request) (db : Db) :
  (snd (updateProject req db) = db /\ failed (fst (updateProject req db)))
  \/ exists p caller saved,
       Project_findByPk (field (params req) "id") db = (Ok (Some p), db)
       /\ user req = Some caller /\ neither_owner_nor_admin p caller = false
       /\ Project_save p (updateProject_assignments req) db
          = (Ok saved, snd (updateProject req db))
       /\ status (fst (updateProject req db)) = 200.
Proof.
  remember (updateProject req db) as r eqn:Hr. revert Hr.
  unfold updateProject, catching, updateProject_try.
  unfold bind at 1. looked_up (@Project_findByPk H) o.
  destruct o as [[p|]|e]; try (intros ->; refused).
  destruct (user req) as [caller|]; [|intros ->; refused].
  destruct (neither_owner_nor_admin p caller) eqn:Hperm; [intros ->; refused|].
  unfold bind.
  destruct (Project_save p (updateProject_assignments req) db) as [[saved|e] db1] eqn:Hs;
    intros ->.
  - right. exists p, caller, saved. own_instance. cbn [fst snd].
    split; [reflexivity|]. split; [reflexivity|]. split; [exact Hperm|].
    split; [exact Hs|exact Hs0].
  - apply Project_save_result in Hs. subst db1. refused.
Qed.

Lemma includes_label (labels : list string) (v : JsVal) :
  includes labels v = true -> exists s, v = JStr s /\ In s labels.
Proof.
  unfold includes. intros Hex. apply existsb_exists in Hex.
  destruct Hex as (lit & Hin & Hv). apply is_str_true in Hv. eauto.
Qed.

Lemma isProjectOwnerOrAdmin_passes (req : Request) (db : Db) (p : Project)
      (caller : ReqUser) :
  truthy (resolved_project_id req) = true ->
  Project_findByPk (resolved_project_id req) db = (Ok (Some p), db) ->
  user req = Some caller -> owner_or_admin p caller = true ->
  isProjectOwnerOrAdmin req db = (Next (set_project p req), db).
Proof.
  intros Ht Hf Hu Hperm.
  unfold isProjectOwnerOrAdmin, catching, isProjectOwnerOrAdmin_try, bind.
  fold (resolved_project_id req). rewrite Ht. cbn [negb]. rewrite Hf, Hu, Hperm.
  reflexivity.
Qed.

Lemma neither_false_owner_or_admin (p : Project) (u : ReqUser) :
  neither_owner_nor_admin p u = false <-> owner_or_admin p u = true.
Proof.
  rewrite neither_is_not_owner_or_admin. destruct (owner_or_admin p u); cbn;
    split; congruence.
Qed.

Lemma stranger (p : Project) (caller : ReqUser) :
  p_createdBy p <> ru_id caller -> ru_role caller <> "admin" ->
  neither_owner_nor_admin p caller = true.
Proof.
  intros Hown Hrole. unfold neither_owner_nor_admin.
  apply Z.eqb_neq in Hown. apply String.eqb_neq in Hrole. now rewrite Hown, Hrole.
Qed.

(** X10: a project is created for the caller and for nobody else.
    When [createProject] answers 201, the store holds exactly one more
    project; its key is the next of the sequence, its creator is the
    authenticated caller, who is a stored user, whatever the body
    carries; its status is [active] unless the body gives one; users and
    tasks are as they were. *)
Theorem createProject_creates_for_the_caller (req : Request) (db : Db) :
  integer_keys ->
  status (fst (createProject req db)) = 201 ->
  exists caller p,
    user req = Some caller
    /\ projects (snd (createProject req db)) = (projects db ++ [p])%list
    /\ p_id p = projects_seq db + 1
    /\ p_createdBy p = ru_id caller
    /\ In (ru_id caller) (map u_id (users db))
    /\ (truthy (field (body req) "status") = false -> p_status p = "active")
    /\ users (snd (createProject req db)) = users db
    /\ tasks (snd (createProject req db)) = tasks db.
Proof.
  intros Hint Hst.
  destruct (createProject_effect req db) as [[_ Hfail]|(caller & p & Hu & Hc & _)];
    [exfalso; apply Hfail; lia|].
  apply Project_create_result in Hc.
  destruct Hc as (Hdb & _ & Hid & Hstatus & Hown & Hin).
  rewrite Hint in Hown. injection Hown as Hown.
  exists caller, p. rewrite Hdb, <- Hown. cbn [projects users tasks set_projects].
  split; [assumption|]. split; [reflexivity|]. split; [assumption|].
  split; [reflexivity|]. split; [now rewrite Hown|]. split; [|split; reflexivity].
  intros Hfalsy. rewrite Hstatus. unfold or_else. now rewrite Hfalsy.
Qed.

(** X11: the creator reaches the project just created.  After a 201 of
    [createProject], a request of the same caller that names the new key
    passes [isProjectOwnerOrAdmin], which sets [project] to the new row
    and leaves the rest of the request alone, and [getProjectById]
    answers 200; unless the request asks for XML: the row was loaded
    with [include], and the answer is 500. *)
Theorem creator_reaches_the_created_project (req req2 : Request) (db : Db) (v : JsVal) :
  integer_keys ->
  (forall q, In q (projects db) -> p_id q <= projects_seq db) ->
  status (fst (createProject req db)) = 201 ->
  user req2 = user req ->
  field (params req2) "projectId" = JUndefined -> field (params req2) "id" = v ->
  is_key v = true -> truthy v = true -> to_integer v = Some (projects_seq db + 1) ->
  exists p req',
    In p (projects (snd (createProject req db))) /\ p_id p = projects_seq db + 1
    /\ isProjectOwnerOrAdmin req2 (snd (createProject req db))
       = (Next req', snd (createProject req db))
    /\ project req' = Some p /\ user req' = user req2
    /\ query req' = query req2 /\ headers req' = headers req2
    /\ params req' = params req2 /\ body req' = body req2
    /\ status (fst (getProjectById req2 (snd (createProject req db))))
       = (if is_str "xml" (format_of req2) then 500 else 200).
Proof.
  intros Hint Hseq Hst Hsame Hpid Hidv Hkey Htruthy Hto.
  destruct (createProject_effect req db) as [[_ Hfail]|(caller & p & Hu & Hc & _)];
    [exfalso; apply Hfail; lia|].
  apply Project_create_result in Hc.
  destruct Hc as (Hdb & Hon & Hid & _ & Hown & _).
  rewrite Hint in Hown. injection Hown as Hown.
  set (db' := snd (createProject req db)) in *.
  assert (Hon' : online db' = true) by (rewrite Hdb; exact Hon).
  assert (Hfind : Project_findByPk v db' = (Ok (Some p), db')).
  { rewrite Project_findByPk_by_key by assumption. do 2 f_equal.
    rewrite Hdb. cbn [projects set_projects]. rewrite AuthFacts.find_app_none.
    - cbn. unfold key_is. rewrite Hto, Hid, Z.eqb_refl. reflexivity.
    - intros q Hq. unfold key_is. rewrite Hto. apply Z.eqb_neq.
      specialize (Hseq q Hq). lia. }
  assert (Hperm : owner_or_admin p caller = true).
  { apply owner_or_admin_spec. left. congruence. }
  exists p, (set_project p req2).
  split; [rewrite Hdb; cbn; apply in_or_app; right; now left|].
  split; [assumption|]. split.
  - apply isProjectOwnerOrAdmin_passes with (caller := caller); try congruence.
    + unfold resolved_project_id. rewrite Hpid, Hidv. cbn. unfold or_else.
      now rewrite Htruthy.
    + unfold resolved_project_id. rewrite Hpid, Hidv. cbn. unfold or_else.
      now rewrite Htruthy.
  - do 6 (split; [reflexivity|]).
    unfold getProjectById, catching, getProjectById_try, bind. rewrite Hidv, Hfind.
    rewrite Hsame, Hu. apply neither_false_owner_or_admin in Hperm. rewrite Hperm.
    cbn [snapshot]. unfold res_formatInstance.
    destruct (is_str "xml" (format_of req2)); cbn [throw ret fst];
      apply status_res_formatResponse.
Qed.

(** X12: [updateProject] writes nothing but the editable columns of the
    one project.  Whatever the request, users and tasks are as they
    were, and the projects keep their order, keys, creators and creation
    times; every other project is the row it was. *)
Theorem updateProject_keeps_identity_and_owner (req : Request) (db : Db) :
  users (snd (updateProject req db)) = users db
  /\ tasks (snd (updateProject req db)) = tasks db
  /\ map p_id (projects (snd (updateProject req db))) = map p_id (projects db)
  /\ map p_createdBy (projects (snd (updateProject req db)))
     = map p_createdBy (projects db)
  /\ map p_createdAt (projects (snd (updateProject req db)))
     = map p_createdAt (projects db)
  /\ forall q, In q (projects db) ->
       In q (projects (snd (updateProject req db)))
       \/ exists p, fst (Project_findByPk (field (params req) "id") db) = Ok (Some p)
                    /\ p_id q = p_id p.
Proof.
  destruct (updateProject_effect req db)
    as [[-> _]|(p & caller & saved & Hf & _ & _ & Hs & _)]; [repeat split; auto|].
  apply Project_save_result in Hs.
  destruct Hs as [[_ ->]|(_ & changes & _ & _ & ->)]; [repeat split; auto|].
  cbn [users tasks projects set_projects]. rewrite !map_map.
  split; [reflexivity|]. split; [reflexivity|].
  split; [|split; [|split]].
  - apply map_ext. intros q. destruct (p_id q =? p_id p); [|reflexivity].
    apply Project_write_keeps.
  - apply map_ext. intros q. destruct (p_id q =? p_id p); [|reflexivity].
    apply Project_write_keeps.
  - apply map_ext. intros q. destruct (p_id q =? p_id p); [|reflexivity].
    apply Project_write_keeps.
  - intros q Hq. destruct (p_id q =? p_id p) eqn:Hk.
    + right. exists p. rewrite Hf. split; [reflexivity|]. now apply Z.eqb_eq.
    + left. apply in_map_iff. exists q. now rewrite Hk.
Qed.

Lemma Project_assign_status (labels : list string) (q : Project) (kv : string * JsVal) :
  (fst kv = "status" -> In (toString (snd kv)) labels) ->
  p_status (Project_assign q kv) = p_status q
  \/ In (p_status (Project_assign q kv)) labels.
Proof.
  destruct kv as [k v]. unfold Project_assign. cbn [fst snd]. intros Hl.
  destruct (k =? "name")%string; [now left|].
  destruct (k =? "description")%string; [now left|].
  destruct (k =? "status")%string eqn:Hk; [right; apply String.eqb_eq in Hk; auto|].
  destruct (k =? "startDate")%string; [now left|].
  destruct (k =? "endDate")%string; now left.
Qed.

Lemma Project_write_status (labels : list string) (changes : Obj) (q : Project) :
  (forall kv, In kv changes -> fst kv = "status" -> In (toString (snd kv)) labels) ->
  p_status (Project_touch (fold_left Project_assign changes q)) = p_status q
  \/ In (p_status (Project_touch (fold_left Project_assign changes q))) labels.
Proof.
  revert q. induction changes as [|kv changes IH]; intros q Hl; [now left|].
  cbn [fold_left].
  destruct (IH (Project_assign q kv)) as [E|E];
    [intros ? ?; apply Hl; now right| |now right].
  rewrite E. apply Project_assign_status. apply Hl. now left.
Qed.

Lemma updateProject_assigns_labels (req : Request) (kv : string * JsVal) :
  In kv (updateProject_assignments req) -> fst kv = "status" ->
  In (toString (snd kv)) ["active"; "completed"; "canceled"].
Proof.
  unfold updateProject_assignments. rewrite !in_app_iff.
  intros [Hin|[Hin|[Hin|[Hin|Hin]]]] Hk.
  - destruct (truthy _); [|contradiction]. destruct Hin as [<-|[]]. discriminate.
  - destruct (field (body req) "description"); try contradiction;
      destruct Hin as [<-|[]]; discriminate.
  - destruct (truthy _ && includes _ _) eqn:Hc; [|contradiction].
    apply andb_prop in Hc. destruct Hc as [_ Hc]. apply includes_label in Hc.
    destruct Hc as (s & Hs & Hl). destruct Hin as [<-|[]]. cbn [snd].
    now rewrite Hs.
  - destruct (truthy _); [|contradiction]. destruct Hin as [<-|[]]. discriminate.
  - destruct (field (body req) "endDate"); try contradiction;
      destruct Hin as [<-|[]]; discriminate.
Qed.

Lemma updateProject_status_labels (req : Request) (db : Db) (q' : Project) :
  In q' (projects (snd (updateProject req db))) ->
  In (p_status q') Project_status_values
  \/ exists q, In q (projects db) /\ p_id q = p_id q' /\ p_status q = p_status q'.
Proof.
  destruct (updateProject_effect req db)
    as [[-> _]|(p & caller & saved & _ & _ & _ & Hs & _)]; [right; eauto|].
  apply Project_save_result in Hs.
  destruct Hs as [[_ ->]|(_ & changes & Hch & _ & ->)]; [right; eauto|].
  cbn [projects set_projects]. intros Hin. apply in_map_iff in Hin.
  destruct Hin as (q & <- & Hq).
  destruct (p_id q =? p_id p); [|right; eauto].
  destruct (Project_write_status ["active"; "completed"; "canceled"] changes q)
    as [E|E].
  - intros kv Hkv. apply updateProject_assigns_labels with (req := req).
    subst changes. unfold changed in Hkv. apply filter_In in Hkv. tauto.
  - right. exists q. split; [assumption|]. split; [|now symmetry].
    symmetry. apply Project_write_keeps.
  - left. exact E.
Qed.

End Projects.
End ProjectFacts.

(** ** taskController.js, and what every handler that writes has in common *)

Module TaskFacts.
Import GateFacts HandlerFacts LookupFacts GateSoundness WriteFacts ProjectFacts.

Section Tasks.
Context `{Collaborators} `{PasswordCheck}.

Lemma find_some {R : Type} (f : R -> bool) (l : list R) (x : R) :
  In x l -> f x = true -> exists y, find f l = Some y.
Proof.
  induction l as [|a l IH]; intros Hin Hf; [contradiction|]. cbn.
  destruct (f a) eqn:Hfa; [eauto|]. destruct Hin as [->|Hin]; [congruence|auto].
Qed.

(** A reload of a row that is there. *)
Lemma Task_reload_answers (t x : Task) (db : Db) :
  integer_keys -> online db = true -> In x (tasks db) -> t_id x = t_id t ->
  exists t', Task_reload t db = (Ok t', db).
Proof.
  intros Hint Hon Hin Hid. unfold Task_reload, bind.
  rewrite (@findByPk_number _ Task tasks Task_values t_id (t_id t) db
             (fun r => eq_refl) Hint Hon).
  apply Z.eqb_eq in Hid.
  destruct (find_some (fun r => t_id r =? t_id t) (tasks db) x Hin Hid) as (t' & ->).
  exists t'. reflexivity.
Qed.

Lemma Task_reload_keeps_store (t : Task) (db : Db) : snd (Task_reload t db) = db.
Proof.
  unfold Task_reload, bind.
  pose proof (findByPk_keeps_store tasks Task_values (JNum (t_id t)) db) as Hk.
  destruct (findByPk tasks Task_values (JNum (t_id t)) db) as [[[t'|]|e] db1];
    cbn in *; congruence.
Qed.

(** The common end of [createTask] and [updateTask]: the write [m],
    then the reload when an assignee is held, then the answer, which
    is the handler's 500 when the reloaded instance is to be sent as
    XML: by then the write is done. *)
Lemma written_then_reloaded (req : Request) (m : Async Task) (b : bool) (code : Z)
      (own : Task -> JsVal) (text fallback : string) (db : Db) :
  (forall o db', m db = (o, db') ->
     match o with
     | Throw _ => db' = db
     | Ok t => online db' = true /\ exists x, In x (tasks db') /\ t_id x = t_id t
     end) ->
  let r := catching
             (task <- m ;;
              if b
              then
                task' <- Task_reload task ;;
                db <- snapshot ;;
                res_formatInstance req code true (Task_with_assignee db task')
                                   (JStr text)
              else res_formatInstance req code false (own task) (JStr text))%async
             (validation_or_500 req ["SequelizeValidationError"] fallback) db in
  (snd r = db /\ failed (fst r))
  \/ exists t, m db = (Ok t, snd r)
               /\ (integer_keys ->
                   status (fst r)
                   = if b && is_str "xml" (format_of req) then 500 else code).
Proof.
  intros Hm. cbn zeta. unfold catching, bind.
  pose proof (Hm (fst (m db)) (snd (m db)) (surjective_pairing _)) as Hres.
  destruct (m db) as [[t|e] db1] eqn:Hc; cbn in Hres.
  - right. exists t. destruct Hres as (Hon & x & Hin & Hid). destruct b.
    + pose proof (Task_reload_keeps_store t db1) as Hk.
      destruct (Task_reload t db1) as [[t'|e] db2] eqn:Hr; cbn [snd] in Hk;
        subst db2; cbn [snd fst ret snapshot andb].
      * unfold res_formatInstance.
        destruct (is_str "xml" (format_of req)); cbn [throw ret fst snd];
          (split; [reflexivity|]); intros _.
        -- unfold validation_or_500. cbn. apply status_res_formatResponse.
        -- apply status_res_formatResponse.
      * split; [reflexivity|]. intros Hint. exfalso.
        destruct (Task_reload_answers t x db1 Hint Hon Hin Hid) as (t' & Ht').
        congruence.
    + own_instance. cbn [fst snd andb]. split; [reflexivity|]. intros _. exact Hs.
  - subst db1. left. cbn [fst snd].
    split; [reflexivity|apply failed_validation_or_500].
Qed.

Lemma createTask_effect (req : Request) (db : Db) :
  (snd (createTask req db) = db /\ failed (fst (createTask req db)))
  \/ exists p caller t,
       Project_findByPk (field (params req) "projectId") db = (Ok (Some p), db)
       /\ user req = Some caller /\ neither_owner_nor_admin p caller = false
       /\ Task_create (field (body req) "title") (field (body req) "description")
            (or_else (field (body req) "status") (JStr "pending"))
            (or_else (field (body req) "priority") (JStr "medium"))
            (field (body req) "dueDate") (field (params req) "projectId")
            (field (body req) "assignedTo") db
          = (Ok t, snd (createTask req db))
       /\ (integer_keys ->
           status (fst (createTask req db))
           = if truthy (field (body req) "assignedTo") && is_str "xml" (format_of req)
             then 500 else 201).
Proof.
  pose proof (fun b =>
    written_then_reloaded req
      (Task_create (field (body req) "title") (field (body req) "description")
         (or_else (field (body req) "status") (JStr "pending"))
         (or_else (field (body req) "priority") (JStr "medium"))
         (field (body req) "dueDate") (field (params req) "projectId")
         (field (body req) "assignedTo"))
      b 201
      (fun task =>
         Task_created task (field (body req) "title") (field (body req) "description")
           (or_else (field (body req) "status") (JStr "pending"))
           (or_else (field (body req) "priority") (JStr "medium"))
           (field (body req) "dueDate") (field (params req) "projectId")
           (field (body req) "assignedTo"))
      "Tarea creada correctamente" "Error al crear tarea" db) as Htail.
  assert (Hm : forall o db',
    Task_create (field (body req) "title") (field (body req) "description")
         (or_else (field (body req) "status") (JStr "pending"))
         (or_else (field (body req) "priority") (JStr "medium"))
         (field (body req) "dueDate") (field (params req) "projectId")
         (field (body req) "assignedTo") db = (o, db') ->
     match o with
     | Throw _ => db' = db
     | Ok t => online db' = true /\ exists x, In x (tasks db') /\ t_id x = t_id t
     end).
  { intros o db' Hc. apply Task_create_result in Hc. destruct o as [t|e]; [|exact Hc].
    destruct Hc as (-> & Hon & _). split; [exact Hon|]. exists t.
    split; [cbn; apply in_or_app; right; now left|reflexivity]. }
  remember (createTask req db) as r eqn:Hr. revert Hr.
  unfold createTask, catching, createTask_try.
  destruct (truthy (field (body req) "title")); cbn [negb];
    [|intros ->; left; cbn [ret fst snd]; split;
      [reflexivity|apply failed_res_formatResponse; lia]].
  unfold bind at 1. looked_up (@Project_findByPk H) o.
  destruct o as [[p|]|e];
    try (intros ->; left; cbn [ret fst snd]; split;
         [reflexivity
         |first [apply failed_res_formatResponse; lia|apply failed_validation_or_500]]).
  destruct (user req) as [caller|];
    [|intros ->; left; cbn [throw fst snd]; split;
      [reflexivity|apply failed_validation_or_500]].
  destruct (neither_owner_nor_admin p caller) eqn:Hperm;
    [intros ->; left; cbn [ret fst snd]; split;
     [reflexivity|apply failed_res_formatResponse; lia]|].
  unfold bind at 1.
  destruct (truthy (field (body req) "assignedTo")) eqn:Ht.
  - looked_up (@User_findByPk H) a. destruct a as [[a|]|e]; intros ->.
    + destruct (Htail true Hm) as [Hl|(t & Hc & Hs)]; [left; exact Hl|].
      right. exists p, caller, t. auto.
    + left. cbn [ret fst snd]. split; [reflexivity|apply failed_res_formatResponse; lia].
    + left. cbn [fst snd]. split; [reflexivity|apply failed_validation_or_500].
  - unfold ret at 1. intros ->.
    destruct (Htail false Hm) as [Hl|(t & Hc & Hs)]; [left; exact Hl|].
    right. exists p, caller, t. auto.
Qed.

Lemma In_written {R : Type} (key : R -> Z) (write : R -> R) (k : Z) (l : list R)
      (x : R) :
  (forall q, key (write q) = key q) -> In x l ->
  exists y, In y (map (fun q => if key q =? k then write q else q) l)
            /\ key y = key x.
Proof.
  intros Hkey Hin. exists (if key x =? k then write x else x). split.
  - apply in_map_iff. now exists x.
  - destruct (key x =? k); [apply Hkey|reflexivity].
Qed.

Lemma updateTask_effect (req : Request) (db : Db) :
  (snd (updateTask req db) = db /\ failed (fst (updateTask req db)))
  \/ exists t p caller saved,
       Task_findByPk (field (params req) "id") db = (Ok (Some t), db)
       /\ Project_findByPk (JNum (t_projectId t)) db = (Ok (Some p), db)
       /\ user req = Some caller /\ neither_owner_nor_admin p caller = false
       /\ Task_save t (updateTask_assignments req) db
          = (Ok saved, snd (updateTask req db))
       /\ (integer_keys ->
           status (fst (updateTask req db))
           = if truthy (match field (body req) "assignedTo" with
                        | JUndefined => opt_num (t_assignedTo t)
                        | _ => field (body req) "assignedTo"
                        end)
                && is_str "xml" (format_of req)
             then 500 else 200).
Proof.
  remember (updateTask req db) as r eqn:Hr. revert Hr.
  unfold updateTask, catching, updateTask_try.
  unfold bind at 1. looked_up (@Task_findByPk H) o.
  destruct o as [[t|]|e]; try (intros ->; refused).
  pose proof Hlookup as Hfound.
  apply Task_findByPk_found in Hlookup. destruct Hlookup as (_ & Hon & Hin).
  pose proof (fun b =>
    written_then_reloaded req (Task_save t (updateTask_assignments req))
      b 200
      (fun saved => JObj (assign_values (updateTask_assignments req)
                                        (toJSON (Task_values saved))))
      "Tarea actualizada correctamente" "Error al actualizar tarea" db) as Htail.
  assert (Hm : forall o db',
    Task_save t (updateTask_assignments req) db = (o, db') ->
     match o with
     | Throw _ => db' = db
     | Ok s => online db' = true /\ exists x, In x (tasks db') /\ t_id x = t_id s
     end).
  { intros o db' Hs. apply Task_save_result in Hs. destruct o as [s|e]; [|exact Hs].
    destruct Hs as [[-> ->]|(_ & changes & assignee & _ & _ & -> & ->)].
    - split; [exact Hon|]. now exists t.
    - split; [exact Hon|]. cbn [tasks set_tasks].
      destruct (@In_written Task t_id
                  (fun q => Task_touch (fold_left (Task_assign assignee) changes q))
                  (t_id t) (tasks db) t) as (y & Hy & Hid); [|exact Hin|].
      + intros q. apply Task_write_keeps.
      + exists y. split; [exact Hy|]. rewrite Hid. symmetry.
        apply (Task_write_keeps assignee changes t). }
  unfold bind at 1. looked_up (@Project_findByPk H) o.
  destruct o as [[p|]|e]; try (intros ->; refused).
  destruct (user req) as [caller|]; [|intros ->; refused].
  destruct (neither_owner_nor_admin p caller) eqn:Hperm; [intros ->; refused|].
  unfold bind at 1.
  set (held := match field (body req) "assignedTo" with
               | JUndefined => opt_num (t_assignedTo t)
               | _ => field (body req) "assignedTo"
               end).
  destruct (truthy (field (body req) "assignedTo")
            && negb (same_value (field (body req) "assignedTo")
                                (opt_num (t_assignedTo t)))).
  - looked_up (@User_findByPk H) a. destruct a as [[a|]|e]; intros ->.
    + destruct (Htail (truthy held) Hm) as [Hl|(s & Hs & Hst)]; [left; exact Hl|].
      right. exists t, p, caller, s.
      split; [reflexivity|]. split; [exact Hlookup|]. split; [reflexivity|].
      split; [exact Hperm|]. split; [exact Hs|exact Hst].
    + refused.
    + refused.
  - unfold ret at 1. intros ->.
    destruct (Htail (truthy held) Hm) as [Hl|(s & Hs & Hst)]; [left; exact Hl|].
    right. exists t, p, caller, s.
    split; [reflexivity|]. split; [exact Hlookup|]. split; [reflexivity|].
    split; [exact Hperm|]. split; [exact Hs|exact Hst].
Qed.


Lemma Task_destroy_result (t : Task) (db db' : Db) (o : Outcome unit) :
  Task_destroy t db = (o, db') ->
  match o with
  | Throw _ => db' = db
  | Ok _ => online db = true
            /\ db' = set_tasks (filter (fun q => negb (t_id q =? t_id t)) (tasks db))
                               (tasks_seq db) db
  end.
Proof.
  unfold Task_destroy. destruct (online db); cbn [negb]; intros [= <- <-]; auto.
Qed.

Lemma Project_destroy_result (p : Project) (db db' : Db) (o : Outcome unit) :
  Project_destroy p db = (o, db') ->
  match o with
  | Throw _ => db' = db
  | Ok _ => online db = true
            /\ db' = set_projects_tasks
                       (filter (fun q => negb (p_id q =? p_id p)) (projects db))
                       (filter (fun t => negb (t_projectId t =? p_id p)) (tasks db)) db
  end.
Proof.
  unfold Project_destroy. destruct (online db); cbn [negb]; intros [= <- <-]; auto.
Qed.

Lemma deleteTask_effect (req : Request) (db : Db) :
  (snd (deleteTask req db) = db /\ failed (fst (deleteTask req db)))
  \/ exists t p caller,
       Task_findByPk (field (params req) "id") db = (Ok (Some t), db)
       /\ Project_findByPk (JNum (t_projectId t)) db = (Ok (Some p), db)
       /\ user req = Some caller /\ neither_owner_nor_admin p caller = false
       /\ Task_destroy t db = (Ok tt, snd (deleteTask req db))
       /\ status (fst (deleteTask req db)) = 200.
Proof.
  remember (deleteTask req db) as r eqn:Hr. revert Hr.
  unfold deleteTask, catching, deleteTask_try.
  unfold bind at 1. looked_up (@Task_findByPk H) o.
  destruct o as [[t|]|e]; try (intros ->; refused).
  unfold bind at 1. looked_up (@Project_findByPk H) o.
  destruct o as [[p|]|e]; try (intros ->; refused).
  destruct (user req) as [caller|]; [|intros ->; refused].
  destruct (neither_owner_nor_admin p caller) eqn:Hperm; [intros ->; refused|].
  unfold bind.
  destruct (Task_destroy t db) as [[[]|e] db1] eqn:Hd; intros ->.
  - right. exists t, p, caller. cbn [fst snd ret].
    rewrite status_res_formatResponse.
    split; [reflexivity|]. split; [exact Hlookup0|]. split; [reflexivity|].
    split; [exact Hperm|]. split; [exact Hd|reflexivity].
  - apply Task_destroy_result in Hd. subst db1. refused.
Qed.

Lemma deleteProject_effect (req : Request) (db : Db) :
  (snd (deleteProject req db) = db /\ failed (fst (deleteProject req db)))
  \/ exists p caller,
       Project_findByPk (field (params req) "id") db = (Ok (Some p), db)
       /\ user req = Some caller /\ neither_owner_nor_admin p caller = false
       /\ Project_destroy p db = (Ok tt, snd (deleteProject req db))
       /\ status (fst (deleteProject req db)) = 200.
Proof.
  remember (deleteProject req db) as r eqn:Hr. revert Hr.
  unfold deleteProject, catching, deleteProject_try.
  unfold bind at 1. looked_up (@Project_findByPk H) o.
  destruct o as [[p|]|e]; try (intros ->; refused).
  destruct (user req) as [caller|]; [|intros ->; refused].
  destruct (neither_owner_nor_admin p caller) eqn:Hperm; [intros ->; refused|].
  unfold bind.
  destruct (Project_destroy p db) as [[[]|e] db1] eqn:Hd; intros ->.
  - right. exists p, caller. cbn [fst snd ret].
    rewrite status_res_formatResponse.
    split; [reflexivity|]. split; [reflexivity|].
    split; [exact Hperm|]. split; [exact Hd|reflexivity].
  - apply Project_destroy_result in Hd. subst db1. refused.
Qed.

Lemma register_effect (req : Request) (db : Db) :
  (snd (register req db) = db /\ failed (fst (register req db)))
  \/ exists u,
       User_create (field (body req) "name") (field (body req) "email")
                   (field (body req) "password")
                   (if is_str "admin" (field (body req) "role") then "admin" else "user")
                   db
       = (Ok u, snd (register req db))
       /\ status (fst (register req db)) = 201.
Proof.
  remember (register req db) as r eqn:Hr. revert Hr.
  unfold register, catching, register_try. unfold bind at 1.
  pose proof (User_findOne_keeps_store
                [("email", CEq (field (body req) "email"))] db) as Hk.
  destruct (User_findOne _ db) as [o db1]. cbn [snd] in Hk. subst db1.
  destruct o as [[u|]|e];
    try (intros ->; left; cbn [ret fst snd]; split;
         [reflexivity
         |first [apply failed_res_formatResponse; lia|apply failed_validation_or_500]]).
  destruct (passwordRegex _); cbn [negb];
    [|intros ->; left; cbn [ret fst snd]; split;
      [reflexivity|apply failed_res_formatResponse; lia]].
  unfold bind.
  destruct (User_create _ _ _ _ db) as [[u|e] db1] eqn:Hc; intros ->.
  - right. exists u. cbn [fst snd ret]. rewrite status_res_formatResponse. auto.
  - apply User_create_result in Hc. subst db1. left. cbn [fst snd].
    split; [reflexivity|apply failed_validation_or_500].
Qed.


(** X13: a request that fails writes nothing.  With the engine reading
    numeric keys as they are, [register], [createProject],
    [updateProject], [deleteProject] and [deleteTask] leave the store
    exactly as it was whenever their answer is not a 2xx. So do
    [createTask] and [updateTask] when the answer is not asked for in
    XML, and [createTask] also when no assignee is given: the XML of a
    task reloaded with its assignee fails after the write. *)
Theorem failed_request_writes_nothing (req : Request) (db : Db) :
  integer_keys ->
  (failed (fst (register req db)) -> snd (register req db) = db)
  /\ (failed (fst (createProject req db)) -> snd (createProject req db) = db)
  /\ (failed (fst (updateProject req db)) -> snd (updateProject req db) = db)
  /\ (failed (fst (deleteProject req db)) -> snd (deleteProject req db) = db)
  /\ (is_str "xml" (format_of req) = false
      \/ truthy (field (body req) "assignedTo") = false ->
      failed (fst (createTask req db)) -> snd (createTask req db) = db)
  /\ (is_str "xml" (format_of req) = false ->
      failed (fst (updateTask req db)) -> snd (updateTask req db) = db)
  /\ (failed (fst (deleteTask req db)) -> snd (deleteTask req db) = db).
Proof.
  intros Hint. unfold failed.
  split; [|split; [|split; [|split; [|split; [|split]]]]].
  - intros Hfail.
    destruct (register_effect req db) as [[E _]|(u & _ & Hst)]; [exact E|].
    exfalso. apply Hfail. lia.
  - intros Hfail.
    destruct (createProject_effect req db) as [[E _]|(c & p & _ & _ & Hst)]; [exact E|].
    exfalso. apply Hfail. lia.
  - intros Hfail.
    destruct (updateProject_effect req db)
      as [[E _]|(p & c & saved & _ & _ & _ & _ & Hst)]; [exact E|].
    exfalso. apply Hfail. lia.
  - intros Hfail.
    destruct (deleteProject_effect req db) as [[E _]|(p & c & _ & _ & _ & _ & Hst)];
      [exact E|].
    exfalso. apply Hfail. lia.
  - intros Hsent Hfail.
    destruct (createTask_effect req db) as [[E _]|(p & c & t & _ & _ & _ & _ & Hst)];
      [exact E|].
    exfalso. apply Hfail. rewrite (Hst Hint).
    destruct Hsent as [->| ->]; rewrite ?andb_false_r; cbn [andb]; lia.
  - intros Hjson Hfail.
    destruct (updateTask_effect req db)
      as [[E _]|(t & p & c & saved & _ & _ & _ & _ & _ & Hst)]; [exact E|].
    exfalso. apply Hfail. rewrite (Hst Hint), Hjson, andb_false_r. lia.
  - intros Hfail.
    destruct (deleteTask_effect req db) as [[E _]|(t & p & c & _ & _ & _ & _ & _ & Hst)];
      [exact E|].
    exfalso. apply Hfail. lia.
Qed.

(** *** The invariant of the store *)

Lemma NoDup_snoc {A : Type} (l : list A) (x : A) :
  NoDup l -> ~ In x l -> NoDup (l ++ [x]).
Proof.
  induction l as [|a l IH]; intros Hnd Hx; cbn.
  - constructor; [intros []|constructor].
  - inversion Hnd as [|? ? Ha Hl]; subst. constructor.
    + rewrite in_app_iff. intros [Hin|[->|[]]]; [auto|]. apply Hx. now left.
    + apply IH; [assumption|]. intros Hin. apply Hx. now right.
Qed.

Lemma NoDup_map_filter {R : Type} (key : R -> Z) (f : R -> bool) (l : list R) :
  NoDup (map key l) -> NoDup (map key (filter f l)).
Proof.
  induction l as [|a l IH]; intros Hnd; cbn; [constructor|].
  inversion Hnd as [|? ? Ha Hl]; subst. destruct (f a); [|auto]. cbn. constructor; [|auto].
  intros Hin. apply Ha. apply in_map_iff in Hin. destruct Hin as (y & Hy & Hin).
  apply filter_In in Hin. apply in_map_iff. exists y. tauto.
Qed.

Lemma fresh_key {R : Type} (key : R -> Z) (l : list R) (seq : Z) :
  (forall r, In r l -> key r <= seq) -> ~ In (seq + 1) (map key l).
Proof.
  intros Hseq Hin. apply in_map_iff in Hin. destruct Hin as (r & Hk & Hin).
  specialize (Hseq r Hin). lia.
Qed.

Lemma User_create_well_formed (name email password : JsVal) (role : string)
      (db db' : Db) (o : Outcome User) :
  User_create name email password role db = (o, db') ->
  well_formed db -> well_formed db'.
Proof.
  intros Hc Hwf. apply User_create_result in Hc.
  destruct o as [u|e]; [|now subst].
  destruct Hc as (-> & _ & Hid & _ & _ & Hmail). destruct Hwf.
  constructor; cbn [users projects tasks users_seq projects_seq tasks_seq set_users];
    auto.
  - rewrite map_app. cbn. apply NoDup_snoc; [assumption|]. rewrite Hid.
    now apply fresh_key.
  - rewrite map_app. cbn. apply NoDup_snoc; assumption.
  - intros x Hx. apply in_app_iff in Hx. destruct Hx as [Hx|[<-|[]]]; [|lia].
    specialize (wf_users_seq0 x Hx). lia.
  - intros q Hq. rewrite map_app, in_app_iff. left. auto.
  - intros t k Ht Hk. rewrite map_app, in_app_iff. left. eauto.
Qed.

Lemma Project_create_well_formed (name description status startDate endDate
                                  createdBy : JsVal) (db db' : Db)
      (o : Outcome Project) :
  Project_create name description status startDate endDate createdBy db = (o, db') ->
  well_formed db -> well_formed db'.
Proof.
  intros Hc Hwf. apply Project_create_result in Hc.
  destruct o as [p|e]; [|now subst].
  destruct Hc as (-> & _ & Hid & _ & _ & Hown). destruct Hwf.
  constructor;
    cbn [users projects tasks users_seq projects_seq tasks_seq set_projects]; auto.
  - rewrite map_app. cbn. apply NoDup_snoc; [assumption|]. rewrite Hid.
    now apply fresh_key.
  - intros x Hx. apply in_app_iff in Hx. destruct Hx as [Hx|[<-|[]]]; [|lia].
    specialize (wf_projects_seq0 x Hx). lia.
  - intros x Hx. apply in_app_iff in Hx. destruct Hx as [Hx|[<-|[]]]; auto.
  - intros t Ht. rewrite map_app, in_app_iff. left. auto.
Qed.

Lemma Task_create_well_formed (title description status priority dueDate projectId
                               assignedTo : JsVal) (db db' : Db) (o : Outcome Task) :
  Task_create title description status priority dueDate projectId assignedTo db
  = (o, db') ->
  well_formed db -> well_formed db'.
Proof.
  intros Hc Hwf. apply Task_create_result in Hc.
  destruct o as [t|e]; [|now subst].
  destruct Hc as (-> & _ & Hid & _ & Hparent & Hassignee). destruct Hwf.
  constructor;
    cbn [users projects tasks users_seq projects_seq tasks_seq set_tasks]; auto.
  - rewrite map_app. cbn. apply NoDup_snoc; [assumption|]. rewrite Hid.
    now apply fresh_key.
  - intros x Hx. apply in_app_iff in Hx. destruct Hx as [Hx|[<-|[]]]; [|lia].
    specialize (wf_tasks_seq0 x Hx). lia.
  - intros x Hx. apply in_app_iff in Hx. destruct Hx as [Hx|[<-|[]]]; auto.
  - intros x k Hx Hk. apply in_app_iff in Hx. destruct Hx as [Hx|[<-|[]]]; eauto.
Qed.

Lemma Project_save_well_formed (p : Project) (assigned : Obj) (db db' : Db)
      (o : Outcome Project) :
  Project_save p assigned db = (o, db') -> well_formed db -> well_formed db'.
Proof.
  intros Hs Hwf. apply Project_save_result in Hs.
  destruct o as [saved|e]; [|now subst].
  destruct Hs as [[_ ->]|(_ & changes & _ & _ & ->)]; [assumption|].
  set (write := fun q => if p_id q =? p_id p
                         then Project_touch (fold_left Project_assign changes q)
                         else q).
  assert (Hkeep : forall q, p_id (write q) = p_id q
                            /\ p_createdBy (write q) = p_createdBy q).
  { intros q. unfold write. destruct (p_id q =? p_id p); [|auto].
    destruct (Project_write_keeps changes q) as (A & B & _). auto. }
  assert (Hids : map p_id (map write (projects db)) = map p_id (projects db)).
  { rewrite map_map. apply map_ext. intros q. apply Hkeep. }
  destruct Hwf.
  constructor;
    cbn [users projects tasks users_seq projects_seq tasks_seq set_projects]; auto.
  - now rewrite Hids.
  - intros x Hx. apply in_map_iff in Hx. destruct Hx as (q & <- & Hq).
    destruct (Hkeep q) as [-> _]. auto.
  - intros x Hx. apply in_map_iff in Hx. destruct Hx as (q & <- & Hq).
    destruct (Hkeep q) as [_ ->]. auto.
  - intros t Ht. rewrite Hids. auto.
Qed.

Lemma Task_save_well_formed (t : Task) (assigned : Obj) (db db' : Db) (o : Outcome Task) :
  Task_save t assigned db = (o, db') -> well_formed db -> well_formed db'.
Proof.
  intros Hs Hwf. apply Task_save_result in Hs.
  destruct o as [saved|e]; [|now subst].
  destruct Hs as [[_ ->]|(_ & changes & assignee & _ & Hassignee & _ & ->)];
    [assumption|].
  set (write := fun q => if t_id q =? t_id t
                         then Task_touch (fold_left (Task_assign assignee) changes q)
                         else q).
  assert (Hkeep : forall q, t_id (write q) = t_id q
                            /\ t_projectId (write q) = t_projectId q
                            /\ (t_assignedTo (write q) = t_assignedTo q
                                \/ t_assignedTo (write q) = assignee)).
  { intros q. unfold write. destruct (t_id q =? t_id t); [|auto].
    destruct (Task_write_keeps assignee changes q) as (A & B & _ & D). auto. }
  assert (Hids : map t_id (map write (tasks db)) = map t_id (tasks db)).
  { rewrite map_map. apply map_ext. intros q. apply Hkeep. }
  destruct Hwf.
  constructor;
    cbn [users projects tasks users_seq projects_seq tasks_seq set_tasks]; auto.
  - now rewrite Hids.
  - intros x Hx. apply in_map_iff in Hx. destruct Hx as (q & <- & Hq).
    destruct (Hkeep q) as [-> _]. auto.
  - intros x Hx. apply in_map_iff in Hx. destruct Hx as (q & <- & Hq).
    destruct (Hkeep q) as (_ & -> & _). auto.
  - intros x k Hx Hk. apply in_map_iff in Hx. destruct Hx as (q & <- & Hq).
    destruct (Hkeep q) as (_ & _ & [E|E]); rewrite E in Hk; eauto.
Qed.

Lemma Task_destroy_well_formed (t : Task) (db db' : Db) (o : Outcome unit) :
  Task_destroy t db = (o, db') -> well_formed db -> well_formed db'.
Proof.
  intros Hd Hwf. apply Task_destroy_result in Hd.
  destruct o as [[]|e]; [|now subst]. destruct Hd as (_ & ->). destruct Hwf.
  constructor;
    cbn [users projects tasks users_seq projects_seq tasks_seq set_tasks]; auto.
  - now apply NoDup_map_filter.
  - intros x Hx. apply filter_In in Hx. apply wf_tasks_seq0. tauto.
  - intros x Hx. apply filter_In in Hx. apply wf_parent0. tauto.
  - intros x k Hx. apply filter_In in Hx. apply wf_assignee0. tauto.
Qed.

Lemma Project_destroy_well_formed (p : Project) (db db' : Db) (o : Outcome unit) :
  Project_destroy p db = (o, db') -> well_formed db -> well_formed db'.
Proof.
  intros Hd Hwf. apply Project_destroy_result in Hd.
  destruct o as [[]|e]; [|now subst]. destruct Hd as (_ & ->). destruct Hwf.
  constructor;
    cbn [users projects tasks users_seq projects_seq tasks_seq set_projects_tasks];
    auto.
  - now apply NoDup_map_filter.
  - now apply NoDup_map_filter.
  - intros x Hx. apply filter_In in Hx. apply wf_projects_seq0. tauto.
  - intros x Hx. apply filter_In in Hx. apply wf_tasks_seq0. tauto.
  - intros x Hx. apply filter_In in Hx. apply wf_creator0. tauto.
  - intros x Hx. apply filter_In in Hx. destruct Hx as [Hx Hkeep].
    specialize (wf_parent0 x Hx). apply in_map_iff in wf_parent0.
    destruct wf_parent0 as (q & Hq & Hin). apply in_map_iff. exists q.
    split; [assumption|]. apply filter_In. split; [assumption|]. now rewrite Hq.
  - intros x k Hx. apply filter_In in Hx. apply wf_assignee0. tauto.
Qed.

(** X14: the handlers keep the store well formed.  If keys are unique
    and below their sequences, e-mails are unique, and every creator,
    parent project and assignee is a stored row, then the same holds
    after any request to any of the seven handlers that write, whatever
    the request and whatever the answer. *)
Theorem handlers_keep_the_store_well_formed (req : Request) (db : Db) :
  well_formed db ->
  well_formed (snd (register req db))
  /\ well_formed (snd (createProject req db))
  /\ well_formed (snd (updateProject req db))
  /\ well_formed (snd (deleteProject req db))
  /\ well_formed (snd (createTask req db))
  /\ well_formed (snd (updateTask req db))
  /\ well_formed (snd (deleteTask req db)).
Proof.
  intros Hwf. split; [|split; [|split; [|split; [|split; [|split]]]]].
  - destruct (register_effect req db) as [[-> _]|(u & Hc & _)]; [assumption|].
    eapply User_create_well_formed; eassumption.
  - destruct (createProject_effect req db) as [[-> _]|(c & p & _ & Hc & _)];
      [assumption|].
    eapply Project_create_well_formed; eassumption.
  - destruct (updateProject_effect req db)
      as [[-> _]|(p & c & saved & _ & _ & _ & Hs & _)]; [assumption|].
    eapply Project_save_well_formed; eassumption.
  - destruct (deleteProject_effect req db) as [[-> _]|(p & c & _ & _ & _ & Hd & _)];
      [assumption|].
    eapply Project_destroy_well_formed; eassumption.
  - destruct (createTask_effect req db) as [[-> _]|(p & c & t & _ & _ & _ & Hc & _)];
      [assumption|].
    eapply Task_create_well_formed; eassumption.
  - destruct (updateTask_effect req db)
      as [[-> _]|(t & p & c & saved & _ & _ & _ & _ & Hs & _)]; [assumption|].
    eapply Task_save_well_formed; eassumption.
  - destruct (deleteTask_effect req db) as [[-> _]|(t & p & c & _ & _ & _ & _ & Hd & _)];
      [assumption|].
    eapply Task_destroy_well_formed; eassumption.
Qed.


(** *** Who may touch a project and its tasks *)

(** X15: the five handlers of a project refuse a caller who is neither
    its creator nor an administrator.  Each answers 403 and the store is
    as it was: reading the project, updating it, deleting it, listing
    its tasks and adding a task to it. *)
Theorem project_handlers_refuse_strangers (req : Request) (db : Db) (p : Project)
        (caller : ReqUser) :
  user req = Some caller ->
  p_createdBy p <> ru_id caller -> ru_role caller <> "admin" ->
  (fst (Project_findByPk (field (params req) "id") db) = Ok (Some p) ->
   getProjectById req db
   = (res_formatResponse req 403 JNull (JStr "No tiene permisos para ver este proyecto"),
      db)
   /\ updateProject req db
      = (res_formatResponse req 403 JNull
           (JStr "No tiene permisos para modificar este proyecto"), db)
   /\ deleteProject req db
      = (res_formatResponse req 403 JNull
           (JStr "No tiene permisos para eliminar este proyecto"), db))
  /\ (fst (Project_findByPk (field (params req) "projectId") db) = Ok (Some p) ->
      getProjectTasks req db
      = (res_formatResponse req 403 JNull
           (JStr "No tiene permisos para ver las tareas de este proyecto"), db)
      /\ (truthy (field (body req) "title") = true ->
          createTask req db
          = (res_formatResponse req 403 JNull
               (JStr "No tiene permisos para añadir tareas a este proyecto"), db))).
Proof.
  intros Hu Hown Hrole. pose proof (stranger p caller Hown Hrole) as Hno.
  split; intros Hf; apply Project_findByPk_outcome in Hf.
  - split; [|split].
    + unfold getProjectById, catching, getProjectById_try, bind.
      now rewrite Hf, Hu, Hno.
    + unfold updateProject, catching, updateProject_try, bind.
      now rewrite Hf, Hu, Hno.
    + unfold deleteProject, catching, deleteProject_try, bind.
      now rewrite Hf, Hu, Hno.
  - split.
    + unfold getProjectTasks, catching, getProjectTasks_try, bind.
      now rewrite Hf, Hu, Hno.
    + intros Ht. unfold createTask, catching, createTask_try, bind.
      rewrite Ht. cbn [negb]. now rewrite Hf, Hu, Hno.
Qed.

(** X16: a task is guarded by its project, not by its assignee.  A
    caller who is not the creator of the task's project and not an
    administrator gets 403 from reading, updating and deleting the
    task, even as the user the task is assigned to; the store is as it
    was. *)
Theorem task_handlers_ask_the_project (req : Request) (db : Db) (t : Task) (p : Project)
        (caller : ReqUser) :
  user req = Some caller ->
  fst (Task_findByPk (field (params req) "id") db) = Ok (Some t) ->
  fst (Project_findByPk (JNum (t_projectId t)) db) = Ok (Some p) ->
  p_createdBy p <> ru_id caller -> ru_role caller <> "admin" ->
  getTaskById req db
  = (res_formatResponse req 403 JNull (JStr "No tiene permisos para ver esta tarea"), db)
  /\ updateTask req db
     = (res_formatResponse req 403 JNull
          (JStr "No tiene permisos para modificar esta tarea"), db)
  /\ deleteTask req db
     = (res_formatResponse req 403 JNull
          (JStr "No tiene permisos para eliminar esta tarea"), db).
Proof.
  intros Hu Ht Hp Hown Hrole. pose proof (stranger p caller Hown Hrole) as Hno.
  apply findByPk_outcome in Ht. apply Project_findByPk_outcome in Hp.
  split; [|split].
  - unfold getTaskById, catching, getTaskById_try, bind. unfold Task_findByPk.
    rewrite Ht. cbn [snapshot]. now rewrite Hp, Hu, Hno.
  - unfold updateTask, catching, updateTask_try, bind. unfold Task_findByPk.
    rewrite Ht. now rewrite Hp, Hu, Hno.
  - unfold deleteTask, catching, deleteTask_try, bind. unfold Task_findByPk.
    rewrite Ht. now rewrite Hp, Hu, Hno.
Qed.

Lemma NoDup_map_inj {R : Type} (key : R -> Z) (l : list R) (x y : R) :
  NoDup (map key l) -> In x l -> In y l -> key x = key y -> x = y.
Proof.
  induction l as [|a l IH]; intros Hnd Hx Hy Hk; [contradiction|].
  inversion Hnd as [|? ? Ha Hl]; subst.
  destruct Hx as [->|Hx], Hy as [->|Hy]; auto.
  - exfalso. apply Ha. rewrite Hk. now apply in_map.
  - exfalso. apply Ha. rewrite <- Hk. now apply in_map.
Qed.

(** X17: [deleteTask] removes the task named and nothing else.  With
    unique task keys, a 200 means that the task found under the key is
    gone, every other task is still there, and users and projects are as
    they were. *)
Theorem deleteTask_removes_that_task (req : Request) (db : Db) :
  NoDup (map t_id (tasks db)) ->
  status (fst (deleteTask req db)) = 200 ->
  exists t,
    fst (Task_findByPk (field (params req) "id") db) = Ok (Some t)
    /\ In t (tasks db)
    /\ (forall x, In x (tasks (snd (deleteTask req db))) <-> In x (tasks db) /\ x <> t)
    /\ users (snd (deleteTask req db)) = users db
    /\ projects (snd (deleteTask req db)) = projects db.
Proof.
  intros Hnd Hst.
  destruct (deleteTask_effect req db) as [[_ Hfail]|(t & p & c & Hf & _ & _ & _ & Hd & _)];
    [exfalso; apply Hfail; lia|].
  apply Task_destroy_result in Hd. destruct Hd as (_ & ->).
  exists t. rewrite Hf. split; [reflexivity|].
  apply Task_findByPk_found in Hf. destruct Hf as (_ & _ & Hin).
  split; [assumption|]. split; [|split; reflexivity].
  intros x. cbn [tasks set_tasks]. rewrite filter_In, negb_true_iff, Z.eqb_neq.
  split; intros [Hx Hne]; (split; [assumption|]).
  - intros ->. now apply Hne.
  - intros Hk. apply Hne. now apply (NoDup_map_inj t_id (tasks db)).
Qed.

(** X18: [updateTask] asks for the new assignee before it writes.  For a
    caller allowed to update the task, an [assignedTo] that is truthy,
    differs from the one held and names no stored user is answered 404,
    and nothing is written, also not the other fields of the body. *)
Theorem updateTask_unknown_assignee (req : Request) (db : Db) (t : Task) (p : Project)
        (caller : ReqUser) :
  user req = Some caller ->
  fst (Task_findByPk (field (params req) "id") db) = Ok (Some t) ->
  fst (Project_findByPk (JNum (t_projectId t)) db) = Ok (Some p) ->
  p_createdBy p = ru_id caller \/ ru_role caller = "admin" ->
  truthy (field (body req) "assignedTo") = true ->
  same_value (field (body req) "assignedTo") (opt_num (t_assignedTo t)) = false ->
  fst (User_findByPk (field (body req) "assignedTo") db) = Ok None ->
  updateTask req db
  = (res_formatResponse req 404 JNull (JStr "Usuario asignado no encontrado"), db).
Proof.
  intros Hu Ht Hp Hown Htruthy Hdiff Hnone.
  apply findByPk_outcome in Ht. apply Project_findByPk_outcome in Hp.
  apply User_findByPk_outcome in Hnone.
  assert (Hyes : neither_owner_nor_admin p caller = false).
  { apply neither_false_owner_or_admin. now apply owner_or_admin_spec. }
  unfold updateTask, catching, updateTask_try, bind. unfold Task_findByPk.
  rewrite Ht, Hp, Hu, Hyes, Htruthy, Hdiff. cbn [negb andb]. now rewrite Hnone.
Qed.


(** X26: [updateTask] writes nothing but the editable columns of the one
    task.  Whatever the request, users and projects are as they were,
    and the tasks keep their order, keys, projects and creation times:
    no task moves to another project. *)
Theorem updateTask_keeps_identity_and_project (req : Request) (db : Db) :
  users (snd (updateTask req db)) = users db
  /\ projects (snd (updateTask req db)) = projects db
  /\ map t_id (tasks (snd (updateTask req db))) = map t_id (tasks db)
  /\ map t_projectId (tasks (snd (updateTask req db))) = map t_projectId (tasks db)
  /\ map t_createdAt (tasks (snd (updateTask req db))) = map t_createdAt (tasks db).
Proof.
  destruct (updateTask_effect req db)
    as [[-> _]|(t & p & c & saved & _ & _ & _ & _ & Hs & _)]; [repeat split; auto|].
  apply Task_save_result in Hs.
  destruct Hs as [[_ ->]|(_ & changes & assignee & _ & _ & _ & ->)];
    [repeat split; auto|].
  cbn [users tasks projects set_tasks]. rewrite !map_map.
  split; [reflexivity|]. split; [reflexivity|].
  split; [|split]; apply map_ext; intros q;
    (destruct (t_id q =? t_id t); [|reflexivity]);
    apply (Task_write_keeps assignee changes q).
Qed.


(** *** The labels an update may write *)

Lemma Task_assign_labels (statuses priorities : list string) (assignee : option Z)
      (q : Task) (kv : string * JsVal) :
  (fst kv = "status" -> In (toString (snd kv)) statuses) ->
  (fst kv = "priority" -> In (toString (snd kv)) priorities) ->
  (t_status (Task_assign assignee q kv) = t_status q
   \/ In (t_status (Task_assign assignee q kv)) statuses)
  /\ (t_priority (Task_assign assignee q kv) = t_priority q
      \/ In (t_priority (Task_assign assignee q kv)) priorities).
Proof.
  destruct kv as [k v]. unfold Task_assign. cbn [fst snd]. intros Hs Hp.
  destruct (k =? "title")%string; [auto|].
  destruct (k =? "description")%string; [auto|].
  destruct (k =? "status")%string eqn:Hk; [apply String.eqb_eq in Hk; auto|].
  destruct (k =? "priority")%string eqn:Hk'; [apply String.eqb_eq in Hk'; auto|].
  destruct (k =? "dueDate")%string; [auto|].
  destruct (k =? "assignedTo")%string; auto.
Qed.

Lemma Task_write_labels (statuses priorities : list string) (assignee : option Z)
      (changes : Obj) (q : Task) :
  (forall kv, In kv changes -> fst kv = "status" -> In (toString (snd kv)) statuses) ->
  (forall kv, In kv changes -> fst kv = "priority" ->
              In (toString (snd kv)) priorities) ->
  let q' := Task_touch (fold_left (Task_assign assignee) changes q) in
  (t_status q' = t_status q \/ In (t_status q') statuses)
  /\ (t_priority q' = t_priority q \/ In (t_priority q') priorities).
Proof.
  revert q. induction changes as [|kv changes IH]; intros q Hs Hp; [cbn; auto|].
  cbn [fold_left]. cbn zeta.
  destruct (IH (Task_assign assignee q kv)) as [A B];
    [intros ? ?; apply Hs; now right|intros ? ?; apply Hp; now right|].
  cbn zeta in A, B.
  destruct (Task_assign_labels statuses priorities assignee q kv) as [A' B'];
    [apply Hs; now left|apply Hp; now left|].
  split.
  - destruct A as [A|A]; [rewrite A; exact A'|now right].
  - destruct B as [B|B]; [rewrite B; exact B'|now right].
Qed.

Lemma updateTask_assigns_labels (req : Request) (kv : string * JsVal) :
  In kv (updateTask_assignments req) ->
  (fst kv = "status" -> In (toString (snd kv)) Task_status_values)
  /\ (fst kv = "priority" -> In (toString (snd kv)) Task_priority_values).
Proof.
  unfold updateTask_assignments. rewrite !in_app_iff.
  intros [Hin|[Hin|[Hin|[Hin|[Hin|Hin]]]]].
  - destruct (truthy _); [|contradiction]. destruct Hin as [<-|[]].
    split; discriminate.
  - destruct (field (body req) "description"); try contradiction;
      destruct Hin as [<-|[]]; split; discriminate.
  - destruct (truthy _ && includes _ _) eqn:Hc; [|contradiction].
    apply andb_prop in Hc. destruct Hc as [_ Hc]. apply includes_label in Hc.
    destruct Hc as (s & Hs & Hl). destruct Hin as [<-|[]]. cbn [fst snd].
    split; [|discriminate]. intros _. now rewrite Hs.
  - destruct (truthy _ && includes _ _) eqn:Hc; [|contradiction].
    apply andb_prop in Hc. destruct Hc as [_ Hc]. apply includes_label in Hc.
    destruct Hc as (s & Hs & Hl). destruct Hin as [<-|[]]. cbn [fst snd].
    split; [discriminate|]. intros _. now rewrite Hs.
  - destruct (field (body req) "dueDate"); try contradiction;
      destruct Hin as [<-|[]]; split; discriminate.
  - destruct (field (body req) "assignedTo"); try contradiction;
      destruct Hin as [<-|[]]; split; discriminate.
Qed.

(** X19: an update writes no label outside the declared ones.  If every
    stored project has one of the three statuses, so it is after
    [updateProject]; if every stored task has one of the four statuses
    and one of the three priorities, so it is after [updateTask];
    whatever the body asks for. *)
Theorem updates_keep_the_declared_labels (req : Request) (db : Db) :
  Forall (fun q => In (p_status q) Project_status_values) (projects db) ->
  Forall (fun t => In (t_status t) Task_status_values
                   /\ In (t_priority t) Task_priority_values) (tasks db) ->
  Forall (fun q => In (p_status q) Project_status_values)
         (projects (snd (updateProject req db)))
  /\ Forall (fun t => In (t_status t) Task_status_values
                      /\ In (t_priority t) Task_priority_values)
            (tasks (snd (updateTask req db))).
Proof.
  intros Hps Hts. rewrite Forall_forall in Hps, Hts. split; apply Forall_forall.
  - intros q' Hq'.
    destruct (updateProject_status_labels req db q' Hq') as [E|(q & Hq & _ & E)];
      [exact E|].
    rewrite <- E. auto.
  - destruct (updateTask_effect req db)
      as [[-> _]|(t & p & c & saved & _ & _ & _ & _ & Hs & _)]; [exact Hts|].
    apply Task_save_result in Hs.
    destruct Hs as [[_ ->]|(_ & changes & assignee & Hch & _ & _ & ->)]; [exact Hts|].
    cbn [tasks set_tasks]. intros x Hx. apply in_map_iff in Hx.
    destruct Hx as (q & <- & Hq). destruct (t_id q =? t_id t); [|auto].
    destruct (Task_write_labels Task_status_values Task_priority_values assignee
                changes q) as [A B].
    + intros kv Hkv. apply (updateTask_assigns_labels req).
      subst changes. unfold changed in Hkv. apply filter_In in Hkv. tauto.
    + intros kv Hkv. apply (updateTask_assigns_labels req).
      subst changes. unfold changed in Hkv. apply filter_In in Hkv. tauto.
    + cbn zeta in A, B. destruct (Hts q Hq) as [S P]. split.
      * destruct A as [A|A]; [now rewrite A|exact A].
      * destruct B as [B|B]; [now rewrite B|exact B].
Qed.

(** *** A created task is listed *)

Lemma findByPk_reads_its_table {R : Type} (table : Db -> list R) (values : R -> Obj)
      (v : JsVal) (db db' : Db) :
  table db' = table db -> online db' = online db ->
  fst (findByPk table values v db') = fst (findByPk table values v db).
Proof.
  intros Ht Ho. unfold findByPk, findOne, bind, select.
  destruct v; try reflexivity;
    (destruct (whereItemsQuery _); [|reflexivity]);
    rewrite Ho, Ht; destruct (online db); reflexivity.
Qed.

(** X20: a task that was created is listed.  After a 201 of
    [createTask], [getProjectTasks] for the same project and caller,
    without filters and asked for in JSON, answers 200, writes nothing,
    and its list holds a row with the new key, the project of the path
    and, when the title of the body is a text, that title. *)
Theorem created_task_is_listed (req req2 : Request) (db : Db) :
  status (fst (createTask req db)) = 201 ->
  user req2 = user req ->
  field (params req2) "projectId" = field (params req) "projectId" ->
  truthy (field (query req2) "status") = false ->
  truthy (field (query req2) "priority") = false ->
  truthy (field (query req2) "assignedTo") = false ->
  is_str "xml" (format_of req2) = false ->
  let listing := fst (getProjectTasks req2 (snd (createTask req db))) in
  status listing = 200
  /\ snd (getProjectTasks req2 (snd (createTask req db))) = snd (createTask req db)
  /\ In (JNum (tasks_seq db + 1)) (listed "id" listing)
  /\ exists rows row k,
       json_data listing = JArr rows /\ In row rows
       /\ prop row "id" = JNum (tasks_seq db + 1)
       /\ to_integer (field (params req) "projectId") = Some k
       /\ prop row "projectId" = JNum k
       /\ (forall s, field (body req) "title" = JStr s -> prop row "title" = JStr s).
Proof.
  intros Hst Hsame Hpid Hqs Hqp Hqa Hjson listing. subst listing.
  destruct (createTask_effect req db)
    as [[_ Hfail]|(p & caller & t & Hf & Hu & Hperm & Hc & _)];
    [exfalso; apply Hfail; lia|].
  pose proof Hc as Hres. apply Task_create_result in Hres.
  destruct Hres as (Hdb & Hon & Hid & Hparent & _).
  set (db' := snd (createTask req db)) in *.
  assert (Hf' : fst (Project_findByPk (field (params req2) "projectId") db')
                = Ok (Some p)).
  { unfold Project_findByPk.
    rewrite (@findByPk_reads_its_table _ projects Project_values _ db db');
      [rewrite Hpid; unfold Project_findByPk in Hf; now rewrite Hf
      |now rewrite Hdb|now rewrite Hdb]. }
  destruct (@getProjectTasks_listing _ req2 db' caller p) as (rows & Hlist & _ & Hrows);
    try assumption; [congruence| |].
  { apply neither_false_owner_or_admin in Hperm. now apply owner_or_admin_spec. }
  assert (Hin : In t rows).
  { apply Hrows. split.
    - rewrite Hdb. cbn. apply in_or_app. right. now left.
    - unfold key_is. rewrite Hpid, Hparent. apply Z.eqb_refl. }
  assert (Htitle : t_title t = toString (field (body req) "title")).
  { unfold Task_create in Hc.
    destruct (_ ++ _)%list in Hc; [|discriminate].
    destruct (online db); [|discriminate]. cbn [negb] in Hc.
    destruct (foreign_key _ (field (params req) "projectId")) as [[pid|]|];
      try discriminate.
    destruct (foreign_key _ (field (body req) "assignedTo")); [|discriminate].
    now injection Hc as <- _. }
  rewrite Hlist. cbn [fst snd]. rewrite status_res_formatResponse.
  split; [reflexivity|]. split; [reflexivity|].
  assert (Hdata : json_data (res_formatResponse req2 200
                               (JArr (map (Task_with_assignee db') rows))
                               (JStr "Tareas obtenidas correctamente"))
                  = JArr (map (Task_with_assignee db') rows))
    by (now rewrite json_data_res_formatResponse).
  split.
  - unfold listed. unfold json_data in Hdata.
    destruct (sent (res_formatResponse req2 200 _ _)) as [e|x]; [|discriminate Hdata].
    rewrite Hdata. apply in_map_iff. exists (Task_with_assignee db' t).
    split; [cbn; now rewrite Hid|]. now apply in_map.
  - exists (map (Task_with_assignee db') rows), (Task_with_assignee db' t),
           (t_projectId t).
    split; [exact Hdata|]. split; [now apply in_map|].
    split; [cbn; now rewrite Hid|]. split; [exact Hparent|]. split; [reflexivity|].
    intros s Hs. cbn. now rewrite Htitle, Hs.
Qed.

End Tasks.
End TaskFacts.

(** ** What the answers carry, and the routes *)

Module AnswerFacts.
Import GateFacts HandlerFacts LookupFacts GateSoundness WriteFacts ProjectFacts TaskFacts.

Section Answers.
Context `{Collaborators} `{PasswordCheck}.

Lemma keyless_formatted (k : string) (req : Request) (code : Z) (d m : JsVal) :
  has_key k d = false -> has_key k (json_data (res_formatResponse req code d m)) = false.
Proof.
  intros Hd. unfold res_formatResponse, formatResponse, json_data.
  destruct (is_str "xml" _); [reflexivity|]. cbn. unfold or_else.
  now destruct (truthy d).
Qed.

Lemma keyless_validation_or_500 (k : string) (req : Request) (names : list string)
      (fallback : string) (e : JsError) :
  has_key k (json_data (validation_or_500 req names fallback e)) = false.
Proof.
  unfold validation_or_500. destruct (existsb _ names); now apply keyless_formatted.
Qed.

Lemma keyless_app (k : string) (l l' : Obj) :
  has_key k (JObj (l ++ l')) = has_key k (JObj l) || has_key k (JObj l').
Proof. cbn. apply existsb_app. Qed.

Lemma keyless_cons (k a : string) (v : JsVal) (l : Obj) :
  has_key k (JObj ((a, v) :: l)) = (a =? k)%string || has_key k v || has_key k (JObj l).
Proof. reflexivity. Qed.

Lemma keyless_map {A : Type} (k : string) (f : A -> JsVal) (l : list A) :
  (forall x, has_key k (f x) = false) -> has_key k (JArr (map f l)) = false.
Proof.
  intros Hf. cbn. induction l as [|a l IH]; [reflexivity|]. cbn. now rewrite Hf, IH.
Qed.

Lemma keyless_Date_toJSON (k : string) (v : JsVal) :
  has_key k (Date_toJSON v) = has_key k v.
Proof. destruct v; try reflexivity. cbn. now destruct (date_json s). Qed.

Lemma keyless_toJSON (k : string) (o : Obj) :
  has_key k (JObj (toJSON o)) = has_key k (JObj o).
Proof.
  unfold toJSON. cbn [has_key]. induction o as [|[a v] o IH]; [reflexivity|].
  cbn [map existsb]. destruct (is_column date_columns (fst (a, v))); cbn [fst snd];
    rewrite ?keyless_Date_toJSON; now rewrite IH.
Qed.

Lemma falsy_keyless (k : string) (v : JsVal) : truthy v = false -> has_key k v = false.
Proof. destruct v; try reflexivity; discriminate. Qed.

Lemma keyless_Date_set (k : string) (v : JsVal) : has_key k (Date_set v) = false.
Proof.
  unfold Date_set. destruct (truthy v) eqn:Hv; [|now apply falsy_keyless].
  cbn. now destruct (date_json _).
Qed.

Lemma keyless_defined (k : string) (o : Obj) :
  has_key k (JObj o) = false -> has_key k (JObj (defined o)) = false.
Proof.
  unfold defined. cbn [has_key]. induction o as [|[a v] o IH]; [reflexivity|].
  cbn [existsb filter fst snd]. intros Hk. apply orb_false_iff in Hk.
  destruct Hk as [Hav Ho]. destruct v; cbn [existsb fst snd]; rewrite ?Hav; auto.
Qed.

(** A value that passed the validation of a text attribute is no array
    and no object. *)
Lemma validated_keyless (k model attr : string) (allowNull : bool)
      (checks : list (string * (string -> bool))) (v : JsVal) :
  validate_attr model attr allowNull checks v = [] -> has_key k v = false.
Proof. destruct v; try reflexivity; discriminate. Qed.

Lemma same_value_keyless (k : string) (a b : JsVal) :
  same_value a b = true -> has_key k a = false.
Proof. destruct a; try reflexivity; destruct b; discriminate. Qed.

Lemma field_In (o : Obj) (a : string) :
  field o a = JUndefined \/ In (a, field o a) o.
Proof.
  induction o as [|[a' v] o IH]; [now left|]. cbn [field].
  destruct (a' =? a)%string eqn:E.
  - right. left. apply String.eqb_eq in E. now subst.
  - destruct IH as [IH|IH]; [now left|right; now right].
Qed.

Lemma keyless_assign_values (k : string) (assigned values : Obj) :
  has_key k (JObj values) = false ->
  (forall a v, In (a, v) assigned -> is_column date_columns a = false ->
               has_key k v = false) ->
  has_key k (JObj (assign_values assigned values)) = false.
Proof.
  intros Hvalues Hassigned. unfold assign_values. cbn [has_key] in *.
  induction values as [|[a v] values IH]; [reflexivity|].
  cbn [existsb map fst snd] in *. apply orb_false_iff in Hvalues.
  destruct Hvalues as [Hav Hrest]. apply orb_false_iff in Hav. destruct Hav as [Ha Hv].
  rewrite (IH Hrest), orb_false_r.
  destruct (field_In assigned a) as [E|Hin]; [rewrite E; cbn; now rewrite Ha, Hv|].
  assert (Hgiven : has_key k (if is_column date_columns a
                              then Date_set (field assigned a)
                              else field assigned a) = false).
  { destruct (is_column date_columns a) eqn:Hd; [apply keyless_Date_set|].
    now apply (Hassigned a). }
  destruct (field assigned a); cbn [fst snd]; rewrite ?Ha, ?Hv, ?Hgiven; reflexivity.
Qed.

Lemma keyless_Project_values (p : Project) :
  has_key "password" (JObj (Project_values p)) = false.
Proof. cbn. now destruct (p_description p), (p_endDate p). Qed.

Lemma keyless_Task_values (t : Task) :
  has_key "password" (JObj (Task_values t)) = false.
Proof. cbn. now destruct (t_description t), (t_dueDate t), (t_assignedTo t). Qed.

Lemma keyless_include_user (u : option User) :
  has_key "password" (include_user u) = false.
Proof. now destruct u. Qed.

Lemma keyless_profile (u : User) :
  has_key "password" (JObj (exclude ["password"] (toJSON (User_values u)))) = false.
Proof. cbn. now destruct (date_json (u_createdAt u)), (date_json (u_updatedAt u)). Qed.

Lemma keyless_Task_with_assignee (db : Db) (t : Task) :
  has_key "password" (Task_with_assignee db t) = false.
Proof.
  unfold Task_with_assignee.
  now rewrite keyless_app, keyless_toJSON, keyless_Task_values, !keyless_cons,
    keyless_include_user.
Qed.

Lemma keyless_Project_with_includes (db : Db) (p : Project) :
  has_key "password" (Project_with_includes db p) = false.
Proof.
  unfold Project_with_includes.
  rewrite keyless_app, keyless_toJSON, keyless_Project_values, !keyless_cons,
    keyless_include_user.
  rewrite (keyless_map "password"
             (fun t => JObj (pick ["id"; "title"; "status"] (Task_values t))));
    reflexivity.
Qed.

Lemma keyless_Project_with_tasks (db : Db) (p : Project) :
  has_key "password" (Project_with_tasks db p) = false.
Proof.
  unfold Project_with_tasks.
  rewrite keyless_app, keyless_toJSON, keyless_Project_values, !keyless_cons,
    keyless_include_user.
  rewrite (keyless_map "password" (Task_with_assignee db));
    [reflexivity|apply keyless_Task_with_assignee].
Qed.

Lemma keyless_Task_with_project (db : Db) (t : Task) :
  has_key "password" (Task_with_project db t) = false.
Proof.
  unfold Task_with_project.
  rewrite keyless_app, keyless_toJSON, keyless_Task_values, !keyless_cons,
    keyless_include_user.
  destruct (find _ (projects db)) as [p|]; [|reflexivity].
  now rewrite keyless_toJSON, keyless_Project_values.
Qed.


Ltac keyless_leaf :=
  lazymatch goal with
  | |- has_key _ (JObj (exclude _ (toJSON (User_values _)))) = false =>
      apply keyless_profile
  | |- has_key _ (JObj (Project_values _)) = false => apply keyless_Project_values
  | |- has_key _ (JObj (Task_values _)) = false => apply keyless_Task_values
  | |- has_key _ (Task_with_assignee _ _) = false => apply keyless_Task_with_assignee
  | |- has_key _ (Task_with_project _ _) = false => apply keyless_Task_with_project
  | |- has_key _ (Project_with_tasks _ _) = false => apply keyless_Project_with_tasks
  | |- has_key _ (JArr (map (Project_with_includes _) _)) = false =>
      apply keyless_map; apply keyless_Project_with_includes
  | |- has_key _ (JArr (map (Task_with_assignee _) _)) = false =>
      apply keyless_map; apply keyless_Task_with_assignee
  | |- _ => first [assumption|reflexivity]
  end.

Lemma answers_ret {A : Type} (P : A -> Prop) (a : A) :
  P a -> answers_with P (ret a).
Proof. intros Ha db. exact Ha. Qed.

Lemma answers_throw {A : Type} (P : A -> Prop) (e : JsError) :
  answers_with P (throw e).
Proof. intros db. exact I. Qed.

Lemma answers_bind {A B : Type} (Q : A -> Prop) (P : B -> Prop) (m : Async A)
      (k : A -> Async B) :
  answers_with Q m -> (forall a, Q a -> answers_with P (k a)) ->
  answers_with P (bind m k).
Proof.
  intros Hm Hk db. unfold bind. specialize (Hm db).
  destruct (m db) as [[a|e] db1]; [|exact I]. cbn in Hm. exact (Hk a Hm db1).
Qed.

Lemma answers_anything {A : Type} (m : Async A) : answers_with (fun _ => True) m.
Proof. intros db. now destruct (fst (m db)). Qed.

Lemma answers_instance (k : string) (req : Request) (code : Z) (included : bool)
      (json message : JsVal) :
  has_key k json = false ->
  answers_with (fun r => has_key k (json_data r) = false)
               (res_formatInstance req code included json message).
Proof.
  intros Hk db. unfold res_formatInstance.
  destruct (is_str "xml" (format_of req)); [destruct included; [exact I|reflexivity]|].
  now apply keyless_formatted.
Qed.

Lemma answers_instances (k : string) (req : Request) (code : Z) (rows : list JsVal)
      (message : JsVal) :
  has_key k (JArr rows) = false ->
  answers_with (fun r => has_key k (json_data r) = false)
               (res_formatInstances req code rows message).
Proof.
  intros Hk db.
  destruct (res_formatInstances_outcome req code rows message db) as [->|[-> _]];
    [|exact I].
  now apply keyless_formatted.
Qed.

Lemma answers_caught (P : HttpResponse -> Prop) (m : Async HttpResponse)
      (h : JsError -> HttpResponse) (db : Db) :
  answers_with P m -> (forall e, P (h e)) -> P (fst (catching m h db)).
Proof.
  intros Hm Hh. specialize (Hm db). unfold catching.
  destruct (m db) as [[r|e] db1]; [exact Hm|apply Hh].
Qed.

Ltac answers :=
  cbn zeta;
  repeat first
    [ apply answers_throw
    | apply answers_ret; first [apply keyless_formatted; keyless_leaf|keyless_leaf]
    | apply answers_instance; keyless_leaf
    | apply answers_instances; keyless_leaf
    | match goal with
      | |- answers_with _ (match ?x with _ => _ end) => destruct x
      | |- answers_with _ (@bind JsVal _ _ _) =>
          apply (@answers_bind _ _ (fun d => has_key "password" d = false));
          [|intros ? ?]
      | |- answers_with _ (bind _ _) =>
          apply (@answers_bind _ _ (fun _ => True)); [apply answers_anything|intros ? _]
      end ].

(** *** What a successful write tells about the values written *)

Lemma filter_nil_In {A : Type} (f : A -> bool) (l : list A) (x : A) :
  filter f l = [] -> In x l -> f x = false.
Proof.
  induction l as [|a l IH]; [contradiction|]. cbn [filter].
  destruct (f a) eqn:Hfa; [discriminate|]. intros Hnil [<-|Hin]; auto.
Qed.

Lemma flat_map_nil_In {A B : Type} (f : A -> list B) (l : list A) (x : A) :
  flat_map f l = [] -> In x l -> f x = [].
Proof.
  induction l as [|a l IH]; [contradiction|]. cbn [flat_map]. intros Hnil.
  apply app_eq_nil in Hnil. destruct Hnil as [Ha Hl]. intros [<-|Hin]; auto.
Qed.

(** An assigned value that [save] accepts for an attribute that is no
    date was validated, or is the value held. *)
Lemma saved_value_keyless (validate : string * JsVal -> list string)
      (values assigned : Obj) (k a : string) (v : JsVal) :
  flat_map validate (changed values assigned) = [] ->
  In (a, v) assigned -> is_column date_columns a = false ->
  (validate (a, v) = [] -> has_key k v = false) ->
  has_key k v = false.
Proof.
  intros Hvalid Hin Hdate Hvalidated.
  destruct (same_value v (field values a)) eqn:Hsame;
    [now apply same_value_keyless with (b := field values a)|].
  apply Hvalidated. apply (flat_map_nil_In _ _ _ Hvalid).
  unfold changed. apply filter_In. split; [exact Hin|].
  cbn [fst snd]. now rewrite Hdate, Hsame.
Qed.

Lemma answers_User_create (k : string) (name email password : JsVal) (role : string) :
  answers_with (fun _ => has_key k name = false /\ has_key k email = false)
               (User_create name email password role).
Proof.
  intros db. unfold User_create.
  destruct (_ ++ _)%list eqn:He; [|exact I].
  apply app_eq_nil in He. destruct He as [Hn He].
  apply app_eq_nil in He. destruct He as [He _].
  destruct (negb (online db)); [exact I|].
  destruct (existsb _ (users db)); [exact I|]. cbn [fst].
  split; eapply validated_keyless; eassumption.
Qed.

Lemma answers_Project_create (k : string)
      (name description status startDate endDate createdBy : JsVal) :
  answers_with (fun _ => has_key k name = false /\ has_key k description = false)
               (Project_create name description status startDate endDate createdBy).
Proof.
  intros db. unfold Project_create.
  destruct (_ ++ _)%list eqn:He; [|exact I].
  apply app_eq_nil in He. destruct He as [Hn He].
  apply app_eq_nil in He. destruct He as [Hd _].
  destruct (negb (online db)); [exact I|].
  destruct (foreign_key _ createdBy) as [[owner|]|e]; try exact I. cbn [fst].
  split; eapply validated_keyless; eassumption.
Qed.

Lemma answers_Task_create (k : string)
      (title description status priority dueDate projectId assignedTo : JsVal) :
  answers_with (fun _ => has_key k title = false /\ has_key k description = false)
               (Task_create title description status priority dueDate projectId
                            assignedTo).
Proof.
  intros db. unfold Task_create.
  destruct (_ ++ _)%list eqn:He; [|exact I].
  apply app_eq_nil in He. destruct He as [Hn He].
  apply app_eq_nil in He. destruct He as [Hd _].
  destruct (negb (online db)); [exact I|].
  destruct (foreign_key _ projectId) as [[pid|]|e]; try exact I.
  destruct (foreign_key _ assignedTo) as [assignee|e]; try exact I. cbn [fst].
  split; eapply validated_keyless; eassumption.
Qed.

Lemma answers_Project_save (k : string) (p : Project) (assigned : Obj) :
  answers_with (fun _ => forall a v, In (a, v) assigned ->
                                     a = "name" \/ a = "description" ->
                                     has_key k v = false)
               (Project_save p assigned).
Proof.
  intros db. unfold Project_save.
  assert (Hall : flat_map Project_validate (changed (Project_values p) assigned) = [] ->
                 forall a v, In (a, v) assigned -> a = "name" \/ a = "description" ->
                             has_key k v = false).
  { intros Hvalid a v Hin Ha.
    apply (saved_value_keyless Project_validate (Project_values p) assigned k a v);
      try assumption.
    - destruct Ha as [-> | ->]; reflexivity.
    - destruct Ha as [-> | ->]; cbn; apply validated_keyless. }
  destruct (changed (Project_values p) assigned) as [|c cs];
    [cbn [ret fst]; now apply Hall|].
  destruct (flat_map Project_validate (c :: cs)) eqn:Hvalid; [|exact I].
  destruct (negb (online db)); [exact I|]. cbn [fst]. now apply Hall.
Qed.

Lemma answers_Task_save (k : string) (t : Task) (assigned : Obj) :
  answers_with (fun _ => forall a v, In (a, v) assigned ->
                                     a = "title" \/ a = "description" ->
                                     has_key k v = false)
               (Task_save t assigned).
Proof.
  intros db. unfold Task_save.
  assert (Hall : flat_map Task_validate (changed (Task_values t) assigned) = [] ->
                 forall a v, In (a, v) assigned -> a = "title" \/ a = "description" ->
                             has_key k v = false).
  { intros Hvalid a v Hin Ha.
    apply (saved_value_keyless Task_validate (Task_values t) assigned k a v);
      try assumption.
    - destruct Ha as [-> | ->]; reflexivity.
    - destruct Ha as [-> | ->]; cbn; apply validated_keyless. }
  destruct (changed (Task_values t) assigned) as [|c cs];
    [cbn [ret fst]; now apply Hall|].
  destruct (flat_map Task_validate (c :: cs)) eqn:Hvalid; [|exact I].
  destruct (negb (online db)); [exact I|].
  destruct (foreign_key _ _) as [assignee|e]; [|exact I]. cbn [fst]. now apply Hall.
Qed.

(** A key that names a row is a number or a text. *)
Lemma answers_found {R : Type} (k : string) (table : Db -> list R) (values : R -> Obj)
      (v : JsVal) :
  answers_with (fun found : option R => found <> None -> has_key k v = false)
               (findByPk table values v).
Proof.
  intros db. destruct v; cbn [findByPk];
    try exact I; try (cbn; intros Hfound; now contradiction Hfound);
    destruct (fst (findOne _ _ _ db)); try exact I; reflexivity.
Qed.

Lemma keyless_or_else (k : string) (a b : JsVal) :
  has_key k a = false -> has_key k b = false -> has_key k (or_else a b) = false.
Proof. intros Ha Hb. unfold or_else. now destruct (truthy a). Qed.

Ltac caught :=
  apply answers_caught;
  [|intros; first [apply keyless_validation_or_500
                  |apply keyless_formatted; reflexivity]].

Lemma register_keyless (req : Request) (db : Db) :
  has_key "password" (json_data (fst (register req db))) = false.
Proof.
  unfold register. caught. unfold register_try. cbn zeta.
  apply (@answers_bind _ _ (fun _ => True)); [apply answers_anything|intros found _].
  destruct found; [answers|].
  destruct (negb (passwordRegex _)); [answers|].
  apply (@answers_bind _ _
           (fun _ => has_key "password" (field (body req) "name") = false
                     /\ has_key "password" (field (body req) "email") = false));
    [apply answers_User_create|intros created [Hname Hemail]].
  apply answers_ret. apply keyless_formatted. rewrite !keyless_cons, Hname, Hemail.
  unfold Date_in. destruct (is_str "xml" (format_of req)); [reflexivity|].
  now rewrite keyless_Date_set.
Qed.

Lemma updateProject_keyless (req : Request) (db : Db) :
  has_key "password" (json_data (fst (updateProject req db))) = false.
Proof.
  unfold updateProject. caught. unfold updateProject_try. cbn zeta.
  apply (@answers_bind _ _ (fun _ => True)); [apply answers_anything|intros found _].
  destruct found as [p|]; [|answers].
  destruct (user req) as [caller|]; [|answers].
  destruct (neither_owner_nor_admin p caller); [answers|].
  apply (@answers_bind _ _
           (fun _ => forall a v, In (a, v) (updateProject_assignments req) ->
                                 a = "name" \/ a = "description" ->
                                 has_key "password" v = false));
    [apply answers_Project_save|intros saved Hsaved].
  apply answers_instance. apply keyless_assign_values;
    [rewrite keyless_toJSON; apply keyless_Project_values|].
  intros a v Hin Hdate. pose proof Hin as Hin0.
  unfold updateProject_assignments in Hin. rewrite !in_app_iff in Hin.
  destruct Hin as [Hin|[Hin|[Hin|[Hin|Hin]]]].
  - destruct (truthy _); [|contradiction]. destruct Hin as [E|[]].
    injection E as <- <-. apply (Hsaved _ _ Hin0). now left.
  - destruct (field (body req) "description") eqn:Hd; try contradiction;
      destruct Hin as [E|[]]; injection E as <- <-; apply (Hsaved _ _ Hin0); now right.
  - destruct (truthy _ && includes _ _) eqn:Hc; [|contradiction].
    apply andb_prop in Hc. destruct Hc as [_ Hc]. apply includes_label in Hc.
    destruct Hc as (s & Hs & _). destruct Hin as [E|[]]. injection E as <- <-.
    now rewrite Hs.
  - destruct (truthy _); [|contradiction]. destruct Hin as [E|[]].
    injection E as <- <-. discriminate Hdate.
  - destruct (field (body req) "endDate") eqn:Hd; try contradiction;
      destruct Hin as [E|[]]; injection E as <- <-; discriminate Hdate.
Qed.

Lemma updateTask_keyless (req : Request) (db : Db) :
  has_key "password" (json_data (fst (updateTask req db))) = false.
Proof.
  unfold updateTask. caught. unfold updateTask_try. cbn zeta.
  apply (@answers_bind _ _ (fun _ => True)); [apply answers_anything|intros found _].
  destruct found as [t|]; [|answers].
  apply (@answers_bind _ _ (fun _ => True)); [apply answers_anything|intros parent _].
  destruct parent as [p|]; [|answers].
  destruct (user req) as [caller|]; [|answers].
  destruct (neither_owner_nor_admin p caller); [answers|].
  apply (@answers_bind _ _ (fun _ => True)); [apply answers_anything|intros assignee _].
  assert (Hwrite :
    answers_with (fun r => has_key "password" (json_data r) = false)
      (saved <- Task_save t (updateTask_assignments req) ;;
       if truthy (match field (body req) "assignedTo" with
                  | JUndefined => opt_num (t_assignedTo t)
                  | _ => field (body req) "assignedTo"
                  end)
       then
         t' <- Task_reload saved ;;
         db <- snapshot ;;
         res_formatInstance req 200 true (Task_with_assignee db t')
                            (JStr "Tarea actualizada correctamente")
       else
         res_formatInstance req 200 false
           (JObj (assign_values (updateTask_assignments req)
                                (toJSON (Task_values saved))))
           (JStr "Tarea actualizada correctamente"))%async).
  { apply (@answers_bind _ _
             (fun _ => forall a v, In (a, v) (updateTask_assignments req) ->
                                   a = "title" \/ a = "description" ->
                                   has_key "password" v = false));
      [apply answers_Task_save|intros saved Hsaved].
    destruct (truthy (match field (body req) "assignedTo" with
                      | JUndefined => opt_num (t_assignedTo t)
                      | _ => field (body req) "assignedTo"
                      end)) eqn:Hheld; [answers|].
    apply answers_instance. apply keyless_assign_values;
      [rewrite keyless_toJSON; apply keyless_Task_values|].
    intros a v Hin Hdate. pose proof Hin as Hin0.
    unfold updateTask_assignments in Hin. rewrite !in_app_iff in Hin.
    destruct Hin as [Hin|[Hin|[Hin|[Hin|[Hin|Hin]]]]].
    - destruct (truthy (field (body req) "title")); [|contradiction].
      destruct Hin as [E|[]].
      injection E as <- <-. apply (Hsaved _ _ Hin0). now left.
    - destruct (field (body req) "description") eqn:Hd; try contradiction;
        destruct Hin as [E|[]]; injection E as <- <-; apply (Hsaved _ _ Hin0);
        now right.
    - destruct (truthy _ && includes _ _) eqn:Hc; [|contradiction].
      apply andb_prop in Hc. destruct Hc as [_ Hc]. apply includes_label in Hc.
      destruct Hc as (s & Hs & _). destruct Hin as [E|[]]. injection E as <- <-.
      now rewrite Hs.
    - destruct (truthy _ && includes _ _) eqn:Hc; [|contradiction].
      apply andb_prop in Hc. destruct Hc as [_ Hc]. apply includes_label in Hc.
      destruct Hc as (s & Hs & _). destruct Hin as [E|[]]. injection E as <- <-.
      now rewrite Hs.
    - destruct (field (body req) "dueDate") eqn:Hd; try contradiction;
        destruct Hin as [E|[]]; injection E as <- <-; discriminate Hdate.
    - destruct (field (body req) "assignedTo") eqn:Hd; try contradiction;
        destruct Hin as [E|[]]; injection E as <- <-; now apply falsy_keyless. }
  destruct (truthy (field (body req) "assignedTo")
            && negb (same_value (field (body req) "assignedTo")
                                (opt_num (t_assignedTo t))));
    [destruct assignee; [exact Hwrite|answers]|exact Hwrite].
Qed.

Lemma createProject_keyless (req : Request) (db : Db) :
  has_key "password" (field (body req) "status") = false ->
  has_key "password" (json_data (fst (createProject req db))) = false.
Proof.
  intros Hstatus. unfold createProject. caught. unfold createProject_try. cbn zeta.
  destruct (negb (truthy (field (body req) "name"))); [answers|].
  destruct (user req) as [caller|]; [|answers].
  apply (@answers_bind _ _
           (fun _ => has_key "password" (field (body req) "name") = false
                     /\ has_key "password" (field (body req) "description") = false));
    [apply answers_Project_create|intros created [Hname Hdescription]].
  apply answers_instance. unfold Project_created. apply keyless_defined.
  rewrite !keyless_cons, Hname, Hdescription, !keyless_Date_set.
  now rewrite (keyless_or_else "password" _ (JStr "active") Hstatus eq_refl).
Qed.

Lemma createTask_keyless (req : Request) (db : Db) :
  has_key "password" (field (body req) "status") = false ->
  has_key "password" (field (body req) "priority") = false ->
  has_key "password" (json_data (fst (createTask req db))) = false.
Proof.
  intros Hstatus Hpriority. unfold createTask. caught. unfold createTask_try. cbn zeta.
  destruct (negb (truthy (field (body req) "title"))); [answers|].
  apply (@answers_bind _ _
           (fun found : option Project =>
              found <> None ->
              has_key "password" (field (params req) "projectId") = false));
    [apply answers_found|intros found Hkey].
  destruct found as [p|]; [|answers].
  specialize (Hkey ltac:(discriminate)).
  destruct (user req) as [caller|]; [|answers].
  destruct (neither_owner_nor_admin p caller); [answers|].
  apply (@answers_bind _ _ (fun _ => True)); [apply answers_anything|intros assignee _].
  assert (Hwrite :
    answers_with (fun r => has_key "password" (json_data r) = false)
      (task <- Task_create (field (body req) "title") (field (body req) "description")
                 (or_else (field (body req) "status") (JStr "pending"))
                 (or_else (field (body req) "priority") (JStr "medium"))
                 (field (body req) "dueDate") (field (params req) "projectId")
                 (field (body req) "assignedTo") ;;
       if truthy (field (body req) "assignedTo")
       then
         task' <- Task_reload task ;;
         db <- snapshot ;;
         res_formatInstance req 201 true (Task_with_assignee db task')
                            (JStr "Tarea creada correctamente")
       else
         res_formatInstance req 201 false
           (Task_created task (field (body req) "title")
                         (field (body req) "description")
                         (or_else (field (body req) "status") (JStr "pending"))
                         (or_else (field (body req) "priority") (JStr "medium"))
                         (field (body req) "dueDate") (field (params req) "projectId")
                         (field (body req) "assignedTo"))
           (JStr "Tarea creada correctamente"))%async).
  { apply (@answers_bind _ _
             (fun _ => has_key "password" (field (body req) "title") = false
                       /\ has_key "password" (field (body req) "description") = false));
      [apply answers_Task_create|intros task [Htitle Hdescription]].
    destruct (truthy (field (body req) "assignedTo")) eqn:Hassigned; [answers|].
    apply answers_instance. unfold Task_created. apply keyless_defined.
    rewrite !keyless_cons, Htitle, Hdescription, Hkey, !keyless_Date_set.
    rewrite (keyless_or_else "password" _ (JStr "pending") Hstatus eq_refl).
    rewrite (keyless_or_else "password" _ (JStr "medium") Hpriority eq_refl).
    now rewrite (falsy_keyless _ _ Hassigned). }
  destruct (truthy (field (body req) "assignedTo"));
    [destruct assignee; [exact Hwrite|answers]|exact Hwrite].
Qed.

(** X21: no answer carries a password.  Whatever the request and the
    store, the [data] of the JSON answer of the handlers that answer
    with users, projects or tasks holds no key [password] at any depth:
    also not in a creator or an assignee that is loaded along. The two
    handlers that create a project or a task answer with the values
    they were given, so this holds of them when the body's [status]
    (and for a task its [priority]) carry no such key. *)
Theorem no_answer_carries_a_password (req : Request) (db : Db) :
  Forall (fun h : Request -> Handler HttpResponse =>
            has_key "password" (json_data (fst (h req db))) = false)
         [ register; login; getProfile;
           getProjects; getProjectById; updateProject;
           getProjectTasks; getTaskById; updateTask ]
  /\ (has_key "password" (field (body req) "status") = false ->
      has_key "password" (json_data (fst (createProject req db))) = false)
  /\ (has_key "password" (field (body req) "status") = false ->
      has_key "password" (field (body req) "priority") = false ->
      has_key "password" (json_data (fst (createTask req db))) = false).
Proof.
  split; [|split; [apply createProject_keyless|apply createTask_keyless]].
  repeat apply Forall_cons; [..|apply Forall_nil].
  - apply register_keyless.
  - unfold login. caught. unfold login_try. answers.
  - unfold getProfile. caught. unfold getProfile_try. answers.
  - unfold getProjects. caught. unfold getProjects_try. answers.
  - unfold getProjectById. caught. unfold getProjectById_try. answers.
  - apply updateProject_keyless.
  - unfold getProjectTasks. caught. unfold getProjectTasks_try. answers.
  - unfold getTaskById. caught. unfold getTaskById_try. answers.
  - apply updateTask_keyless.
Qed.


(** *** The routes *)

(** X22: behind [authenticate] no handler runs without a user.  When
    [authenticate] answers instead of passing the request on, each of
    the eleven routes of [/perfil], [/proyectos] and [/tareas] gives
    that answer, a 401 or a 500, and the store is as it was. *)
Theorem protected_routes_stop_the_unauthenticated
        (route : Request -> Handler HttpResponse) (req : Request) (db : Db)
        (r : HttpResponse) :
  In route protected_routes ->
  fst (authenticate req db) = Respond r ->
  route req db = (r, db) /\ (status r = 401 \/ status r = 500).
Proof.
  intros Hin Hr. split; [|now apply (authenticate_answers req db)].
  assert (Ha : authenticate req db = (Respond r, db)).
  { pose proof (authenticate_keeps_store req db) as Hk.
    destruct (authenticate req db) as [x db1]. cbn in Hr, Hk. now subst. }
  unfold protected_routes in Hin.
  repeat (destruct Hin as [<-|Hin];
          [unfold GET_perfil, GET_proyectos, POST_proyectos, GET_proyectos_id,
             PUT_proyectos_id, DELETE_proyectos_id, GET_proyectos_projectId_tareas,
             POST_proyectos_projectId_tareas, GET_tareas_id, PUT_tareas_id,
             DELETE_tareas_id, guarded; now rewrite Ha|]).
  destruct Hin.
Qed.

(** *** Reading never writes *)

Lemma reads_ret {A : Type} (a : A) : reads_only (ret a).
Proof. intros db. reflexivity. Qed.

Lemma reads_throw {A : Type} (e : JsError) : reads_only (@throw A e).
Proof. intros db. reflexivity. Qed.

Lemma reads_snapshot : reads_only snapshot.
Proof. intros db. reflexivity. Qed.

Lemma reads_bind {A B : Type} (m : Async A) (k : A -> Async B) :
  reads_only m -> (forall a, reads_only (k a)) -> reads_only (bind m k).
Proof.
  intros Hm Hk db. unfold bind. specialize (Hm db).
  destruct (m db) as [[a|e] db1]; cbn in Hm; subst db1; [apply Hk|reflexivity].
Qed.

Lemma reads_caught {A : Type} (m : Async A) (h : JsError -> A) (db : Db) :
  reads_only m -> snd (catching m h db) = db.
Proof.
  intros Hm. specialize (Hm db). unfold catching.
  now destruct (m db) as [[a|e] db1].
Qed.

Lemma reads_checkPassword (u : User) (password : JsVal) :
  reads_only (User_checkPassword u password).
Proof. intros db. now destruct password. Qed.

Ltac reads :=
  cbn zeta;
  repeat first
    [ apply reads_ret
    | apply reads_throw
    | apply reads_snapshot
    | apply reads_checkPassword
    | intros ?; apply res_formatInstance_keeps_store
    | intros ?; apply res_formatInstances_keeps_store
    | intros ?; apply findByPk_keeps_store
    | intros ?; apply findOne_keeps_store
    | intros ?; apply select_keeps_store
    | apply reads_bind; [|intros ?]
    | match goal with
      | |- reads_only (match ?x with _ => _ end) => destruct x
      end ].

(** X25: reading never writes.  [login], [getProfile] and the four
    handlers behind a GET leave the store as it was, whatever the
    request and whatever they answer. *)
Theorem reading_never_writes (req : Request) (db : Db) :
  Forall (fun h : Request -> Handler HttpResponse => snd (h req db) = db)
         [ login; getProfile; getProjects; getProjectById; getProjectTasks;
           getTaskById ].
Proof.
  repeat apply Forall_cons; [..|apply Forall_nil].
  - unfold login. apply reads_caught. unfold login_try. reads.
  - unfold getProfile. apply reads_caught. unfold getProfile_try. reads.
  - unfold getProjects. apply reads_caught. unfold getProjects_try. reads.
  - unfold getProjectById. apply reads_caught. unfold getProjectById_try. reads.
  - unfold getProjectTasks. apply reads_caught. unfold getProjectTasks_try. reads.
  - unfold getTaskById. apply reads_caught. unfold getTaskById_try. reads.
Qed.


(** *** utils/response.js: what XML keeps of the data *)

Lemma JsVal_nested_ind (P : JsVal -> Prop) :
  P JUndefined -> P JNull -> (forall b, P (JBool b)) -> (forall n, P (JNum n)) ->
  P JNaN -> (forall s, P (JStr s)) ->
  (forall items, Forall P items -> P (JArr items)) ->
  (forall fields, Forall (fun kv => P (snd kv)) fields -> P (JObj fields)) ->
  forall v, P v.
Proof.
  intros HU HN HB HZ HNaN HS HA HO. fix IH 1.
  intros [ | | b | n | | s | items | fields].
  - exact HU.
  - exact HN.
  - exact (HB b).
  - exact (HZ n).
  - exact HNaN.
  - exact (HS s).
  - apply HA. revert items. fix IHl 1. intros [|x items].
    + apply Forall_nil.
    + apply Forall_cons; [exact (IH x)|exact (IHl items)].
  - apply HO. revert fields. fix IHl 1. intros [|kv fields].
    + apply Forall_nil.
    + apply Forall_cons; [exact (IH (snd kv))|exact (IHl fields)].
Qed.

Lemma processObject_textual (v : JsVal) : processObject (textual v) = processObject v.
Proof.
  induction v as [ | | b | n | | s | items IH | fields IH] using JsVal_nested_ind;
    try reflexivity.
  - cbn [textual processObject]. f_equal. rewrite map_map.
    induction IH as [|x items Hx _ IHl]; [reflexivity|].
    cbn [map]. f_equal; [|exact IHl].
    destruct x; try reflexivity; now rewrite <- Hx.
  - cbn [textual processObject]. f_equal. rewrite map_map.
    induction IH as [|[k x] fields Hx _ IHl]; [reflexivity|].
    cbn [map fst snd] in *. f_equal; [|exact IHl].
    destruct x; try reflexivity; now rewrite <- Hx.
Qed.

Lemma truthy_textual (v : JsVal) : truthy (textual v) = truthy v.
Proof. now destruct v. Qed.

(** X23: the XML answer keeps no types.  Data in which every scalar
    inside an array or object is replaced by its text, as [String]
    gives it (5 by "5", 1e21 by "1e+21", true by "true", null by
    "null"), gives the same XML answer. *)
Theorem xml_answer_forgets_types (now : string) (statusCode : Z) (d m : JsVal) :
  formatResponse now statusCode (textual d) m (JStr "xml")
  = formatResponse now statusCode d m (JStr "xml").
Proof.
  unfold formatResponse. cbn [is_str String.eqb Ascii.eqb Bool.eqb]. cbn beta iota.
  do 2 f_equal. unfold generateXML, response_envelope, envelope_object.
  cbn [data success code message timestamp].
  assert (Hd : processObject (JObj [("data", or_else (textual d) JNull)])
               = processObject (JObj [("data", or_else d JNull)])).
  { unfold or_else. rewrite truthy_textual. destruct (truthy d); [|reflexivity].
    pose proof (processObject_textual d) as Hp.
    destruct d; try reflexivity; cbn [processObject map fst snd textual] in *;
      now rewrite Hp. }
  cbn [processObject map fst snd] in *. injection Hd as Hd. now rewrite Hd.
Qed.

(** X24: the error middleware answers alike on both of its paths.  The
    answer it writes by hand when the formatter is not installed is the
    answer the formatter gives, unless the request asks for XML, which
    the hand-written answer ignores. *)
Theorem error_handler_paths_agree (req : Request) :
  is_str "xml" (format_of req) = false ->
  error_handler false req = error_handler true req.
Proof.
  intros Hjson. unfold error_handler, res_formatResponse, formatResponse.
  destruct (format_of req); cbn in Hjson |- *; try reflexivity.
  now rewrite Hjson.
Qed.

End Answers.
End AnswerFacts.

(** ** The properties on the second installation *)

Module MoreScenarios.
Import Fixture Installation.
Import GateSoundness AuthFacts ProjectFacts TaskFacts AnswerFacts.

#[local] Existing Instance Installation.signing_collaborators.
#[local] Existing Instance Installation.password_check.

Lemma installation_reads_integer_keys : integer_keys.
Proof. intros k. reflexivity. Qed.

Lemma db0_well_formed : well_formed db0.
Proof.
  constructor; cbn.
  - repeat constructor; cbn; intuition discriminate.
  - repeat constructor; cbn; intuition discriminate.
  - repeat constructor; cbn; intuition discriminate.
  - repeat constructor; cbn; intuition discriminate.
  - intros u [<-|[<-|[<-|[]]]]; cbn; lia.
  - intros p [<-|[<-|[]]]; cbn; lia.
  - intros t [<-|[<-|[<-|[<-|[]]]]]; cbn; lia.
  - intros p [<-|[<-|[]]]; cbn; auto.
  - intros t [<-|[<-|[<-|[<-|[]]]]]; cbn; auto.
  - intros t k [<-|[<-|[<-|[<-|[]]]]]; cbn; discriminate.
Qed.

(** Luis, an authenticated user who is no administrator, before a gate
    for administrators. *)
Lemma authorize_behind_authenticate_witness :
  exists u,
    In u (users db0)
    /\ user (as_user luis (request (JStr "Bearer luis.user") [] []))
       = Some (identity_of u)
    /\ authorize (JArr [JStr "admin"])
                 (as_user luis (request (JStr "Bearer luis.user") [] []))
       = if allows (JArr [JStr "admin"]) (u_role u)
         then Next (as_user luis (request (JStr "Bearer luis.user") [] []))
         else answer (request (JStr "Bearer luis.user") [] []) 403
                     "No tiene permisos para acceder a este recurso".
Proof.
  apply authorize_behind_authenticate
    with (req := request (JStr "Bearer luis.user") [] []) (db := db0).
  reflexivity.
Defined.

(** Luis before his own project 10. *)
Lemma behind_the_gate_the_handler_checks_pass_witness :
  (status (fst (deleteProject
                  (set_project web
                     (as_user luis (request JUndefined [("id", JStr "10")] [])))
                  db0)) = 200
   /\ exists p,
        project (set_project web
                   (as_user luis (request JUndefined [("id", JStr "10")] [])))
        = Some p
        /\ In p (projects db0)
        /\ forall q,
             In q (projects
                     (snd (deleteProject
                             (set_project web
                                (as_user luis
                                   (request JUndefined [("id", JStr "10")] [])))
                             db0))) ->
             p_id q <> p_id p)
  /\ status (fst (updateProject
                    (set_project web
                       (as_user luis (request JUndefined [("id", JStr "10")] [])))
                    db0)) <> 403
  /\ status (fst (updateProject
                    (set_project web
                       (as_user luis (request JUndefined [("id", JStr "10")] [])))
                    db0)) <> 404.
Proof.
  apply behind_the_gate_the_handler_checks_pass
    with (req := as_user luis (request JUndefined [("id", JStr "10")] []));
    reflexivity.
Defined.

(** A wrong password for Luis, and an address nobody has. *)
Lemma login_hides_which_credential_failed_witness :
  fst (login (request JUndefined []
                [("email", JStr "luis@test.com"); ("password", JStr "wrong")]) db0)
  = fst (login (request JUndefined []
                  [("email", JStr "nobody@test.com"); ("password", JStr "y")]) db0).
Proof.
  rewrite login_hides_which_credential_failed
    with (req := request JUndefined []
                   [("email", JStr "luis@test.com"); ("password", JStr "wrong")])
         (e := "luis@test.com") (pw := "wrong").
  - rewrite login_hides_which_credential_failed
      with (req := request JUndefined []
                     [("email", JStr "nobody@test.com"); ("password", JStr "y")])
           (e := "nobody@test.com") (pw := "y").
    + reflexivity.
    + reflexivity.
    + discriminate.
    + reflexivity.
    + discriminate.
    + reflexivity.
    + intros u [<-|[<-|[<-|[]]]] E; discriminate E.
  - reflexivity.
  - discriminate.
  - reflexivity.
  - discriminate.
  - reflexivity.
  - intros u [<-|[<-|[<-|[]]]] E; try discriminate E. split; reflexivity.
Defined.

(** Eva's account is inactive; the password given is not hers. *)
Lemma login_refuses_inactive_whatever_the_password_witness :
  login (request JUndefined []
           [("email", JStr "eva@test.com"); ("password", JStr "anything")]) db0
  = (res_formatResponse
       (request JUndefined []
          [("email", JStr "eva@test.com"); ("password", JStr "anything")])
       401 JNull (JStr "Usuario inactivo. Contacte al administrador"), db0).
Proof.
  apply login_refuses_inactive_whatever_the_password
    with (e := "eva@test.com") (u := eva).
  - reflexivity.
  - discriminate.
  - reflexivity.
  - reflexivity.
  - apply db0_well_formed.
  - right. right. left. reflexivity.
  - reflexivity.
  - reflexivity.
Defined.

(** An array given as the e-mail is read as a list to choose from. *)
Example login_with_a_list_of_addresses :
  status (fst (login (request JUndefined []
                        [("email", JArr [JStr "nobody@test.com"; JStr "luis@test.com"]);
                         ("password", JStr "y")]) db0)) = 200
  /\ status (fst (login (request JUndefined []
                           [("email", JObj [("like", JStr "%")]);
                            ("password", JStr "y")]) db0)) = 500.
Proof. split; reflexivity. Qed.

(** Noa registers and logs in. *)
Lemma registered_user_can_log_in_witness :
  status (fst (register
                 (request JUndefined []
                    [("name", JStr "Noa"); ("email", JStr "noa@test.com");
                     ("password", JStr "Secreta123")]) db0)) = 201
  /\ status (fst (login
                    (request JUndefined []
                       [("email", JStr "noa@test.com");
                        ("password", JStr "Secreta123")])
                    (snd (register
                            (request JUndefined []
                               [("name", JStr "Noa"); ("email", JStr "noa@test.com");
                                ("password", JStr "Secreta123")]) db0)))) = 200.
Proof.
  destruct registered_user_can_log_in
    with (req := request JUndefined []
                   [("name", JStr "Noa"); ("email", JStr "noa@test.com");
                    ("password", JStr "Secreta123")])
         (req2 := request JUndefined []
                    [("email", JStr "noa@test.com"); ("password", JStr "Secreta123")])
         (db := db0) (n := "Noa") (e := "noa@test.com") (pw := "Secreta123")
    as (Hst & _ & Hlogin); try reflexivity; try discriminate.
  - intros u [<-|[<-|[<-|[]]]]; discriminate.
  - split; [exact Hst|]. rewrite Hlogin. reflexivity.
Defined.


(** Luis reads his profile. *)
Lemma profile_of_the_authenticated_user_witness :
  let req' := as_user luis (request (JStr "Bearer luis.user") [] []) in
  status (fst (getProfile req' db0)) = 200
  /\ snd (getProfile req' db0) = db0
  /\ status (fst (getProfile (as_xml req') db0)) = 200
  /\ exists u,
       In u (users db0)
       /\ prop (json_data (fst (getProfile req' db0))) "email" = JStr (u_email u)
       /\ prop (json_data (fst (getProfile req' db0))) "password" = JUndefined.
Proof.
  intros req'.
  destruct profile_of_the_authenticated_user
    with (req := request (JStr "Bearer luis.user") [] []) (req' := req') (db := db0)
    as (u & Hin & _ & Hstatus & Hstore & Hjson);
    [exact installation_reads_integer_keys|exact (wf_users db0_well_formed)
    |reflexivity|].
  destruct profile_of_the_authenticated_user
    with (req := as_xml (request (JStr "Bearer luis.user") [] []))
         (req' := as_xml req') (db := db0)
    as (_ & _ & _ & Hxml & _);
    [exact installation_reads_integer_keys|exact (wf_users db0_well_formed)
    |reflexivity|].
  split; [exact Hstatus|]. split; [exact Hstore|]. split; [exact Hxml|].
  destruct (Hjson eq_refl) as (_ & Hpassword & _ & _ & Hemail & _).
  exists u. split; [exact Hin|]. split; [exact Hemail|exact Hpassword].
Defined.

(** Luis creates a project; the body names another creator. *)
Lemma createProject_creates_for_the_caller_witness :
  exists caller p,
    user (as_user luis
            (request JUndefined [] [("name", JStr "Nuevo"); ("createdBy", JNum 1)]))
    = Some caller
    /\ projects (snd (createProject
                        (as_user luis
                           (request JUndefined []
                              [("name", JStr "Nuevo"); ("createdBy", JNum 1)])) db0))
       = (projects db0 ++ [p])%list
    /\ p_id p = projects_seq db0 + 1
    /\ p_createdBy p = ru_id caller
    /\ In (ru_id caller) (map u_id (users db0))
    /\ (truthy (field (body (as_user luis
                               (request JUndefined []
                                  [("name", JStr "Nuevo"); ("createdBy", JNum 1)])))
                      "status") = false ->
        p_status p = "active")
    /\ users (snd (createProject
                     (as_user luis
                        (request JUndefined []
                           [("name", JStr "Nuevo"); ("createdBy", JNum 1)])) db0))
       = users db0
    /\ tasks (snd (createProject
                     (as_user luis
                        (request JUndefined []
                           [("name", JStr "Nuevo"); ("createdBy", JNum 1)])) db0))
       = tasks db0.
Proof.
  apply createProject_creates_for_the_caller.
  - exact installation_reads_integer_keys.
  - reflexivity.
Defined.

(** Luis creates project 12 and then asks for it. *)
Lemma creator_reaches_the_created_project_witness :
  let created :=
    snd (createProject (as_user luis (request JUndefined [] [("name", JStr "Nuevo")]))
                       db0) in
  let req2 := as_user luis (request JUndefined [("id", JStr "12")] []) in
  (exists p req',
     In p (projects created) /\ p_id p = 12
     /\ isProjectOwnerOrAdmin req2 created = (Next req', created)
     /\ project req' = Some p)
  /\ status (fst (getProjectById req2 created)) = 200
  /\ status (fst (getProjectById (as_xml req2) created)) = 500.
Proof.
  intros created req2.
  destruct creator_reaches_the_created_project
    with (req := as_user luis (request JUndefined [] [("name", JStr "Nuevo")]))
         (req2 := req2) (db := db0) (v := JStr "12")
    as (p & req' & Hin & Hid & Hgate & Hproject & _ & _ & _ & _ & _ & Hstatus);
    [exact installation_reads_integer_keys|exact (wf_projects_seq db0_well_formed)
    |reflexivity..|].
  destruct creator_reaches_the_created_project
    with (req := as_user luis (request JUndefined [] [("name", JStr "Nuevo")]))
         (req2 := as_xml req2) (db := db0) (v := JStr "12")
    as (_ & _ & _ & _ & _ & _ & _ & _ & _ & _ & _ & Hxml);
    [exact installation_reads_integer_keys|exact (wf_projects_seq db0_well_formed)
    |reflexivity..|].
  split; [|split; [exact Hstatus|exact Hxml]].
  exists p, req'. split; [exact Hin|]. split; [exact Hid|].
  split; [exact Hgate|exact Hproject].
Defined.

(** Luis, the assignee of task 103 but a stranger to its project, asks
    to delete it. *)
Lemma failed_request_writes_nothing_witness :
  snd (deleteTask (as_user luis (request JUndefined [("id", JStr "103")] [])) db1) = db1
  /\ snd (createTask (as_user luis (request JUndefined [("projectId", JStr "11")]
                                            [("title", JStr "Nueva")])) db1) = db1.
Proof.
  split.
  - destruct (failed_request_writes_nothing
                (as_user luis (request JUndefined [("id", JStr "103")] [])) db1
                installation_reads_integer_keys) as (_ & _ & _ & _ & _ & _ & Hd).
    apply Hd. unfold failed. cbn. lia.
  - destruct (failed_request_writes_nothing
                (as_user luis (request JUndefined [("projectId", JStr "11")]
                                       [("title", JStr "Nueva")])) db1
                installation_reads_integer_keys) as (_ & _ & _ & _ & Hc & _).
    apply Hc; [left; reflexivity|]. unfold failed. cbn. lia.
Defined.

(** What the conditions on [createTask] and [updateTask] are for: Luis
    adds a task for Ana to his project and asks for XML; the answer is
    500 "Error al crear tarea", and the task is stored. *)
Example createTask_fails_after_the_write :
  let req := as_xml (as_user luis (request JUndefined [("projectId", JStr "10")]
                                           [("title", JStr "Nueva");
                                            ("assignedTo", JNum 1)])) in
  fst (createTask req db0)
  = res_formatResponse req 500 JNull (JStr "Error al crear tarea")
  /\ length (tasks db0) = 4%nat
  /\ length (tasks (snd (createTask req db0))) = 5%nat.
Proof. cbn zeta. repeat split. Qed.

(** Luis adds a task to his project. *)
Lemma handlers_keep_the_store_well_formed_witness :
  well_formed
    (snd (createTask
            (as_user luis
               (request JUndefined [("projectId", JStr "10")]
                        [("title", JStr "Nueva"); ("assignedTo", JNum 1)])) db0)).
Proof.
  destruct (handlers_keep_the_store_well_formed
              (as_user luis
                 (request JUndefined [("projectId", JStr "10")]
                          [("title", JStr "Nueva"); ("assignedTo", JNum 1)]))
              db0_well_formed) as (_ & _ & _ & _ & Hc & _).
  exact Hc.
Defined.

(** Luis before Ana's project 11. *)
Lemma project_handlers_refuse_strangers_witness :
  deleteProject (as_user luis (request JUndefined [("id", JStr "11")] [])) db0
  = (res_formatResponse (as_user luis (request JUndefined [("id", JStr "11")] []))
       403 JNull (JStr "No tiene permisos para eliminar este proyecto"), db0).
Proof.
  destruct (@project_handlers_refuse_strangers _
              (as_user luis (request JUndefined [("id", JStr "11")] [])) db0 api
              (identity_of luis)) as [Hid _].
  - reflexivity.
  - discriminate.
  - discriminate.
  - destruct (Hid eq_refl) as (_ & _ & Hd). exact Hd.
Defined.

(** Luis is the assignee of task 103, which belongs to Ana's project. *)
Lemma task_handlers_ask_the_project_witness :
  getTaskById (as_user luis (request JUndefined [("id", JStr "103")] [])) db1
  = (res_formatResponse (as_user luis (request JUndefined [("id", JStr "103")] []))
       403 JNull (JStr "No tiene permisos para ver esta tarea"), db1)
  /\ updateTask (as_user luis (request JUndefined [("id", JStr "103")] [])) db1
     = (res_formatResponse (as_user luis (request JUndefined [("id", JStr "103")] []))
          403 JNull (JStr "No tiene permisos para modificar esta tarea"), db1)
  /\ deleteTask (as_user luis (request JUndefined [("id", JStr "103")] [])) db1
     = (res_formatResponse (as_user luis (request JUndefined [("id", JStr "103")] []))
          403 JNull (JStr "No tiene permisos para eliminar esta tarea"), db1).
Proof.
  eapply task_handlers_ask_the_project with (p := api).
  - reflexivity.
  - reflexivity.
  - reflexivity.
  - discriminate.
  - discriminate.
Defined.

(** Ana deletes task 103. *)
Lemma deleteTask_removes_that_task_witness :
  exists t,
    fst (Task_findByPk
           (field (params (as_user ana (request JUndefined [("id", JStr "103")] [])))
                  "id") db1) = Ok (Some t)
    /\ In t (tasks db1)
    /\ (forall x,
          In x (tasks (snd (deleteTask
                              (as_user ana (request JUndefined [("id", JStr "103")] []))
                              db1)))
          <-> In x (tasks db1) /\ x <> t)
    /\ users (snd (deleteTask
                     (as_user ana (request JUndefined [("id", JStr "103")] [])) db1))
       = users db1
    /\ projects (snd (deleteTask
                        (as_user ana (request JUndefined [("id", JStr "103")] []))
                        db1))
       = projects db1.
Proof.
  apply deleteTask_removes_that_task.
  - repeat constructor; cbn; intuition discriminate.
  - reflexivity.
Defined.

(** Ana reassigns task 103 to a user that is not there. *)
Lemma updateTask_unknown_assignee_witness :
  updateTask
    (as_user ana (request JUndefined [("id", JStr "103")]
                          [("title", JStr "Changed"); ("assignedTo", JNum 77)])) db1
  = (res_formatResponse
       (as_user ana (request JUndefined [("id", JStr "103")]
                             [("title", JStr "Changed"); ("assignedTo", JNum 77)]))
       404 JNull (JStr "Usuario asignado no encontrado"), db1).
Proof.
  eapply updateTask_unknown_assignee with (p := api).
  - reflexivity.
  - reflexivity.
  - reflexivity.
  - right. reflexivity.
  - reflexivity.
  - reflexivity.
  - reflexivity.
Defined.

(** Ana asks for a status that is not declared. *)
Lemma updates_keep_the_declared_labels_witness :
  Forall (fun q => In (p_status q) Project_status_values)
         (projects (snd (updateProject
                           (as_user ana
                              (request JUndefined [("id", JStr "11")]
                                       [("status", JStr "bogus")])) db1)))
  /\ Forall (fun t => In (t_status t) Task_status_values
                      /\ In (t_priority t) Task_priority_values)
            (tasks (snd (updateTask
                           (as_user ana
                              (request JUndefined [("id", JStr "11")]
                                       [("status", JStr "bogus")])) db1))).
Proof.
  apply updates_keep_the_declared_labels.
  - repeat (apply Forall_cons; [cbn; tauto|]). apply Forall_nil.
  - repeat (apply Forall_cons; [cbn; tauto|]). apply Forall_nil.
Defined.

(** Luis adds a task to project 10 and lists its tasks. *)
Lemma created_task_is_listed_witness :
  let created :=
    snd (createTask (as_user luis (request JUndefined [("projectId", JStr "10")]
                                           [("title", JStr "Nueva")])) db0) in
  let listing :=
    fst (getProjectTasks (as_user luis (request JUndefined [("projectId", JStr "10")] []))
                         created) in
  status listing = 200
  /\ In (JNum 104) (listed "id" listing)
  /\ exists rows row,
       json_data listing = JArr rows /\ In row rows
       /\ prop row "id" = JNum 104 /\ prop row "projectId" = JNum 10
       /\ prop row "title" = JStr "Nueva".
Proof.
  intros created listing.
  destruct created_task_is_listed
    with (req := as_user luis (request JUndefined [("projectId", JStr "10")]
                                       [("title", JStr "Nueva")]))
         (req2 := as_user luis (request JUndefined [("projectId", JStr "10")] []))
         (db := db0)
    as (Hstatus & _ & Hlisted & rows & row & k & Hdata & Hin & Hid & Hk & Hpid & Htitle);
    [reflexivity..|].
  split; [exact Hstatus|]. split; [exact Hlisted|].
  exists rows, row. split; [exact Hdata|]. split; [exact Hin|]. split; [exact Hid|].
  split; [|exact (Htitle "Nueva" eq_refl)].
  rewrite Hpid. f_equal. injection Hk as Hk. now symmetry.
Defined.

(** A request without a token for the deletion of task 103. *)
Lemma protected_routes_stop_the_unauthenticated_witness :
  exists r,
    DELETE_tareas_id (request JUndefined [("id", JStr "103")] []) db1 = (r, db1)
    /\ (status r = 401 \/ status r = 500).
Proof.
  eexists. eapply protected_routes_stop_the_unauthenticated.
  - do 10 right. left. reflexivity.
  - reflexivity.
Defined.

(** Luis creates a project and a task with the default labels. *)
Lemma no_answer_carries_a_password_witness :
  has_key "password"
    (json_data (fst (createProject
                       (as_user luis (request JUndefined [] [("name", JStr "Nuevo")]))
                       db0))) = false
  /\ has_key "password"
       (json_data (fst (createTask
                          (as_user luis (request JUndefined [("projectId", JStr "10")]
                                                 [("title", JStr "Nueva")])) db0)))
     = false.
Proof.
  split.
  - exact (proj1 (proj2 (no_answer_carries_a_password
                           (as_user luis (request JUndefined []
                                                  [("name", JStr "Nuevo")])) db0))
                 eq_refl).
  - exact (proj2 (proj2 (no_answer_carries_a_password
                           (as_user luis (request JUndefined [("projectId", JStr "10")]
                                                  [("title", JStr "Nueva")])) db0))
                 eq_refl eq_refl).
Defined.

(** What the condition on the two handlers is for: the ORM letting any
    value into an ENUM attribute, a [status] that is an object is
    stored as its text and sent back as it came. *)
Example createProject_answers_the_status_given :
  let req := as_user luis (request JUndefined []
                             [("name", JStr "Nuevo");
                              ("status", JObj [("password", JStr "x")])]) in
  status (fst (@createProject untyped_collaborators req db0)) = 201
  /\ prop (json_data (fst (@createProject untyped_collaborators req db0))) "status"
     = JObj [("password", JStr "x")]
  /\ has_key "password" (json_data (fst (@createProject untyped_collaborators req db0)))
     = true.
Proof. cbn zeta. repeat split. Qed.

(** A request that does not ask for XML. *)
Lemma error_handler_paths_agree_witness :
  error_handler false (request JUndefined [] [])
  = error_handler true (request JUndefined [] []).
Proof.
  apply error_handler_paths_agree. reflexivity.
Defined.

End MoreScenarios.
